(* ===== verification/_CoqProject ===== *)
-Q . S2P
Prelude.v
Monad.v
Hal.v
Encoder.v
Window.v
Raster.v
Circle.v
Init.v
Controller.v
Refinement.v
Session.v
Spans.v
Wire.v
Reachable.v
Diagnostics.v
