(* ===== verification/Prelude.v ===== *)
(** * A verification development for the ST7789 LCD driver

    The repository ships one C driver, [src/DRIVER/ST7789/st7789.c] with
    its header [st7789.h]: it turns drawing requests (pixels, lines,
    rectangles, circles, bitmaps) into the ST7789 command/data protocol
    sent over SPI, and runs the controller's reset and power-up sequence.
    The driver calls three external capabilities, which it reaches through
    [drv_gpio.h], [drv_spi.h] and [aos_msleep]: a GPIO pin write/mode, an
    SPI init/send on the global handle [st7789_spi], and a millisecond
    sleep.  Those headers are not part of the repository.

    ** How the program is modelled

    Every driver function is a Rocq definition in a small state-and-trace
    monad ([Monad.v]).  The state is the one global the C code keeps, the
    SPI handle [static spi_dev_t st7789_spi], and the output is the list of
    calls the driver makes on its platform ([Hal.event]): GPIO writes, pin
    modes, SPI init, SPI sends (with the handle they were sent on and the
    bytes), sleeps and console output.  A computation can also run out of fuel, which is
    how a C loop that never exits is represented: the events emitted so far
    are kept, and no result is returned.  C integer conversions are written
    out ([u8], [u16], [u32], [s16] below): a [uint16_t] parameter computed
    as [x + w - 1] is [u16 (x + w - 1)], an [int16_t] loop variable is
    kept in [s16] after each update.

    - [Prelude.v] (this file): the C conversions, big-endian byte helpers,
      the [st7789] hint database, shared tactics and list lemmas.
    - [Monad.v]: the monad [M S E A], its laws up to pointwise equality
      [meq] (a setoid with [Proper] instances for [bind]), counted loops
      [repeatM], and the fuelled [while_] loop with its fuel-monotonicity
      and measure-based termination lemmas.
    - [Hal.v]: the platform boundary: pin numbers and the ST7789 command,
      MADCTL and colour constants of [st7789.h], the SPI handle record, the
      [event] type, the [Hal] class (what [drv_spi_init] answers) and the
      primitive calls [drv_gpio_write], [drv_gpio_mode], [drv_spi_send],
      [drv_spi_init], [aos_msleep], and [printf] as a console event.
    - [Encoder.v]: [st7789_send_cmd], [st7789_send_data],
      [st7789_send_data16], [st7789_send_data_block], [st7789_delay_ms],
      [st7789_hard_reset] (st7789.c 23-81); protocol frames (DC level plus
      one SPI transfer) and the controller's view of a frame stream as
      (command, parameter bytes) groups.
    - [Window.v]: [st7789_set_addr_window] (st7789.c 84-99).
    - [Raster.v]: [st7789_clear], [st7789_fill_rect], [st7789_draw_pixel],
      [st7789_draw_hline], [st7789_draw_vline], [st7789_draw_bitmap] (its
      chunk loop by well-founded recursion with Equations, the 2048-byte
      stack buffer modelled as a list that is overwritten in place),
      [st7789_set_rotation], [st7789_display_on],
      [st7789_invert_display] (st7789.c 170-343).
    - [Circle.v]: [st7789_draw_circle] and [st7789_fill_circle]
      (st7789.c 223-276) with their [int16_t] state and fuelled loops.
    - [Init.v]: [st7789_init] (st7789.c 101-168), with the platform's
      answer to [drv_spi_init] as an instance of the [Hal] class and the
      diagnostic it prints when that answer is a failure.
    - [Controller.v]: the ST7789 chip, which is not in the repository,
      modelled from the spec and data sheet as the driver's counterpart:
      a byte-level state machine reading the DC line, the address
      window and raster-order write pointer of RAMWR, the mode
      registers, reset, and the frame memory as a stdpp [gmap] from
      (column, row) to a 16-bit colour.
    - [Refinement.v]: runs the controller on the driver's traces
      ([run_on s m dev]: the controller in state [s] after the trace of
      routine [m] on handle [dev]) and states each drawing and
      configuration routine's effect on the frame memory and registers.
    - [Session.v]: the public API of [st7789.h] as a datatype of calls
      ([api_call], dispatched by [api_run]), [st7789_init] included, and
      the rotation taken as the C [int] the enum parameter can hold.  A
      client session is a list of calls run in order ([api_session]);
      [handle_step] gives the handle after each call.  Also the abstract
      screen the spec describes (frame memory and mode registers), with
      each call's effect ([screen_step]).  The effect of [st7789_init]
      depends on what the [Hal] instance answers.
    - [Spans.v]: the variant of [st7789_fill_circle] the spec permits,
      each span drawn by [st7789_draw_hline] ([fill_circle_lines]), a
      reference definition compared with the code.
    - [Wire.v]: the handle each transfer of a session goes out on, and
      the bytes it carries ([frame_ok], [wire_ok]), call by call and
      session by session.
    - [Reachable.v]: lemmas on the controller model alone: its states
      reachable under byte-valued SPI data, as an inductive relation
      ([reachable]), and their invariant [lcd_inv].
    - [Diagnostics.v]: the console output of a trace
      ([console_output]) and of each call ([call_console]).

    ** What the theorems show

    - Encoder: [st7789_send_data16] sends a 16-bit value high byte first
      in one transfer; [st7789_send_data_block] asserts DC once and sends
      the first [len] bytes in one transfer.  Every write function equals
      [send] of its frames, so traces compose by list concatenation.
    - Window: [st7789_set_addr_window] sends CASET, RASET, RAMWR with the
      four bounds big-endian, and the controller's reading of the stream
      decodes back to the bounds.
    - Raster: [st7789_fill_rect] programs the window and sends exactly
      [w*h] colour words; [st7789_draw_hline]/[st7789_draw_vline] are
      [st7789_fill_rect] with height/width 1; an empty rectangle still
      programs a wrapped window; [st7789_set_rotation] sends the MADCTL
      byte of each enum value and no parameter for a value outside it;
      [st7789_draw_bitmap] sends the first [w*h] pixels in chunks of at
      most 1024 pixels, whatever the stack buffer held before; its chunk
      loop [bitmap_loop] makes [n / 1024] transfers of 2048 bytes and one
      of the remainder, which together are the big-endian serialisation
      of the pixels.
    - Circle: the [int16_t] midpoint loop of [st7789_draw_circle]
      terminates for every [uint16_t] radius and plots exactly the pure
      account [circle_points]; for radii up to 8000 its arithmetic never
      wraps and keeps the midpoint invariant; the outline is 8-fold
      symmetric and not clipped (past the left or top edge it wraps to
      the far end of the 16-bit range); [st7789_fill_circle] covers the
      outline when the disc stays below column 32767, sends the centre
      pixel twice in a row, and never returns when [x0 + r >= 32767] (its
      [int16_t] counter wraps).
    - Session: any session of valid calls returns with the SPI handle
      unchanged, and the controller running its trace ends in exactly the
      abstract screen of the calls, whatever state it started in: a
      simulation of the abstract screen by the driver and controller
      together, proved call by call.
    - Wire: in a session that starts with [st7789_init], every transfer
      uses the configured handle, whether the platform accepted it or
      not.
    - Spans: drawing each span of [st7789_fill_circle] as a line leaves
      the same screen as the code when the disc stays [r] away from the
      left and top edges and inside the 16-bit range; an example shows
      that they differ at the left edge.
    - Reachable (controller only): every reachable controller state
      satisfies [lcd_inv] (16-bit window, pointer, addresses and colours;
      a byte-sized pending half pixel; the pointer inside the window
      during a memory write), by rule induction.
    - Diagnostics: a session prints the SPI-init message once for each
      [st7789_init] the platform refuses, and nothing else.
    - Refinement: on the controller, [st7789_fill_rect] paints exactly
      its rectangle; [st7789_draw_bitmap] stores pixel [j*w + i] at
      [(x + i, y + j)] and nothing outside; [st7789_draw_pixel] stores one
      point; the circle routines paint exactly [circle_points] /
      [fill_points]; [st7789_set_rotation] loads the rotation's MADCTL
      flags; a successful [st7789_init] leaves the controller awake, on,
      inverted, RGB565, with columns 0..239 and rows 0..319; and the
      session init, clear red, white pixel leaves a red screen with one
      white pixel.  These rest on generic lemmas: a window followed by
      data frames carrying big-endian pixels, however the bytes are
      split into transfers, is a sequence of pixel writes in raster order.
    - Init: [st7789_init] prints its diagnostic and returns -1 right
      after a refused SPI init, and
      otherwise returns 0 after the reset pulse, the documented command
      sequence with its delays and the backlight; its MADCTL byte is the
      180-degree pattern and its row range ends at 319.  A session of
      init, clear and one pixel is traced end to end.

    ** Bounds and fuel

    Loops over [uint16_t] counters are counted loops ([repeatM]).  The
    bitmap chunk loop terminates by its measure (remaining pixels).  The
    circle loops run with fuel 65536 ([circle_fuel], [span_fuel]): the
    outline loop makes at most [y - x + 1 <= 32768] iterations for every
    [uint16_t] radius (its measure decreases at each step, proved for all
    radii including those that wrap in [int16_t]), and a span loop at most
    [hi - lo + 1 <= 65536].  Where the C loop does not terminate, the
    model is shown to run out of every fuel.  The exact-arithmetic
    theorems are stated for radii up to 8000, where every intermediate
    value of [d] stays within [int16_t]; the fill theorems for
    [x0 + r <= 32766].

    ** Not modelled

    The internals of the GPIO/SPI/sleep drivers: they are external, and only
    their calls are recorded.  Timing of the SPI bus itself.  Concurrent
    callers: the driver takes no lock and the spec (section 5) leaves
    serialisation to the callers, so sessions are sequences of whole
    calls.  The
    controller's read commands, scrolling and partial modes, which the
    driver never sends.  How MADCTL maps the frame memory onto the glass:
    the frame memory is kept in the controller's address space.  The
    [int] overflow of [w * h] in [st7789_draw_bitmap] beyond 2^31, which is
    undefined behaviour in C: the model takes the product modulo 2^32.
    The return value of [drv_spi_send]: the driver discards it, so the
    model records the call and nothing else.  A failed transfer therefore
    changes nothing in the driver's behaviour, as the spec (section 7b)
    says of the reference.

    Every function, macro, type and global of [st7789.c] and [st7789.h]
    has its definition here; the lines of the two files no definition
    translates are comments, [#include] lines and the include guard.  The
    two components left partly modelled are partly outside the
    repository: the platform drivers behind [drv_gpio.h], [drv_spi.h] and
    [aos_msleep], and the ST7789 chip, whose commands the driver never
    sends (reads, scrolling, partial mode, tearing effect, idle mode)
    would have no driver code to be checked against.
*)

From Stdlib Require Import ZArith List Lia.
Import ListNotations.
Open Scope Z_scope.

Declare Scope st_scope.
Delimit Scope st_scope with st.

(** ** C integer conversions *)

(** Conversion of an [int] value to [uint8_t], [uint16_t], [uint32_t]
    (reduction modulo 2^w) and to [int16_t] (two's complement wrap, the
    implementation-defined behaviour of GCC and Clang). *)
Definition u8 (z : Z) : Z := z mod 256.
Definition u16 (z : Z) : Z := z mod 65536.
Definition u32 (z : Z) : Z := z mod 4294967296.
Definition s16 (z : Z) : Z := (z + 32768) mod 65536 - 32768.

(** Range predicates of the C types, as booleans so that they compute. *)
Definition is_u8 (z : Z) : bool := (0 <=? z) && (z <? 256).
Definition is_u16 (z : Z) : bool := (0 <=? z) && (z <? 65536).

(** The two bytes of a 16-bit value as the driver computes them:
    [v >> 8] and [v & 0xFF], each stored in a [uint8_t]. *)
Definition hi8 (v : Z) : Z := u8 (Z.shiftr v 8).
Definition lo8 (v : Z) : Z := u8 (Z.land v 255).

(** The big-endian wire form of a 16-bit value and its decoder. *)
Definition be16 (v : Z) : list Z := [hi8 v; lo8 v].

Definition be16_decode (bs : list Z) : option Z :=
  match bs with
  | [h; l] => Some (h * 256 + l)
  | _ => None
  end.

Notation "'⟦' v '⟧₁₆'" := (u16 v) (format "⟦ v ⟧₁₆") : st_scope.

Create HintDb st7789.

(** ** Lemmas on the conversions *)

Lemma is_u16_spec z : is_u16 z = true <-> 0 <= z < 65536.
Proof. unfold is_u16. rewrite Bool.andb_true_iff, Z.leb_le, Z.ltb_lt. tauto. Qed.

Lemma is_u8_spec z : is_u8 z = true <-> 0 <= z < 256.
Proof. unfold is_u8. rewrite Bool.andb_true_iff, Z.leb_le, Z.ltb_lt. tauto. Qed.

Lemma u8_range z : 0 <= u8 z < 256.
Proof. unfold u8. apply Z.mod_pos_bound. lia. Qed.

Lemma u16_range z : 0 <= u16 z < 65536.
Proof. unfold u16. apply Z.mod_pos_bound. lia. Qed.

Lemma s16_range z : -32768 <= s16 z < 32768.
Proof. unfold s16. pose proof (Z.mod_pos_bound (z + 32768) 65536). lia. Qed.

Lemma u8_small z : 0 <= z < 256 -> u8 z = z.
Proof. intros. unfold u8. apply Z.mod_small. lia. Qed.

Lemma u16_small z : 0 <= z < 65536 -> u16 z = z.
Proof. intros. unfold u16. apply Z.mod_small. lia. Qed.

Lemma u32_small z : 0 <= z < 4294967296 -> u32 z = z.
Proof. intros. unfold u32. apply Z.mod_small. lia. Qed.

Lemma s16_small z : -32768 <= z < 32768 -> s16 z = z.
Proof. intros. unfold s16. rewrite Z.mod_small; lia. Qed.

(** [u16] of a value one below the range wraps to the top. *)
Lemma u16_minus_one : u16 (-1) = 65535.
Proof. reflexivity. Qed.

Lemma hi8_spec v : 0 <= v < 65536 -> hi8 v = v / 256.
Proof.
  intros. unfold hi8. rewrite Z.shiftr_div_pow2 by lia.
  apply u8_small. change (2 ^ 8) with 256. split.
  - apply Z.div_pos; lia.
  - apply Z.div_lt_upper_bound; lia.
Qed.

Lemma lo8_spec v : lo8 v = v mod 256.
Proof.
  unfold lo8. change 255 with (Z.ones 8). rewrite Z.land_ones by lia.
  apply u8_small. apply Z.mod_pos_bound. lia.
Qed.

Lemma hi8_range v : 0 <= hi8 v < 256.
Proof. apply u8_range. Qed.

Lemma lo8_range v : 0 <= lo8 v < 256.
Proof. apply u8_range. Qed.

#[export] Hint Resolve u8_range u16_range s16_range hi8_range lo8_range : st7789.

(** Splitting a 16-bit value into its two bytes loses nothing. *)
Lemma be16_decode_be16 v : 0 <= v < 65536 -> be16_decode (be16 v) = Some v.
Proof.
  intros H. cbn [be16 be16_decode]. rewrite hi8_spec, lo8_spec by lia.
  f_equal. pose proof (Z.div_mod v 256). lia.
Qed.

Lemma be16_inj v w :
  0 <= v < 65536 -> 0 <= w < 65536 -> be16 v = be16 w -> v = w.
Proof.
  intros Hv Hw E. apply be16_decode_be16 in Hv. apply be16_decode_be16 in Hw.
  rewrite E in Hv. congruence.
Qed.

(** ** List helpers shared by the components *)

Lemma flat_map_repeat {A B} (f : A -> list B) (a : A) n :
  flat_map f (repeat a n) = concat (repeat (f a) n).
Proof. induction n as [|n IH]; cbn; [reflexivity | now rewrite IH]. Qed.

Lemma concat_repeat_app {A} (l : list A) n m :
  concat (repeat l (n + m)) = concat (repeat l n) ++ concat (repeat l m).
Proof. now rewrite repeat_app, concat_app. Qed.

Lemma concat_repeat_mul {A} (l : list A) n m :
  concat (repeat (concat (repeat l n)) m) = concat (repeat l (m * n)).
Proof.
  induction m as [|m IH]; cbn; [reflexivity|].
  now rewrite IH, concat_repeat_app.
Qed.

Lemma length_concat_repeat {A} (l : list A) n :
  length (concat (repeat l n)) = (n * length l)%nat.
Proof.
  induction n as [|n IH]; cbn; [reflexivity|]. now rewrite length_app, IH.
Qed.

(** ** Tactics *)

(** Normalise the C conversions of values already known to be in range. *)
Ltac conv_small :=
  repeat first
    [ rewrite u8_small by lia
    | rewrite u16_small by lia
    | rewrite u32_small by lia
    | rewrite s16_small by lia ].

(** Turn the boolean range tests into arithmetic facts. *)
Ltac range_facts :=
  repeat match goal with
    | H : is_u16 _ = true |- _ => apply is_u16_spec in H
    | H : is_u8 _ = true |- _ => apply is_u8_spec in H
    | |- is_u16 _ = true => apply is_u16_spec
    | |- is_u8 _ = true => apply is_u8_spec
    end.

(** [uint16_t] arithmetic only depends on its operands modulo 2^16. *)
Lemma u16_add_u16 a z : u16 (a + u16 z) = u16 (a + z).
Proof. unfold u16. apply Zplus_mod_idemp_r. Qed.

Lemma u16_sub_u16 a z : u16 (a - u16 z) = u16 (a - z).
Proof. unfold u16. apply Zminus_mod_idemp_r. Qed.

Lemma u16_u16_add a z : u16 (u16 z + a) = u16 (z + a).
Proof. unfold u16. apply Zplus_mod_idemp_l. Qed.

Lemma u16_u16_sub a z : u16 (u16 z - a) = u16 (z - a).
Proof. unfold u16. apply Zminus_mod_idemp_l. Qed.

#[export] Hint Rewrite u16_add_u16 u16_sub_u16 u16_u16_add u16_u16_sub : st7789.

Lemma u16_add_sub_u16 a z b : u16 (a + (u16 z - b)) = u16 (a + (z - b)).
Proof.
  replace (a + (u16 z - b)) with ((a - b) + u16 z) by ring.
  rewrite u16_add_u16. f_equal. ring.
Qed.

#[export] Hint Rewrite u16_add_sub_u16 : st7789.
