(* ===== verification/Monad.v ===== *)
(** * The driver monad: state, an output trace, and running out of fuel

    [M S E A] is a computation over a state [S] (the driver's globals)
    that emits events [E] (its calls on the platform) and either returns
    a value and a new state or runs out of fuel ([None]), keeping the
    events emitted so far.  Laws hold up to pointwise equality [meq], a
    setoid on which [bind] is [Proper].  [repeatM] is a counted C loop
    whose body ignores the counter; [while_] is a C [while] loop with
    fuel, with the lemmas that more fuel changes nothing once the loop has
    finished and that a loop whose body decreases a measure finishes. *)

From Stdlib Require Import List Lia Setoid Morphisms.
From S2P Require Import Prelude.
Import ListNotations.

Section Monad.
Context {S E : Type}.

Definition M (A : Type) : Type := S -> list E * option (A * S).

Definition ret {A} (a : A) : M A := fun s => ([], Some (a, s)).

Definition bind {A B} (m : M A) (f : A -> M B) : M B := fun s =>
  match m s with
  | (o1, None) => (o1, None)
  | (o1, Some (a, s1)) => let '(o2, r) := f a s1 in (o1 ++ o2, r)
  end.

Definition get : M S := fun s => ([], Some (s, s)).
Definition put (s : S) : M unit := fun _ => ([], Some (tt, s)).
Definition emit (e : E) : M unit := fun s => ([e], Some (tt, s)).

(** A computation that only emits a trace computed from the state. *)
Definition tells (f : S -> list E) : M unit := fun s => (f s, Some (tt, s)).

(** Fuel exhausted: no result. *)
Definition stuck {A} : M A := fun _ => ([], None).

(** Pointwise equality of computations. *)
Definition meq {A} (m1 m2 : M A) : Prop := forall s, m1 s = m2 s.
End Monad.

Arguments M : clear implicits.

Declare Scope monad_scope.
Delimit Scope monad_scope with monad.
Notation "x <- m ;; k" := (bind m (fun x => k))
  (at level 100, m at level 99, k at level 200, right associativity) : monad_scope.
Notation "m ;; k" := (bind m (fun _ => k))
  (at level 100, k at level 200, right associativity) : monad_scope.
Infix "≡ₘ" := meq (at level 70) : monad_scope.
Open Scope monad_scope.

Section Laws.
Context {S E : Type}.

#[export] Instance meq_equiv {A} : Equivalence (@meq S E A).
Proof.
  split.
  - intros m s. reflexivity.
  - intros m1 m2 H s. now rewrite H.
  - intros m1 m2 m3 H1 H2 s. now rewrite H1, H2.
Qed.

#[export] Instance bind_proper {A B} :
  Proper (meq ==> pointwise_relation A meq ==> meq) (@bind S E A B).
Proof.
  intros m1 m2 Hm f1 f2 Hf s. unfold bind. rewrite Hm.
  destruct (m2 s) as [o [[a s1]|]]; [|reflexivity]. now rewrite Hf.
Qed.

Lemma bind_ret_l {A B} (a : A) (f : A -> M S E B) : bind (ret a) f ≡ₘ f a.
Proof. intros s. cbn. now destruct (f a s). Qed.

Lemma bind_ret_r {A} (m : M S E A) : bind m ret ≡ₘ m.
Proof.
  intros s. unfold bind, ret. destruct (m s) as [o [[a s1]|]]; [|reflexivity].
  now rewrite app_nil_r.
Qed.

Lemma bind_assoc {A B C} (m : M S E A) (f : A -> M S E B) (g : B -> M S E C) :
  bind (bind m f) g ≡ₘ bind m (fun a => bind (f a) g).
Proof.
  intros s. unfold bind. destruct (m s) as [o1 [[a s1]|]]; [|reflexivity].
  destruct (f a s1) as [o2 [[b s2]|]]; [|reflexivity].
  destruct (g b s2) as [o3 r]. cbn. now rewrite app_assoc.
Qed.

Lemma tells_app (f g : S -> list E) :
  (tells f ;; tells g) ≡ₘ tells (fun s => f s ++ g s).
Proof. intros s. reflexivity. Qed.

Lemma tells_nil : tells (fun _ : S => @nil E) ≡ₘ ret tt.
Proof. intros s. reflexivity. Qed.

Lemma emit_tells (e : E) : @emit S E e ≡ₘ tells (fun _ => [e]).
Proof. intros s. reflexivity. Qed.

Lemma bind_tells {B} (f : S -> list E) (k : unit -> M S E B) s :
  bind (tells f) k s = let '(o, r) := k tt s in (f s ++ o, r).
Proof. reflexivity. Qed.

(** Reading the state and emitting depends on the state only. *)
Lemma get_tells (f : S -> S -> list E) :
  (x <- get ;; tells (f x)) ≡ₘ tells (fun s => f s s).
Proof. intros s. reflexivity. Qed.
End Laws.


(** ** Counted loops

    [for (i = 0; i < n; i++) body;] where the body does not read [i]. *)
Fixpoint repeatM {S E} (n : nat) (body : M S E unit) : M S E unit :=
  match n with
  | O => ret tt
  | Datatypes.S k => body ;; repeatM k body
  end.

Section Loops.
Context {S E : Type}.

#[export] Instance repeatM_proper n :
  Proper (meq ==> meq) (@repeatM S E n).
Proof.
  induction n as [|n IH]; intros m1 m2 H; cbn; [reflexivity|].
  apply bind_proper; [exact H|]. intros _. now apply IH.
Qed.

Lemma repeatM_tells n (f : S -> list E) :
  repeatM n (tells f) ≡ₘ tells (fun s => concat (repeat (f s) n)).
Proof.
  induction n as [|n IH]; cbn; [intros s; reflexivity|].
  setoid_rewrite IH. apply tells_app.
Qed.

(** ** [while] with fuel

    [while (cond(a)) a = body(a);] started in [a].  With no fuel left the
    loop is [stuck]. *)
Fixpoint while_ {A} (fuel : nat) (cond : A -> bool) (body : A -> M S E A) (a : A)
  : M S E A :=
  match fuel with
  | O => stuck
  | Datatypes.S f => if cond a then bind (body a) (while_ f cond body) else ret a
  end.

(** The loop exits (with enough fuel): it returns its final value. *)
Definition finishes {A} (m : M S E A) (s : S) : Prop :=
  exists o r, m s = (o, Some r).

Lemma while_fuel_mono {A} cond (body : A -> M S E A) n m a s o r :
  (n <= m)%nat -> while_ n cond body a s = (o, Some r) ->
  while_ m cond body a s = (o, Some r).
Proof.
  revert m a s o r. induction n as [|n IH]; intros m a s o r Hle H;
    [discriminate|].
  destruct m as [|m]; [lia|]. cbn in *. destruct (cond a); [|exact H].
  unfold bind in *. destruct (body a s) as [o1 [[a1 s1]|]]; [|discriminate].
  destruct (while_ n cond body a1 s1) as [o2 r2] eqn:Hw.
  destruct r2 as [r2|]; [|inversion H].
  rewrite (IH m a1 s1 o2 r2) by (lia || exact Hw). exact H.
Qed.

(** Termination by a measure.  In a section so that the invariant, the
    measure and the two obligations are shared by the lemmas. *)
Section Termination.
Context {A : Type} (cond : A -> bool) (body : A -> M S E A).
Variable inv : A -> S -> Prop.
Variable measure : A -> nat.
Hypothesis body_ok : forall a s, inv a s -> cond a = true ->
  exists o a' s', body a s = (o, Some (a', s')) /\ inv a' s' /\
                  (measure a' < measure a)%nat.

Lemma while_terminates :
  forall n a s, inv a s -> (measure a < n)%nat ->
  exists o a' s', while_ n cond body a s = (o, Some (a', s')) /\
                  inv a' s' /\ cond a' = false.
Proof.
  induction n as [|n IH]; intros a s Hinv Hm; [lia|].
  cbn. destruct (cond a) eqn:C.
  - destruct (body_ok a s Hinv C) as (o & a1 & s1 & Hb & Hi1 & Hm1).
    destruct (IH a1 s1 Hi1 ltac:(lia)) as (o2 & a2 & s2 & Hw & Hi2 & Hc2).
    exists (o ++ o2), a2, s2. unfold bind. rewrite Hb, Hw. auto.
  - exists [], a, s. auto.
Qed.
End Termination.

(** A loop whose body leaves the state unchanged and emits nothing can be
    shown stuck for every fuel by an invariant that keeps the condition
    true. *)
Lemma while_stuck {A} cond (body : A -> M S E A) (inv : A -> Prop) :
  (forall a, inv a -> cond a = true) ->
  (forall a s, inv a -> exists o a', body a s = (o, Some (a', s)) /\ inv a') ->
  forall n a s, inv a -> snd (while_ n cond body a s) = None.
Proof.
  intros Hc Hb n. induction n as [|n IH]; intros a s Ha; [reflexivity|].
  cbn. rewrite (Hc a Ha). destruct (Hb a s Ha) as (o & a' & Hba & Ha').
  unfold bind. rewrite Hba. specialize (IH a' s Ha').
  destruct (while_ n cond body a' s) as [o2 r]. cbn in *. now subst.
Qed.
End Loops.

(** ** Loops whose body only emits and steps

    A pure account of [while_]: the states the loop body runs in, and the
    final state ([None] when the fuel runs out). *)
Fixpoint iterate {A} (fuel : nat) (cond : A -> bool) (step : A -> A) (a : A)
  : list A * option A :=
  match fuel with
  | O => ([], None)
  | Datatypes.S f =>
      if cond a then let '(vs, fin) := iterate f cond step (step a) in
                     (a :: vs, fin)
      else ([], Some a)
  end.

Section WhileTells.
Context {S E A : Type} (cond : A -> bool) (step : A -> A) (f : A -> S -> list E).

(** A loop whose body emits [f a] and moves to [step a] emits the
    outputs of the states [iterate] visits, and ends where it ends. *)
Lemma while_tells n a s :
  while_ n cond (fun a => tells (f a) ;; ret (step a)) a s =
  (concat (map (fun v => f v s) (fst (iterate n cond step a))),
   option_map (fun fin => (fin, s)) (snd (iterate n cond step a))).
Proof.
  revert a. induction n as [|n IH]; intros a; [reflexivity|].
  cbn [while_ iterate]. destruct (cond a); [|reflexivity].
  unfold bind at 1. cbn [tells ret]. unfold bind. cbn. rewrite IH.
  destruct (iterate n cond step (step a)) as [vs fin]. cbn. now rewrite app_nil_r.
Qed.
End WhileTells.

(** [while_] respects pointwise-equal bodies. *)
Lemma while_meq {S E A} n cond (b1 b2 : A -> M S E A) :
  (forall a, b1 a ≡ₘ b2 a) -> forall a, while_ n cond b1 a ≡ₘ while_ n cond b2 a.
Proof.
  intros Hb. induction n as [|n IH]; intros a; cbn; [reflexivity|].
  destruct (cond a); [|reflexivity]. apply bind_proper; [apply Hb|]. intros a'. apply IH.
Qed.

(** A computation that has no result keeps having none after [bind]. *)
Lemma bind_stuck {S E A B} (m : M S E A) (k : A -> M S E B) s :
  snd (m s) = None -> snd (bind m k s) = None.
Proof. unfold bind. destruct (m s) as [o [[a s1]|]]; cbn; [discriminate|reflexivity]. Qed.

Section Iterate.
Context {A : Type} (cond : A -> bool) (step : A -> A).

(** A property kept by the steps holds of every state the loop body runs
    in, and each of them satisfies the loop condition. *)
Lemma iterate_forall (inv : A -> Prop) :
  (forall a, inv a -> cond a = true -> inv (step a)) ->
  forall n a, inv a -> Forall (fun v => inv v /\ cond v = true) (fst (iterate n cond step a)).
Proof.
  intros Hstep n. induction n as [|n IH]; intros a Ha; cbn; [constructor|].
  destruct (cond a) eqn:C; cbn; [|constructor].
  destruct (iterate n cond step (step a)) as [vs fin] eqn:Hit. cbn.
  constructor; [auto|]. specialize (IH (step a) (Hstep a Ha C)). now rewrite Hit in IH.
Qed.

(** Termination of [iterate] by a measure under an invariant. *)
Lemma iterate_terminates (inv : A -> Prop) (measure : A -> nat) :
  (forall a, inv a -> cond a = true -> inv (step a) /\ (measure (step a) < measure a)%nat) ->
  forall n a, inv a -> (measure a < n)%nat ->
  exists fin, snd (iterate n cond step a) = Some fin /\ inv fin /\ cond fin = false.
Proof.
  intros Hstep n. induction n as [|n IH]; intros a Ha Hm; [lia|]. cbn.
  destruct (cond a) eqn:C; [|exists a; cbn; auto].
  destruct (Hstep a Ha C) as [Ha' Hm'].
  destruct (IH (step a) Ha' ltac:(lia)) as (fin & Hfin & Hinv & Hc).
  destruct (iterate n cond step (step a)) as [vs fin'] eqn:Hit. cbn in Hfin |- *.
  subst fin'. eauto.
Qed.
End Iterate.

(** [while_tells] when the body has the emitting form only in the states
    the loop actually runs in. *)
Lemma while_tells_on {S E A} (cond : A -> bool) (step : A -> A) (f : A -> S -> list E)
    (body : A -> M S E A) n a s :
  Forall (fun v => body v ≡ₘ (tells (f v) ;; ret (step v))) (fst (iterate n cond step a)) ->
  while_ n cond body a s =
  (concat (map (fun v => f v s) (fst (iterate n cond step a))),
   option_map (fun fin => (fin, s)) (snd (iterate n cond step a))).
Proof.
  revert a. induction n as [|n IH]; intros a Hb; [reflexivity|].
  cbn [while_ iterate] in *. destruct (cond a); [|reflexivity].
  destruct (iterate n cond step (step a)) as [vs fin] eqn:Hit. cbn in Hb.
  inversion Hb as [|? ? Hba Hrest]; subst.
  unfold bind at 1. rewrite (Hba s). cbn. rewrite IH by now rewrite Hit.
  rewrite Hit. cbn. now rewrite app_nil_r.
Qed.
