(* ===== verification/Hal.v ===== *)
(** * The platform boundary of the driver

    The constants of [st7789.h] and the pin numbers of [st7789.c]; the SPI
    handle record ([spi_dev_t] of [drv_spi.h], whose fields the driver
    writes); the calls the driver makes on its platform as [event]s; the
    [Hal] class, which answers what the platform's [drv_spi_init] returns;
    and the primitive calls themselves, each of which records its event.
    The driver's monad [DM] has the global [st7789_spi] as its state. *)

From Stdlib Require Import ZArith List Lia String.
From S2P Require Import Prelude Monad.
Import ListNotations.
Open Scope Z_scope.

(** ** Constants of st7789.h *)

(** Screen size and origin (st7789.h 13-16). *)
Definition ST7789_WIDTH : Z := 240.
Definition ST7789_HEIGHT : Z := 240.
Definition ST7789_XSTART : Z := 0.
Definition ST7789_YSTART : Z := 0.

(** Command codes (st7789.h 19-50). *)
Definition ST7789_NOP : Z := 0x00.
Definition ST7789_SWRESET : Z := 0x01.
Definition ST7789_RDDID : Z := 0x04.
Definition ST7789_RDDST : Z := 0x09.

Definition ST7789_SLPIN : Z := 0x10.
Definition ST7789_SLPOUT : Z := 0x11.
Definition ST7789_PTLON : Z := 0x12.
Definition ST7789_NORON : Z := 0x13.

Definition ST7789_INVOFF : Z := 0x20.
Definition ST7789_INVON : Z := 0x21.
Definition ST7789_DISPOFF : Z := 0x28.
Definition ST7789_DISPON : Z := 0x29.
Definition ST7789_CASET : Z := 0x2A.
Definition ST7789_RASET : Z := 0x2B.
Definition ST7789_RAMWR : Z := 0x2C.
Definition ST7789_RAMRD : Z := 0x2E.

Definition ST7789_PTLAR : Z := 0x30.
Definition ST7789_VSCRDEF : Z := 0x33.
Definition ST7789_TEOFF : Z := 0x34.
Definition ST7789_TEON : Z := 0x35.
Definition ST7789_MADCTL : Z := 0x36.
Definition ST7789_VSCRSADD : Z := 0x37.
Definition ST7789_IDMOFF : Z := 0x38.
Definition ST7789_IDMON : Z := 0x39.
Definition ST7789_COLMOD : Z := 0x3A.
Definition ST7789_RDID1 : Z := 0xDA.
Definition ST7789_RDID2 : Z := 0xDB.
Definition ST7789_RDID3 : Z := 0xDC.
Definition ST7789_RDID4 : Z := 0xDD.

(** MADCTL bits (st7789.h 53-59). *)
Definition ST7789_MADCTL_MY : Z := 0x80.
Definition ST7789_MADCTL_MX : Z := 0x40.
Definition ST7789_MADCTL_MV : Z := 0x20.
Definition ST7789_MADCTL_ML : Z := 0x10.
Definition ST7789_MADCTL_RGB : Z := 0x00.
Definition ST7789_MADCTL_BGR : Z := 0x08.
Definition ST7789_MADCTL_MH : Z := 0x04.

(** RGB565 colours (st7789.h 62-69). *)
Definition ST7789_BLACK : Z := 0x0000.
Definition ST7789_BLUE : Z := 0x001F.
Definition ST7789_RED : Z := 0xF800.
Definition ST7789_GREEN : Z := 0x07E0.
Definition ST7789_CYAN : Z := 0x07FF.
Definition ST7789_MAGENTA : Z := 0xF81F.
Definition ST7789_YELLOW : Z := 0xFFE0.
Definition ST7789_WHITE : Z := 0xFFFF.

(** The rotation enum [st7789_rotation_t] and its integer values. *)
Inductive st7789_rotation_t :=
| ST7789_ROTATION_0 | ST7789_ROTATION_90 | ST7789_ROTATION_180 | ST7789_ROTATION_270.

Definition rotation_value (r : st7789_rotation_t) : Z :=
  match r with
  | ST7789_ROTATION_0 => 0
  | ST7789_ROTATION_90 => 1
  | ST7789_ROTATION_180 => 2
  | ST7789_ROTATION_270 => 3
  end.

(** The enum value an [int] holds, if it holds one: the cases of the
    [switch] in [st7789_set_rotation]. *)
Definition rotation_of_value (v : Z) : option st7789_rotation_t :=
  if v =? 0 then Some ST7789_ROTATION_0
  else if v =? 1 then Some ST7789_ROTATION_90
  else if v =? 2 then Some ST7789_ROTATION_180
  else if v =? 3 then Some ST7789_ROTATION_270
  else None.

(** ** Pins of st7789.c *)

Definition ST7789_DC_PIN : Z := 2.
Definition ST7789_RST_PIN : Z := 3.
Definition ST7789_CS_PIN : Z := 4.
Definition ST7789_BL_PIN : Z := 5.

(** ** The SPI handle and the platform calls

    [drv_spi.h] and [drv_gpio.h] are not in the repository: the record
    keeps the fields [st7789_init] writes, the enumerations the values it
    uses. *)
Inductive spi_mode := SPI_MODE_0 | SPI_MODE_1 | SPI_MODE_2 | SPI_MODE_3.
Inductive gpio_mode := OUTPUT_PUSH_PULL | INPUT_FLOATING.

Record spi_config := {
  mode : spi_mode;
  freq : Z;
  data_width : Z;
  chip_select : Z
}.

Record spi_dev_t := {
  port : Z;
  config : spi_config
}.

(** [static spi_dev_t st7789_spi;] is zero-initialised. *)
Definition st7789_spi_zero : spi_dev_t :=
  {| port := 0;
     config := {| mode := SPI_MODE_0; freq := 0; data_width := 0; chip_select := 0 |} |}.

Inductive event :=
| EvGpioMode (pin : Z) (m : gpio_mode)
| EvGpioWrite (pin : Z) (level : Z)
| EvSpiInit (dev : spi_dev_t)
| EvSpiSend (dev : spi_dev_t) (data : list Z)
| EvSleep (ms : Z)
| EvConsole (text : string).

(** The driver monad: the global [st7789_spi] is the state. *)
Abbreviation DM := (M spi_dev_t event).

(** What the platform's SPI initialisation answers for a handle. *)
Class Hal := { hal_spi_init : spi_dev_t -> Z }.

Definition drv_gpio_write (pin level : Z) : DM unit := emit (EvGpioWrite pin level).
Definition drv_gpio_mode (pin : Z) (m : gpio_mode) : DM unit := emit (EvGpioMode pin m).

(** [drv_spi_send(dev, buf, len)]: the first [len] bytes of [buf] go out. *)
Definition drv_spi_send (dev : spi_dev_t) (buf : list Z) (len : Z) : DM unit :=
  emit (EvSpiSend dev (firstn (Z.to_nat len) buf)).

Definition drv_spi_init `{Hal} (dev : spi_dev_t) : DM Z :=
  emit (EvSpiInit dev) ;; ret (hal_spi_init dev).

Definition aos_msleep (ms : Z) : DM unit := emit (EvSleep ms).

(** [printf] with a constant format: the text goes to the console. *)
Definition printf (text : string) : DM unit := emit (EvConsole text).

(** ** The rotation enum and its values *)

(** Every enum value reads back as itself. *)
Lemma rotation_of_value_rotation_value r : rotation_of_value (rotation_value r) = Some r.
Proof. now destruct r. Qed.

(** An [int] that reads as an enum value is that value. *)
Lemma rotation_value_of_value v r : rotation_of_value v = Some r -> rotation_value r = v.
Proof.
  unfold rotation_of_value.
  destruct (Z.eqb_spec v 0); [intros [=<-]; now subst|].
  destruct (Z.eqb_spec v 1); [intros [=<-]; now subst|].
  destruct (Z.eqb_spec v 2); [intros [=<-]; now subst|].
  destruct (Z.eqb_spec v 3); [intros [=<-]; now subst|].
  discriminate.
Qed.

(** The values outside the enum are exactly those no case of the switch matches. *)
Lemma rotation_of_value_None v :
  rotation_of_value v = None <-> (v <> 0 /\ v <> 1 /\ v <> 2 /\ v <> 3).
Proof.
  unfold rotation_of_value.
  destruct (Z.eqb_spec v 0), (Z.eqb_spec v 1), (Z.eqb_spec v 2), (Z.eqb_spec v 3);
    split; intros; try discriminate; try tauto; lia.
Qed.
