(* ===== verification/Encoder.v ===== *)
(** * Protocol encoder: command and data writes (st7789.c 23-81)

    Each write of the driver sets the DC pin (0 for a command, 1 for data)
    and then makes one SPI transfer on the global handle.  A [frame] is one
    such write; [frames] is the event stream a list of frames produces, and
    [send] the computation that emits it.  [cmd_groups] is the
    controller's view of a frame stream: each command byte with the data
    bytes that follow it up to the next command. *)

From Stdlib Require Import ZArith List Lia Setoid Morphisms.
From S2P Require Import Prelude Monad Hal.
Import ListNotations.
Open Scope Z_scope.

(** ** The driver's write functions *)

Definition st7789_delay_ms (ms : Z) : DM unit := aos_msleep ms.

Definition st7789_send_cmd (cmd : Z) : DM unit :=
  drv_gpio_write ST7789_DC_PIN 0 ;;
  dev <- get ;;
  drv_spi_send dev [cmd] 1.

Definition st7789_send_data (data : Z) : DM unit :=
  drv_gpio_write ST7789_DC_PIN 1 ;;
  dev <- get ;;
  drv_spi_send dev [data] 1.

(** [uint8_t buffer[2] = {data >> 8, data & 0xFF};] *)
Definition st7789_send_data16 (data : Z) : DM unit :=
  drv_gpio_write ST7789_DC_PIN 1 ;;
  dev <- get ;;
  drv_spi_send dev [hi8 data; lo8 data] 2.

Definition st7789_send_data_block (data : list Z) (len : Z) : DM unit :=
  drv_gpio_write ST7789_DC_PIN 1 ;;
  dev <- get ;;
  drv_spi_send dev data len.

Definition st7789_hard_reset : DM unit :=
  drv_gpio_write ST7789_RST_PIN 1 ;;
  st7789_delay_ms 10 ;;
  drv_gpio_write ST7789_RST_PIN 0 ;;
  st7789_delay_ms 10 ;;
  drv_gpio_write ST7789_RST_PIN 1 ;;
  st7789_delay_ms 120.

(** ** Frames *)

Inductive frame := FCmd (c : Z) | FData (bs : list Z).

Definition frame_events (dev : spi_dev_t) (f : frame) : list event :=
  match f with
  | FCmd c => [EvGpioWrite ST7789_DC_PIN 0; EvSpiSend dev [c]]
  | FData bs => [EvGpioWrite ST7789_DC_PIN 1; EvSpiSend dev bs]
  end.

Definition frames (dev : spi_dev_t) (fs : list frame) : list event :=
  flat_map (frame_events dev) fs.

Definition send (fs : list frame) : DM unit := tells (fun dev => frames dev fs).

(** The controller's view: the data bytes before the first command, and
    each command with the data bytes that follow it. *)
Fixpoint cmd_groups (fs : list frame) : list Z * list (Z * list Z) :=
  match fs with
  | [] => ([], [])
  | FData bs :: r => let '(d, gs) := cmd_groups r in (bs ++ d, gs)
  | FCmd c :: r => let '(d, gs) := cmd_groups r in ([], (c, d) :: gs)
  end.

(** All the bytes of a frame stream, in order. *)
Definition frame_bytes (f : frame) : list Z :=
  match f with FCmd c => [c] | FData bs => bs end.

(** ** Properties of the encoder *)

(** C10: [st7789_send_data16 v] raises DC once and sends the 16-bit value
    in a single transfer of two bytes, high byte first: [v / 256], then
    [v mod 256]; the handle is unchanged. *)
Theorem st7789_send_data16_big_endian v dev :
  is_u16 v = true ->
  st7789_send_data16 v dev =
    ([EvGpioWrite ST7789_DC_PIN 1; EvSpiSend dev [v / 256; v mod 256]], Some (tt, dev)).
Proof.
  intros Hv. range_facts. unfold st7789_send_data16. cbn -[hi8 lo8].
  now rewrite hi8_spec, lo8_spec.
Qed.

(** Witness of C10: the spec's example [0x1234] goes out as [0x12, 0x34]. *)
Lemma st7789_send_data16_big_endian_witness :
  st7789_send_data16 0x1234 st7789_spi_zero =
    ([EvGpioWrite ST7789_DC_PIN 1; EvSpiSend st7789_spi_zero [0x12; 0x34]],
     Some (tt, st7789_spi_zero)).
Proof. apply (st7789_send_data16_big_endian 0x1234). reflexivity. Defined.

(** ** Characterisation of the write functions by their frames *)

Lemma frames_app dev fs1 fs2 : frames dev (fs1 ++ fs2) = frames dev fs1 ++ frames dev fs2.
Proof. apply flat_map_app. Qed.

Lemma send_app fs1 fs2 : (send fs1 ;; send fs2) ≡ₘ send (fs1 ++ fs2).
Proof. intros s. unfold send, tells; cbn -[frames]. now rewrite frames_app. Qed.

Lemma send_nil : send [] ≡ₘ ret tt.
Proof. intros s. reflexivity. Qed.

Lemma send_app_k {B} fs1 fs2 (k : DM B) :
  (send fs1 ;; send fs2 ;; k) ≡ₘ (send (fs1 ++ fs2) ;; k).
Proof. rewrite <- send_app. symmetry. apply bind_assoc. Qed.

Lemma st7789_send_cmd_send c : st7789_send_cmd c ≡ₘ send [FCmd c].
Proof. intros s. reflexivity. Qed.

Lemma st7789_send_data_send d : st7789_send_data d ≡ₘ send [FData [d]].
Proof. intros s. reflexivity. Qed.

Lemma st7789_send_data16_send v : st7789_send_data16 v ≡ₘ send [FData (be16 v)].
Proof. intros s. reflexivity. Qed.

Lemma st7789_send_data_block_send bs len :
  st7789_send_data_block bs len ≡ₘ send [FData (firstn (Z.to_nat len) bs)].
Proof. intros s. reflexivity. Qed.

Lemma repeatM_send n fs : repeatM n (send fs) ≡ₘ send (concat (repeat fs n)).
Proof.
  unfold send. rewrite repeatM_tells. intros s. unfold tells. f_equal.
  induction n as [|n IH]; cbn [repeat concat]; [reflexivity|]. now rewrite frames_app, IH.
Qed.

#[export] Hint Resolve send_app st7789_send_cmd_send st7789_send_data_send
  st7789_send_data16_send : st7789.


(** C31: [st7789_send_data_block data len] asserts the data mode exactly
    once, whatever [len], and sends the first [len] bytes of [data] in one
    transfer. *)
Theorem st7789_send_data_block_single_transfer data len dev :
  0 <= len <= Z.of_nat (length data) ->
  exists bytes,
    st7789_send_data_block data len dev =
      ([EvGpioWrite ST7789_DC_PIN 1; EvSpiSend dev bytes], Some (tt, dev)) /\
    bytes ++ skipn (Z.to_nat len) data = data /\ Z.of_nat (length bytes) = len.
Proof.
  intros Hlen. exists (firstn (Z.to_nat len) data). split; [reflexivity|].
  split; [apply firstn_skipn|]. rewrite length_firstn. lia.
Qed.

(** Witness of C31: a 4-byte block of which 2 bytes are sent. *)
Lemma st7789_send_data_block_single_transfer_witness :
  exists bytes,
    st7789_send_data_block [1; 2; 3; 4] 2 st7789_spi_zero =
      ([EvGpioWrite ST7789_DC_PIN 1; EvSpiSend st7789_spi_zero bytes],
       Some (tt, st7789_spi_zero)) /\
    bytes ++ skipn (Z.to_nat 2) [1; 2; 3; 4] = [1; 2; 3; 4] /\
    Z.of_nat (length bytes) = 2.
Proof. apply st7789_send_data_block_single_transfer. cbn. lia. Defined.
