(* ===== verification/Window.v ===== *)
(** * Addressing window (st7789.c 84-99)

    [st7789_set_addr_window] sends CASET with the column bounds, RASET with
    the row bounds, each bound as two single-byte data writes (high byte
    first), then RAMWR.  The theorems show the frame stream it produces,
    that the controller sees exactly the three commands with the
    big-endian bounds as parameters, and that these parameters decode back
    to the four bounds (a round trip). *)

From Stdlib Require Import ZArith List Lia Setoid Morphisms.
From S2P Require Import Prelude Monad Hal Encoder.
Import ListNotations.
Open Scope Z_scope.
Open Scope bool_scope.

Definition st7789_set_addr_window (x0 y0 x1 y1 : Z) : DM unit :=
  st7789_send_cmd ST7789_CASET ;;
  st7789_send_data (u8 (Z.shiftr x0 8)) ;;
  st7789_send_data (u8 (Z.land x0 255)) ;;
  st7789_send_data (u8 (Z.shiftr x1 8)) ;;
  st7789_send_data (u8 (Z.land x1 255)) ;;
  st7789_send_cmd ST7789_RASET ;;
  st7789_send_data (u8 (Z.shiftr y0 8)) ;;
  st7789_send_data (u8 (Z.land y0 255)) ;;
  st7789_send_data (u8 (Z.shiftr y1 8)) ;;
  st7789_send_data (u8 (Z.land y1 255)) ;;
  st7789_send_cmd ST7789_RAMWR.

(** The frames [st7789_set_addr_window] writes. *)
Definition window_frames (x0 y0 x1 y1 : Z) : list frame :=
  [FCmd ST7789_CASET; FData [hi8 x0]; FData [lo8 x0]; FData [hi8 x1]; FData [lo8 x1];
   FCmd ST7789_RASET; FData [hi8 y0]; FData [lo8 y0]; FData [hi8 y1]; FData [lo8 y1];
   FCmd ST7789_RAMWR].

(** Decoding the controller's view of a window command sequence. *)
Definition decode_window (gs : list (Z * list Z)) : option (Z * Z * Z * Z) :=
  match gs with
  | [(ca, [a0; a1; a2; a3]); (ra, [b0; b1; b2; b3]); (wr, [])] =>
      if (ca =? ST7789_CASET) && (ra =? ST7789_RASET) && (wr =? ST7789_RAMWR)
      then Some (a0 * 256 + a1, b0 * 256 + b1, a2 * 256 + a3, b2 * 256 + b3)
      else None
  | _ => None
  end.

Lemma cmd_groups_window x0 y0 x1 y1 :
  cmd_groups (window_frames x0 y0 x1 y1) =
  ([], [(ST7789_CASET, be16 x0 ++ be16 x1); (ST7789_RASET, be16 y0 ++ be16 y1);
        (ST7789_RAMWR, [])]).
Proof. reflexivity. Qed.

(** The byte of a [u8]-converted 16-bit half times 256 plus the low byte
    is the value: shared by the decoding lemmas. *)
Lemma hi_lo_recombine v : 0 <= v < 65536 -> hi8 v * 256 + lo8 v = v.
Proof.
  intros H. rewrite hi8_spec, lo8_spec by exact H.
  pose proof (Z.div_mod v 256). lia.
Qed.

#[export] Hint Resolve hi_lo_recombine : st7789.

(** C11: [st7789_set_addr_window x0 y0 x1 y1] leaves the handle unchanged
    and writes a frame stream in which the controller sees exactly three
    commands in this order: CASET with the big-endian words [x0] then
    [x1], RASET with [y0] then [y1], and RAMWR with no parameter; the
    parameters decode back to the four bounds. *)
Theorem st7789_set_addr_window_protocol x0 y0 x1 y1 dev :
  is_u16 x0 = true -> is_u16 y0 = true -> is_u16 x1 = true -> is_u16 y1 = true ->
  exists fs,
    st7789_set_addr_window x0 y0 x1 y1 dev = (frames dev fs, Some (tt, dev)) /\
    cmd_groups fs =
      ([], [(ST7789_CASET, [x0 / 256; x0 mod 256; x1 / 256; x1 mod 256]);
            (ST7789_RASET, [y0 / 256; y0 mod 256; y1 / 256; y1 mod 256]);
            (ST7789_RAMWR, [])]) /\
    decode_window (snd (cmd_groups fs)) = Some (x0, y0, x1, y1).
Proof.
  intros Hx0 Hy0 Hx1 Hy1. range_facts.
  exists (window_frames x0 y0 x1 y1). split; [reflexivity|].
  rewrite cmd_groups_window. unfold be16. cbn [snd decode_window app]. split.
  - now rewrite !hi8_spec, !lo8_spec by assumption.
  - now rewrite !hi_lo_recombine by assumption.
Qed.

(** Witness of C11: the window (10,20)-(50,60) of the spec's example. *)
Lemma st7789_set_addr_window_protocol_witness :
  exists fs,
    st7789_set_addr_window 10 20 50 60 st7789_spi_zero =
      (frames st7789_spi_zero fs, Some (tt, st7789_spi_zero)) /\
    cmd_groups fs =
      ([], [(ST7789_CASET, [0; 10; 0; 50]); (ST7789_RASET, [0; 20; 0; 60]);
            (ST7789_RAMWR, [])]) /\
    decode_window (snd (cmd_groups fs)) = Some (10, 20, 50, 60).
Proof.
  apply (st7789_set_addr_window_protocol 10 20 50 60 st7789_spi_zero);
    reflexivity.
Defined.

Lemma st7789_set_addr_window_send x0 y0 x1 y1 :
  st7789_set_addr_window x0 y0 x1 y1 ≡ₘ send (window_frames x0 y0 x1 y1).
Proof. intros s. reflexivity. Qed.
