(* ===== verification/Raster.v ===== *)
(** * Rasterisation primitives and mode control (st7789.c 170-343)

    Every primitive programs the addressing window and then streams the
    pixel colours, two bytes per pixel, high byte first.  [fill_rect],
    [draw_hline] and [draw_vline] send one two-byte block per pixel in
    counted loops; [draw_pixel] one 16-bit word; [draw_bitmap] packs the
    bitmap into a 2048-byte stack buffer, 1024 pixels at a time, and sends
    each chunk in one transfer.  [set_rotation], [display_on] and
    [invert_display] are single command writes.

    The theorems give the exact frame stream of each primitive, show that
    the line primitives are the rectangle fill of a one-pixel strip, that
    the bitmap chunks concatenate to the big-endian serialisation of the
    pixels without gap or overlap, that the packing loop stays inside its
    buffer, and the MADCTL value of each rotation. *)

From Stdlib Require Import ZArith List Lia Setoid Morphisms.
From stdpp Require Import list.
From Equations Require Import Equations.
From S2P Require Import Prelude Monad Hal Encoder Window.
Import ListNotations.
Open Scope Z_scope.
Open Scope monad_scope.

(** ** Rectangles, lines, pixels *)

Definition st7789_fill_rect (x y w h color : Z) : DM unit :=
  let data := [u8 (Z.shiftr color 8); u8 (Z.land color 255)] in
  st7789_set_addr_window x y (u16 (x + w - 1)) (u16 (y + h - 1)) ;;
  repeatM (Z.to_nat h) (repeatM (Z.to_nat w) (st7789_send_data_block data 2)).

Definition st7789_clear (color : Z) : DM unit :=
  st7789_fill_rect 0 0 ST7789_WIDTH ST7789_HEIGHT color.

Definition st7789_draw_pixel (x y color : Z) : DM unit :=
  st7789_set_addr_window x y x y ;;
  st7789_send_data16 color.

Definition st7789_draw_hline (x y w color : Z) : DM unit :=
  st7789_set_addr_window x y (u16 (x + w - 1)) y ;;
  let data := [u8 (Z.shiftr color 8); u8 (Z.land color 255)] in
  repeatM (Z.to_nat w) (st7789_send_data_block data 2).

Definition st7789_draw_vline (x y h color : Z) : DM unit :=
  st7789_set_addr_window x y x (u16 (y + h - 1)) ;;
  let data := [u8 (Z.shiftr color 8); u8 (Z.land color 255)] in
  repeatM (Z.to_nat h) (st7789_send_data_block data 2).

(** ** Orientation and mode control *)

(** [switch (rotation)] over the enum's integer value, with no [default]. *)
Definition st7789_set_rotation (rotation : Z) : DM unit :=
  st7789_send_cmd ST7789_MADCTL ;;
  if rotation =? 0 then
    st7789_send_data (Z.lor (Z.lor ST7789_MADCTL_MX ST7789_MADCTL_MY) ST7789_MADCTL_RGB)
  else if rotation =? 1 then
    st7789_send_data (Z.lor (Z.lor ST7789_MADCTL_MY ST7789_MADCTL_MV) ST7789_MADCTL_RGB)
  else if rotation =? 2 then
    st7789_send_data ST7789_MADCTL_RGB
  else if rotation =? 3 then
    st7789_send_data (Z.lor (Z.lor ST7789_MADCTL_MX ST7789_MADCTL_MV) ST7789_MADCTL_RGB)
  else ret tt.

Definition st7789_display_on (on : bool) : DM unit :=
  if on then st7789_send_cmd ST7789_DISPON else st7789_send_cmd ST7789_DISPOFF.

Definition st7789_invert_display (invert : bool) : DM unit :=
  if invert then st7789_send_cmd ST7789_INVON else st7789_send_cmd ST7789_INVOFF.

(** ** Frame streams of the primitives *)

(** The pixel stream of [n] pixels of one colour. *)
Definition solid_frames (n : Z) (color : Z) : list frame :=
  repeat (FData (be16 color)) (Z.to_nat n).

Lemma colour_block_send color :
  st7789_send_data_block [u8 (Z.shiftr color 8); u8 (Z.land color 255)] 2
    ≡ₘ send [FData (be16 color)].
Proof. intros s. reflexivity. Qed.

Lemma concat_repeat_singleton {A} (a : A) n : concat (repeat [a] n) = repeat a n.
Proof. induction n as [|n IH]; cbn; [reflexivity|]. now rewrite IH. Qed.

Lemma repeat_mul_nat {A} (a : A) (w h : Z) :
  0 <= w -> 0 <= h ->
  concat (repeat (repeat a (Z.to_nat w)) (Z.to_nat h)) = repeat a (Z.to_nat (w * h)).
Proof.
  intros Hw Hh. rewrite Z2Nat.inj_mul by lia.
  replace (repeat a (Z.to_nat w)) with (concat (repeat [a] (Z.to_nat w)))
    by apply concat_repeat_singleton.
  rewrite concat_repeat_mul, concat_repeat_singleton. f_equal. lia.
Qed.

Lemma st7789_fill_rect_send x y w h color :
  0 <= w -> 0 <= h ->
  st7789_fill_rect x y w h color ≡ₘ
  send (window_frames x y (u16 (x + w - 1)) (u16 (y + h - 1)) ++ solid_frames (w * h) color).
Proof.
  intros Hw Hh. unfold st7789_fill_rect, solid_frames.
  rewrite st7789_set_addr_window_send. setoid_rewrite colour_block_send.
  setoid_rewrite repeatM_send. setoid_rewrite repeatM_send. rewrite send_app.
  now rewrite concat_repeat_singleton, repeat_mul_nat.
Qed.

Lemma st7789_draw_hline_send x y w color :
  st7789_draw_hline x y w color ≡ₘ
  send (window_frames x y (u16 (x + w - 1)) y ++ solid_frames w color).
Proof.
  unfold st7789_draw_hline, solid_frames.
  rewrite st7789_set_addr_window_send. setoid_rewrite colour_block_send.
  setoid_rewrite repeatM_send. rewrite send_app.
  now rewrite concat_repeat_singleton.
Qed.

Lemma st7789_draw_vline_send x y h color :
  st7789_draw_vline x y h color ≡ₘ
  send (window_frames x y x (u16 (y + h - 1)) ++ solid_frames h color).
Proof.
  unfold st7789_draw_vline, solid_frames.
  rewrite st7789_set_addr_window_send. setoid_rewrite colour_block_send.
  setoid_rewrite repeatM_send. rewrite send_app.
  now rewrite concat_repeat_singleton.
Qed.

Lemma st7789_draw_pixel_send x y color :
  st7789_draw_pixel x y color ≡ₘ send (window_frames x y x y ++ [FData (be16 color)]).
Proof.
  unfold st7789_draw_pixel.
  rewrite st7789_set_addr_window_send. setoid_rewrite st7789_send_data16_send.
  now rewrite send_app.
Qed.

(** ** Properties of the rectangle and line primitives *)

(** C4: for a rectangle inside the 16-bit coordinate space with [w, h >= 1],
    [st7789_fill_rect] programs exactly the window [(x, y, x+w-1, y+h-1)]
    and then writes exactly [w*h] data frames, each the big-endian colour
    word; the SPI handle is unchanged. *)
Theorem st7789_fill_rect_protocol x y w h color dev :
  is_u16 x = true -> is_u16 y = true -> 1 <= w -> 1 <= h ->
  x + w <= 65536 -> y + h <= 65536 ->
  st7789_fill_rect x y w h color dev =
    (frames dev (window_frames x y (x + w - 1) (y + h - 1) ++
                 repeat (FData (be16 color)) (Z.to_nat (w * h))),
     Some (tt, dev)).
Proof.
  intros Hx Hy Hw Hh Hxw Hyh. range_facts.
  rewrite (st7789_fill_rect_send x y w h color) by lia. conv_small. reflexivity.
Qed.

(** Witness of C4: a 3x2 red rectangle at (10, 20). *)
Lemma st7789_fill_rect_protocol_witness :
  st7789_fill_rect 10 20 3 2 ST7789_RED st7789_spi_zero =
    (frames st7789_spi_zero (window_frames 10 20 12 21 ++
                             repeat (FData (be16 ST7789_RED)) 6),
     Some (tt, st7789_spi_zero)).
Proof.
  apply (st7789_fill_rect_protocol 10 20 3 2 ST7789_RED st7789_spi_zero);
    reflexivity || lia.
Defined.

(** A helper for the equivalences below: a one-pixel-high rectangle ends
    on its own row. *)
Lemma u16_strip_end v : 0 <= v < 65536 -> u16 (v + 1 - 1) = v.
Proof. intros H. replace (v + 1 - 1) with v by lia. now apply u16_small. Qed.

(** C26: [st7789_draw_hline x y w c] is, on the wire, exactly
    [st7789_fill_rect x y w 1 c]: same window, same pixel stream. *)
Theorem st7789_draw_hline_is_fill_rect x y w color :
  is_u16 y = true -> 0 <= w ->
  st7789_draw_hline x y w color ≡ₘ st7789_fill_rect x y w 1 color.
Proof.
  intros Hy Hw. range_facts.
  rewrite st7789_draw_hline_send, st7789_fill_rect_send by lia.
  now rewrite u16_strip_end, Z.mul_1_r.
Qed.

(** Witness of C26. *)
Lemma st7789_draw_hline_is_fill_rect_witness :
  st7789_draw_hline 7 9 4 ST7789_WHITE ≡ₘ st7789_fill_rect 7 9 4 1 ST7789_WHITE.
Proof. apply st7789_draw_hline_is_fill_rect; reflexivity || lia. Defined.

(** C27: [st7789_draw_vline x y h c] is, on the wire, exactly
    [st7789_fill_rect x y 1 h c]. *)
Theorem st7789_draw_vline_is_fill_rect x y h color :
  is_u16 x = true -> 0 <= h ->
  st7789_draw_vline x y h color ≡ₘ st7789_fill_rect x y 1 h color.
Proof.
  intros Hx Hh. range_facts.
  rewrite st7789_draw_vline_send, st7789_fill_rect_send by lia.
  now rewrite u16_strip_end, Z.mul_1_l.
Qed.

(** Witness of C27. *)
Lemma st7789_draw_vline_is_fill_rect_witness :
  st7789_draw_vline 7 9 4 ST7789_WHITE ≡ₘ st7789_fill_rect 7 9 1 4 ST7789_WHITE.
Proof. apply st7789_draw_vline_is_fill_rect; reflexivity || lia. Defined.

(** C28: a zero-width rectangle writes no pixel, but still programs a
    window whose end column is [x - 1] taken modulo 2^16: [65535] for
    [x = 0], an inverted window otherwise. *)
Theorem st7789_fill_rect_zero_width x y h color dev :
  0 <= h ->
  st7789_fill_rect x y 0 h color dev =
    (frames dev (window_frames x y (u16 (x - 1)) (u16 (y + h - 1))), Some (tt, dev)).
Proof.
  intros Hh. rewrite (st7789_fill_rect_send x y 0 h color) by lia.
  unfold send, tells, solid_frames. rewrite Z.mul_0_l, Z.add_0_r.
  change (Z.to_nat 0) with 0%nat. now rewrite app_nil_r.
Qed.

(** Witness of C28: at column 0 the end column wraps to 65535. *)
Lemma st7789_fill_rect_zero_width_witness :
  st7789_fill_rect 0 0 0 5 ST7789_RED st7789_spi_zero =
    (frames st7789_spi_zero (window_frames 0 0 65535 4), Some (tt, st7789_spi_zero)).
Proof. apply (st7789_fill_rect_zero_width 0 0 5 ST7789_RED st7789_spi_zero); lia. Defined.

(** ** Rotation *)

(** The MADCTL flags a byte selects: row/column exchange and mirroring
    (MY bit 7, MX bit 6, MV bit 5) and colour order (BGR bit 3). *)
Definition madctl_flags (b : Z) : bool * bool * bool * bool :=
  (Z.testbit b 7, Z.testbit b 6, Z.testbit b 5, Z.testbit b 3).

(** The orientation each rotation asks for (MY, MX, MV, BGR), as the spec
    lists it: 0 -> MX|MY, 90 -> MY|MV, 180 -> none, 270 -> MX|MV, all RGB. *)
Definition rotation_flags (r : st7789_rotation_t) : bool * bool * bool * bool :=
  match r with
  | ST7789_ROTATION_0 => (true, true, false, false)
  | ST7789_ROTATION_90 => (true, false, true, false)
  | ST7789_ROTATION_180 => (false, false, false, false)
  | ST7789_ROTATION_270 => (false, true, true, false)
  end.

(** C29: for each value of the rotation enum, [st7789_set_rotation] sends
    MADCTL followed by one data byte whose MY/MX/MV/BGR flags are those of
    the rotation; distinct rotations therefore send distinct bytes. *)
Theorem st7789_set_rotation_madctl r dev :
  exists b, st7789_set_rotation (rotation_value r) dev =
              (frames dev [FCmd ST7789_MADCTL; FData [b]], Some (tt, dev)) /\
            is_u8 b = true /\ madctl_flags b = rotation_flags r.
Proof. destruct r; eexists; (split; [reflexivity|]); split; reflexivity. Qed.

(** C30: a rotation value outside the enum (no [default] in the switch)
    sends the MADCTL command with no parameter byte. *)
Theorem st7789_set_rotation_out_of_range v :
  (v < 0 \/ 3 < v) -> st7789_set_rotation v ≡ₘ send [FCmd ST7789_MADCTL].
Proof.
  intros Hv s. unfold st7789_set_rotation.
  destruct (Z.eqb_spec v 0), (Z.eqb_spec v 1), (Z.eqb_spec v 2), (Z.eqb_spec v 3);
    try lia. reflexivity.
Qed.

(** Witness of C30: the value 4. *)
Lemma st7789_set_rotation_out_of_range_witness :
  st7789_set_rotation 4 ≡ₘ send [FCmd ST7789_MADCTL].
Proof. apply st7789_set_rotation_out_of_range. lia. Defined.

(** ** Bitmaps *)

(** The packing loop
    [for (i = 0; i < chunk; i++) { buffer[i*2] = bitmap[offset + i] >> 8;
                                    buffer[i*2 + 1] = bitmap[offset + i] & 0xFF; }]
    on the stack buffer [buffer], from index [i] for [n] more pixels.  A
    pixel read past the end of the bitmap list reads 0 (undefined in C;
    the theorems assume the bitmap is long enough). *)
Fixpoint pack_loop (bitmap : list Z) (offset i : Z) (n : nat) (buffer : list Z)
  : list Z :=
  match n with
  | O => buffer
  | S n' =>
      let px := nth (Z.to_nat (offset + i)) bitmap 0 in
      let buffer1 := <[Z.to_nat (i * 2) := u8 (Z.shiftr px 8)]> buffer in
      let buffer2 := <[Z.to_nat (i * 2 + 1) := u8 (Z.land px 255)]> buffer1 in
      pack_loop bitmap offset (i + 1) n' buffer2
  end.

(** [while (pixels > 0) { chunk = pixels > 1024 ? 1024 : pixels; pack;
    send_data_block(buffer, chunk * 2); offset += chunk; pixels -= chunk; }]
    by well-founded recursion on the number of pixels left.  The buffer
    is threaded through the iterations: each chunk overwrites it in place. *)
Equations? bitmap_loop (bitmap buffer : list Z) (pixels offset : Z) : DM unit
  by wf (Z.to_nat pixels) lt :=
  bitmap_loop bitmap buffer pixels offset with Equations.Prop.Logic.inspect (0 <? pixels) => {
  | exist _ false _ => ret tt;
  | exist _ true H =>
      let chunk := if 1024 <? pixels then 1024 else pixels in
      let buffer' := pack_loop bitmap offset 0 (Z.to_nat chunk) buffer in
      st7789_send_data_block buffer' (chunk * 2) ;;
      bitmap_loop bitmap buffer' (pixels - chunk) (offset + chunk) }.
Proof.
  apply Z.ltb_lt in H. destruct (Z.ltb_spec 1024 pixels); lia.
Qed.

(** [st7789_draw_bitmap]; [stack] is the uninitialised content of
    [uint8_t buffer[2048]], and [pixels = w * h] is kept as a [uint32_t]. *)
Definition st7789_draw_bitmap (stack : list Z) (x y w h : Z) (bitmap : list Z)
  : DM unit :=
  let pixels := u32 (w * h) in
  st7789_set_addr_window x y (u16 (x + w - 1)) (u16 (y + h - 1)) ;;
  bitmap_loop bitmap stack pixels 0.

(** *** Specification of the bitmap stream *)

(** The big-endian serialisation of a list of pixels. *)
Definition serialize (px : list Z) : list Z := flat_map be16 px.

(** The data of the SPI transfers of a trace, one list per transfer. *)
Definition transfers (tr : list event) : list (list Z) :=
  flat_map (fun e => match e with EvSpiSend _ bs => [bs] | _ => [] end) tr.

(** A pixel list cut into chunks of 1024 pixels. *)
Equations? chunk1024 (l : list Z) : list (list Z) by wf (length l) lt :=
  chunk1024 [] := [];
  chunk1024 (a :: l) := take 1024 (a :: l) :: chunk1024 (drop 1024 (a :: l)).
Proof. rewrite length_drop. cbn. lia. Qed.

(** *** Lemmas on the packing loop *)

Lemma insert_pair {A} (l : list A) k a b :
  (S k < length l)%nat ->
  <[S k := b]> (<[k := a]> l) = take k l ++ a :: b :: drop (S (S k)) l.
Proof.
  revert k. induction l as [|x l IH]; intros k Hk; cbn in Hk; [lia|].
  destruct k as [|k].
  - destruct l as [|y l]; cbn in Hk; [lia|]. reflexivity.
  - cbn. f_equal. apply IH. lia.
Qed.

Lemma drop_nth_cons {A} (l : list A) m d :
  (m < length l)%nat -> drop m l = nth m l d :: drop (S m) l.
Proof.
  revert m. induction l as [|x l IH]; intros m Hm; cbn in Hm; [lia|].
  destruct m as [|m]; [reflexivity|]. cbn. apply IH. lia.
Qed.

Lemma serialize_app l1 l2 : serialize (l1 ++ l2) = serialize l1 ++ serialize l2.
Proof. apply flat_map_app. Qed.

Lemma length_serialize l : length (serialize l) = (2 * length l)%nat.
Proof.
  induction l as [|p l IH]; [reflexivity|].
  change (serialize (p :: l)) with (be16 p ++ serialize l).
  rewrite length_app, IH. cbn. lia.
Qed.

(** The packing loop from pixel [j] for [n] pixels overwrites exactly the
    bytes [2j .. 2(j+n)) of the buffer with the serialised pixels. *)
Lemma pack_loop_spec bitmap off n j buf :
  0 <= off -> (2 * (j + n) <= length buf)%nat ->
  (Z.to_nat off + j + n <= length bitmap)%nat ->
  pack_loop bitmap off (Z.of_nat j) n buf =
  take (2 * j) buf ++ serialize (take n (drop (Z.to_nat off + j) bitmap)) ++
  drop (2 * (j + n)) buf.
Proof.
  intros Hoff. revert j buf. induction n as [|n IH]; intros j buf Hbuf Hbm.
  - cbn [pack_loop]. rewrite Nat.add_0_r, take_0. change (serialize []) with (@nil Z).
    cbn [app]. symmetry. apply take_drop.
  - cbn [pack_loop].
    replace (Z.to_nat (Z.of_nat j * 2)) with (2 * j)%nat by lia.
    replace (Z.to_nat (Z.of_nat j * 2 + 1)) with (S (2 * j)) by lia.
    replace (Z.to_nat (off + Z.of_nat j)) with (Z.to_nat off + j)%nat by lia.
    rewrite insert_pair by lia.
    replace (Z.of_nat j + 1) with (Z.of_nat (S j)) by lia.
    rewrite IH by (rewrite ?length_app; cbn; rewrite ?length_take, ?length_drop; lia).
    rewrite (drop_nth_cons _ (Z.to_nat off + j) 0) by lia.
    unfold serialize. cbn [take flat_map].
    set (px := nth (Z.to_nat off + j) bitmap 0).
    set (pre := take (2 * j) buf).
    assert (Hpre : length pre = (2 * j)%nat) by (unfold pre; rewrite length_take; lia).
    rewrite take_app, drop_app, Hpre.
    rewrite (take_ge pre), (drop_ge pre) by lia.
    replace (2 * S j - 2 * j)%nat with 2%nat by lia.
    replace (2 * (S j + n) - 2 * j)%nat with (S (S (2 * (j + n) - 2 * j)))%nat by lia.
    cbn [take drop app]. rewrite drop_drop.
    replace (S (S (2 * j)) + (2 * (j + n) - 2 * j))%nat with (2 * (j + S n))%nat by lia.
    replace (Z.to_nat off + S j)%nat with (S (Z.to_nat off + j)) by lia.
    rewrite <- !app_assoc. reflexivity.
Qed.

Lemma length_pack_loop bitmap off i n buf :
  length (pack_loop bitmap off i n buf) = length buf.
Proof.
  revert i buf. induction n as [|n IH]; intros i buf; cbn; [reflexivity|].
  now rewrite IH, !length_insert.
Qed.

(** One chunk: the first [2c] bytes of the packed buffer are the
    serialised pixels [offset .. offset + c). *)
Lemma pack_chunk bitmap off c buf :
  0 <= off -> (2 * c <= length buf)%nat -> (Z.to_nat off + c <= length bitmap)%nat ->
  take (2 * c) (pack_loop bitmap off 0 c buf) = serialize (take c (drop (Z.to_nat off) bitmap)).
Proof.
  intros Hoff Hbuf Hbm. change 0 with (Z.of_nat 0).
  rewrite pack_loop_spec by lia. rewrite Nat.mul_0_r, take_0, !Nat.add_0_r. cbn [app].
  assert (Hs : length (serialize (take c (drop (Z.to_nat off) bitmap))) = (2 * c)%nat)
    by (rewrite length_serialize, length_take, length_drop; lia).
  rewrite take_app, Hs, take_ge by lia.
  replace (2 * c - 2 * c)%nat with 0%nat by lia.
  rewrite take_0. apply app_nil_r.
Qed.

(** Cutting the first [P] pixels of a list into chunks of 1024: the first
    chunk is [min 1024 P] pixels, the rest is the cut of what follows. *)
Lemma chunk1024_take (l : list Z) (P : nat) :
  (0 < P <= length l)%nat ->
  chunk1024 (take P l) =
  take (Nat.min 1024 P) l :: chunk1024 (take (P - Nat.min 1024 P) (drop (Nat.min 1024 P) l)).
Proof.
  intros HP. destruct (take P l) as [|a r] eqn:E.
  { apply (f_equal length) in E. rewrite length_take in E. cbn in E. lia. }
  rewrite chunk1024_equation_2, <- E, take_take. f_equal.
  f_equal. destruct (Nat.le_gt_cases P 1024).
  - rewrite drop_ge by (rewrite length_take; lia).
    replace (P - Nat.min 1024 P)%nat with 0%nat by lia. now rewrite take_0.
  - replace (Nat.min 1024 P) with 1024%nat by lia.
    rewrite take_drop_commute. f_equal. f_equal. lia.
Qed.

Lemma Z_to_nat_chunk pixels :
  0 < pixels ->
  Z.to_nat (if 1024 <? pixels then 1024 else pixels) = Nat.min 1024 (Z.to_nat pixels).
Proof. intros H. destruct (Z.ltb_spec 1024 pixels); lia. Qed.

(** The chunk loop sends, in order, one data frame per chunk of 1024
    pixels of [bitmap[offset .. offset + pixels)], serialised big-endian,
    whatever the buffer held before. *)
Lemma bitmap_loop_spec bitmap buffer pixels offset :
  length buffer = 2048%nat -> 0 <= offset -> 0 <= pixels ->
  offset + pixels <= Z.of_nat (length bitmap) ->
  bitmap_loop bitmap buffer pixels offset ≡ₘ
    send (map (fun c => FData (serialize c))
              (chunk1024 (take (Z.to_nat pixels) (drop (Z.to_nat offset) bitmap)))).
Proof.
  funelim (bitmap_loop bitmap buffer pixels offset); intros Hbuf Hoff Hpx Hlen.
  - pose proof (proj1 (Z.ltb_lt _ _) H) as Hpos.
    set (chunk := if 1024 <? pixels then 1024 else pixels) in *.
    assert (Hc : 0 < chunk <= 1024 /\ chunk <= pixels)
      by (unfold chunk; destruct (Z.ltb_spec 1024 pixels); lia).
    intros s. unfold bind. rewrite (st7789_send_data_block_send _ _ s).
    cbn -[frames bitmap_loop pack_loop].
    rewrite (H0 tt s) by (rewrite ?length_pack_loop; lia). clear H0.
    unfold send, tells. rewrite <- frames_app. do 3 f_equal.
    rewrite (chunk1024_take _ (Z.to_nat pixels)) by (rewrite length_drop; lia).
    rewrite <- Z_to_nat_chunk by lia. fold chunk. cbn [map app].
    replace (Z.to_nat (chunk * 2)) with (2 * Z.to_nat chunk)%nat by lia.
    rewrite pack_chunk by lia.
    replace (Z.to_nat (pixels - chunk)) with (Z.to_nat pixels - Z.to_nat chunk)%nat by lia.
    rewrite drop_drop. replace (Z.to_nat offset + Z.to_nat chunk)%nat
      with (Z.to_nat (offset + chunk)) by lia.
    reflexivity.
  - pose proof (proj1 (Z.ltb_ge _ _) e) as Hpos. replace (Z.to_nat pixels) with 0%nat by lia.
    intros s. reflexivity.
Qed.

(** *** Chunking: no gap, no overlap, bounded chunks *)

Lemma chunk1024_concat l : concat (chunk1024 l) = l.
Proof.
  funelim (chunk1024 l); [reflexivity|].
  cbn [concat]. change (drop 1024 (a :: l)) with (drop 1023 l). rewrite H.
  change (drop 1023 l) with (drop 1024 (a :: l)). apply take_drop.
Qed.

(** The sizes of the chunks of [n] pixels: [n / 1024] full chunks, then the
    remainder if there is one. *)
Definition chunk_sizes (n : nat) : list nat :=
  repeat 1024%nat (n / 1024) ++ (if (n mod 1024 =? 0)%nat then [] else [n mod 1024]%nat).

Lemma chunk_sizes_step n :
  (0 < n)%nat -> chunk_sizes n = Nat.min 1024 n :: chunk_sizes (n - 1024).
Proof.
  intros Hn. unfold chunk_sizes. destruct (Nat.le_gt_cases 1024 n).
  - assert (E : n = ((n - 1024) + 1 * 1024)%nat) by lia.
    assert (E1 : (n / 1024 = S ((n - 1024) / 1024))%nat)
      by (rewrite E at 1; rewrite Nat.div_add by lia; lia).
    assert (E2 : (n mod 1024 = (n - 1024) mod 1024)%nat)
      by (rewrite E at 1; apply Nat.Div0.mod_add).
    rewrite E1, E2. cbn [repeat app]. f_equal. lia.
  - rewrite Nat.div_small by lia. rewrite Nat.mod_small by lia.
    replace (n - 1024)%nat with 0%nat by lia. cbn -[Nat.min].
    destruct (Nat.eqb_spec n 0); [lia|]. f_equal. lia.
Qed.

Lemma chunk1024_sizes l : map length (chunk1024 l) = chunk_sizes (length l).
Proof.
  funelim (chunk1024 l); [reflexivity|].
  cbn [map]. change (drop 1024 (a :: l)) with (drop 1023 l).
  rewrite H, length_drop, length_take.
  now rewrite (chunk_sizes_step (length (a :: l))) by (cbn; lia).
Qed.

(** The chunks of a pixel list serialise to the serialisation of the list. *)
Lemma serialize_chunks l : concat (map serialize (chunk1024 l)) = serialize l.
Proof.
  rewrite <- (chunk1024_concat l) at 2. unfold serialize.
  induction (chunk1024 l) as [|c cs IH]; [reflexivity|].
  cbn [map concat]. now rewrite flat_map_app, IH.
Qed.

Lemma transfers_data_frames dev (bss : list (list Z)) :
  transfers (frames dev (map FData bss)) = bss.
Proof. induction bss as [|bs bss IH]; [reflexivity|]. cbn. now f_equal. Qed.

(** C12: the chunk loop of [st7789_draw_bitmap], run on [pixels] pixels
    from offset 0 with a 2048-byte buffer, makes [pixels / 1024] transfers
    of 2048 bytes followed by one transfer of the remaining pixels' bytes
    if there are any, and the bytes of its transfers, concatenated, are
    the big-endian serialisation of the first [pixels] pixels: no pixel
    is duplicated or skipped at a chunk boundary, whatever the buffer
    held before. *)
Theorem bitmap_loop_chunks bitmap buffer pixels dev :
  length buffer = 2048%nat -> 0 <= pixels <= Z.of_nat (length bitmap) ->
  concat (transfers (fst (bitmap_loop bitmap buffer pixels 0 dev))) =
    serialize (take (Z.to_nat pixels) bitmap) /\
  map (@length Z) (transfers (fst (bitmap_loop bitmap buffer pixels 0 dev))) =
    map (Nat.mul 2) (chunk_sizes (Z.to_nat pixels)).
Proof.
  intros Hbuf Hpx.
  rewrite (bitmap_loop_spec bitmap buffer pixels 0 Hbuf ltac:(lia) ltac:(lia) ltac:(lia) dev).
  cbn [fst send tells]. change (Z.to_nat 0) with 0%nat. rewrite drop_0.
  rewrite <- (map_map serialize FData), transfers_data_frames.
  split; [apply serialize_chunks|].
  rewrite map_map, (map_ext _ (fun c => Nat.mul 2 (length c))) by apply length_serialize.
  rewrite <- (map_map (@length Z) (Nat.mul 2)), chunk1024_sizes, length_take.
  do 3 f_equal. lia.
Qed.
(** The frames of [st7789_draw_bitmap] for a rectangle inside the 16-bit
    coordinate space. *)
(** [uint32_t pixels = w * h]: the product of two [uint16_t] values is
    always below 2^32, so the [uint32_t] the model keeps is the exact
    count; it exceeds [INT_MAX] (where the [int] multiplication of C
    overflows) once [w * h >= 2^31], e.g. for a 65535 x 65535 bitmap. *)
Lemma bitmap_pixels_u32 w h :
  is_u16 w = true -> is_u16 h = true -> u32 (w * h) = w * h /\ w * h <= 65535 * 65535.
Proof. intros Hw Hh. range_facts. rewrite u32_small by nia. nia. Qed.

Lemma st7789_draw_bitmap_send stack x y w h bitmap :
  length stack = 2048%nat -> 0 <= x -> 0 <= y -> 0 <= w < 65536 -> 0 <= h < 65536 ->
  1 <= w -> 1 <= h -> x + w <= 65536 -> y + h <= 65536 ->
  w * h <= Z.of_nat (length bitmap) ->
  st7789_draw_bitmap stack x y w h bitmap ≡ₘ
    send (window_frames x y (x + w - 1) (y + h - 1) ++
          map (fun c => FData (serialize c)) (chunk1024 (take (Z.to_nat (w * h)) bitmap))).
Proof.
  intros Hst Hx Hy Hw16 Hh16 Hw Hh Hxw Hyh Hbm.
  unfold st7789_draw_bitmap. rewrite (u32_small (w * h)) by nia.
  rewrite st7789_set_addr_window_send.
  setoid_rewrite bitmap_loop_spec; try lia.
  rewrite send_app. conv_small. reflexivity.
Qed.

(** C5: for a rectangle inside the 16-bit coordinate space with [w, h >= 1]
    and a bitmap of at least [w*h] pixels, [st7789_draw_bitmap] programs
    the window [(x, y, x+w-1, y+h-1)] and then makes one data transfer per
    chunk of at most 1024 pixels of the first [w*h] pixels, each chunk
    serialised big-endian, whatever the stack buffer held before. *)
Theorem st7789_draw_bitmap_protocol stack x y w h bitmap dev :
  length stack = 2048%nat ->
  is_u16 x = true -> is_u16 y = true -> is_u16 w = true -> is_u16 h = true ->
  1 <= w -> 1 <= h -> x + w <= 65536 -> y + h <= 65536 ->
  w * h <= Z.of_nat (length bitmap) ->
  st7789_draw_bitmap stack x y w h bitmap dev =
    (frames dev (window_frames x y (x + w - 1) (y + h - 1) ++
                 map (fun c => FData (serialize c))
                     (chunk1024 (take (Z.to_nat (w * h)) bitmap))),
     Some (tt, dev)).
Proof.
  intros Hst Hx Hy Hw16 Hh16 Hw Hh Hxw Hyh Hbm. range_facts.
  exact (st7789_draw_bitmap_send stack x y w h bitmap Hst ltac:(lia) ltac:(lia) ltac:(lia)
           ltac:(lia) Hw Hh Hxw Hyh Hbm dev).
Qed.

(** Witness of C5: the spec's 50x50 bitmap of 2500 pixels. *)
Lemma st7789_draw_bitmap_protocol_witness :
  let bm := map Z.of_nat (seq 0 2500) in
  st7789_draw_bitmap (repeat 0 2048) 0 0 50 50 bm st7789_spi_zero =
    (frames st7789_spi_zero
       (window_frames 0 0 49 49 ++
        map (fun c => FData (serialize c)) (chunk1024 (take 2500 bm))),
     Some (tt, st7789_spi_zero)).
Proof.
  intros bm. apply (st7789_draw_bitmap_protocol (repeat 0 2048) 0 0 50 50 bm);
    reflexivity || lia || (vm_compute; discriminate).
Defined.

(** Witness of C12: the spec's example, 2500 pixels go out as three
    transfers of 1024, 1024 and 452 pixels (2048, 2048 and 904 bytes). *)
Lemma bitmap_loop_chunks_witness :
  let bm := map Z.of_nat (seq 0 2500) in
  concat (transfers (fst (bitmap_loop bm (repeat 0 2048) 2500 0 st7789_spi_zero))) =
    serialize (take 2500 bm) /\
  map (@length Z) (transfers (fst (bitmap_loop bm (repeat 0 2048) 2500 0 st7789_spi_zero))) =
    [2048; 2048; 904]%nat.
Proof.
  intros bm.
  destruct (bitmap_loop_chunks bm (repeat 0 2048) 2500 st7789_spi_zero eq_refl) as [H1 H2].
  - split; [lia|]. subst bm. rewrite length_map, length_seq. lia.
  - split; [exact H1 | rewrite H2; reflexivity].
Defined.
