(* ===== verification/Circle.v ===== *)
(** * Circles (st7789.c 223-276)

    [st7789_draw_circle] and [st7789_fill_circle] run the midpoint circle
    recurrence on three [int16_t] variables [x], [y], [d]; every update is
    kept in [int16_t] by [s16].  Both loops are modelled with [while_] and
    a fuel of 65536 iterations; the fill's span loops run an [int16_t]
    counter up to an [int] bound.

    [circle_states] lists the states the outer loop body runs in;
    [circle_points] and [fill_points] list the pixels drawn, in order, and
    the two routines are shown to send exactly the pixel frames of these
    lists.  The theorems: the outline loop terminates for every 16-bit
    radius; for a radius up to 8000 the [int16_t] variables never wrap, [d]
    is the midpoint decision value and every plotted octant point lies
    within [y] of the circle ([|x^2 + y^2 - r^2| <= y]); the outline is
    8-fold symmetric and degenerates to the centre for [r = 0]; the filled
    disc covers the outline; the fill writes the centre pixel more than
    once; and the fill never ends when [x0 + r >= 32767]. *)

From Stdlib Require Import ZArith List Lia Setoid Morphisms.
From S2P Require Import Prelude Monad Hal Encoder Window Raster.
Import ListNotations.
Open Scope Z_scope.
Open Scope monad_scope.

(** ** The midpoint recurrence *)

(** The loop variables [int16_t x, y, d]. *)
Record circ := mk_circ { cx : Z; cy : Z; cd : Z }.

(** [int16_t x = 0; int16_t y = r; int16_t d = 3 - 2 * r;] *)
Definition circle_init (r : Z) : circ := mk_circ 0 (s16 r) (s16 (3 - 2 * r)).

(** [while (x <= y)] *)
Definition circle_cond (st : circ) : bool := cx st <=? cy st.

(** [if (d < 0) d = d + 4*x + 6; else { d = d + 4*(x - y) + 10; y--; } x++;] *)
Definition circle_update (st : circ) : circ :=
  let '(mk_circ x y d) := st in
  if d <? 0 then mk_circ (s16 (x + 1)) y (s16 (d + 4 * x + 6))
  else mk_circ (s16 (x + 1)) (s16 (y - 1)) (s16 (d + 4 * (x - y) + 10)).

(** Iterations allowed to the circle loops and to the span loops. *)
Definition circle_fuel : nat := Z.to_nat 65536.
Definition span_fuel : nat := Z.to_nat 65536.

Lemma circle_fuel_eq : circle_fuel = Z.to_nat 65536.
Proof. reflexivity. Qed.

Lemma span_fuel_eq : span_fuel = Z.to_nat 65536.
Proof. reflexivity. Qed.

(** The fuel is only ever unfolded on purpose, through the two equations. *)
#[global] Opaque circle_fuel span_fuel.

(** The eight pixels one iteration of [st7789_draw_circle] plots, in the
    order of the calls; the coordinates are converted to [uint16_t]. *)
Definition octant_points (x0 y0 : Z) (st : circ) : list (Z * Z) :=
  let x := cx st in let y := cy st in
  [(u16 (x0 + x), u16 (y0 + y)); (u16 (x0 - x), u16 (y0 + y));
   (u16 (x0 + x), u16 (y0 - y)); (u16 (x0 - x), u16 (y0 - y));
   (u16 (x0 + y), u16 (y0 + x)); (u16 (x0 - y), u16 (y0 + x));
   (u16 (x0 + y), u16 (y0 - x)); (u16 (x0 - y), u16 (y0 - x))].

(** The body of the [while] loop of [st7789_draw_circle]. *)
Definition circle_plot (x0 y0 color : Z) (st : circ) : DM circ :=
  let x := cx st in let y := cy st in
  st7789_draw_pixel (u16 (x0 + x)) (u16 (y0 + y)) color ;;
  st7789_draw_pixel (u16 (x0 - x)) (u16 (y0 + y)) color ;;
  st7789_draw_pixel (u16 (x0 + x)) (u16 (y0 - y)) color ;;
  st7789_draw_pixel (u16 (x0 - x)) (u16 (y0 - y)) color ;;
  st7789_draw_pixel (u16 (x0 + y)) (u16 (y0 + x)) color ;;
  st7789_draw_pixel (u16 (x0 - y)) (u16 (y0 + x)) color ;;
  st7789_draw_pixel (u16 (x0 + y)) (u16 (y0 - x)) color ;;
  st7789_draw_pixel (u16 (x0 - y)) (u16 (y0 - x)) color ;;
  ret (circle_update st).

Definition st7789_draw_circle (x0 y0 r color : Z) : DM unit :=
  _ <- while_ circle_fuel circle_cond (circle_plot x0 y0 color) (circle_init r) ;;
  ret tt.

(** [for (int16_t i = lo; i <= hi; i++)]: [i] is an [int16_t], [hi] an [int]. *)
Definition span_cond (hi : Z) (i : Z) : bool := i <=? hi.
Definition span_step (i : Z) : Z := s16 (i + 1).

Definition span_body (row1 row2 color : Z) (i : Z) : DM Z :=
  st7789_draw_pixel (u16 i) (u16 row1) color ;;
  st7789_draw_pixel (u16 i) (u16 row2) color ;;
  ret (span_step i).

(** One span loop of [st7789_fill_circle]: pixels [(i, row1)] and
    [(i, row2)] for [i] from [lo] to [hi]. *)
Definition fill_span (lo hi row1 row2 color : Z) : DM Z :=
  while_ span_fuel (span_cond hi) (span_body row1 row2 color) (s16 lo).

(** The body of the outer loop of [st7789_fill_circle]. *)
Definition fill_body (x0 y0 color : Z) (st : circ) : DM circ :=
  let x := cx st in let y := cy st in
  _ <- fill_span (x0 - y) (x0 + y) (y0 + x) (y0 - x) color ;;
  _ <- fill_span (x0 - x) (x0 + x) (y0 + y) (y0 - y) color ;;
  ret (circle_update st).

Definition st7789_fill_circle (x0 y0 r color : Z) : DM unit :=
  _ <- while_ circle_fuel circle_cond (fill_body x0 y0 color) (circle_init r) ;;
  ret tt.

(** ** Pure accounts of the loops *)

(** The states the body of the circle loop runs in. *)
Definition circle_states (r : Z) : list circ :=
  fst (iterate circle_fuel circle_cond circle_update (circle_init r)).

Definition circle_points (x0 y0 r : Z) : list (Z * Z) :=
  flat_map (octant_points x0 y0) (circle_states r).

(** The counter values a span loop runs with. *)
Definition span_values (lo hi : Z) : list Z :=
  fst (iterate span_fuel (span_cond hi) span_step (s16 lo)).

Definition span_points (lo hi row1 row2 : Z) : list (Z * Z) :=
  flat_map (fun i => [(u16 i, u16 row1); (u16 i, u16 row2)]) (span_values lo hi).

Definition fill_points (x0 y0 r : Z) : list (Z * Z) :=
  flat_map (fun st => span_points (x0 - cy st) (x0 + cy st) (y0 + cx st) (y0 - cx st) ++
                      span_points (x0 - cx st) (x0 + cx st) (y0 + cy st) (y0 - cy st))
           (circle_states r).

(** The frames of one [st7789_draw_pixel]. *)
Definition pixel_frames (color : Z) (p : Z * Z) : list frame :=
  window_frames (fst p) (snd p) (fst p) (snd p) ++ [FData (be16 color)].

Definition pixels_send (color : Z) (pts : list (Z * Z)) (dev : spi_dev_t) : list event :=
  frames dev (flat_map (pixel_frames color) pts).

Lemma frames_flat_map {A} dev (g : A -> list frame) l :
  frames dev (flat_map g l) = concat (map (fun v => frames dev (g v)) l).
Proof.
  induction l as [|a l IH]; [reflexivity|]. cbn [flat_map map concat].
  now rewrite frames_app, IH.
Qed.

Lemma pixels_send_flat_map {A} color (g : A -> list (Z * Z)) l dev :
  pixels_send color (flat_map g l) dev = concat (map (fun v => pixels_send color (g v) dev) l).
Proof.
  unfold pixels_send. rewrite <- frames_flat_map. f_equal.
  induction l as [|a l IH]; [reflexivity|]. cbn [flat_map]. now rewrite flat_map_app, IH.
Qed.

(** ** The outline routine sends the pixels of [circle_points] *)

Lemma circle_plot_tells x0 y0 color st :
  circle_plot x0 y0 color st ≡ₘ
  (tells (pixels_send color (octant_points x0 y0 st)) ;; ret (circle_update st)).
Proof. intros s. reflexivity. Qed.

Lemma st7789_draw_circle_trace x0 y0 r color dev :
  st7789_draw_circle x0 y0 r color dev =
  (pixels_send color (circle_points x0 y0 r) dev,
   option_map (fun _ => (tt, dev))
     (snd (iterate circle_fuel circle_cond circle_update (circle_init r)))).
Proof.
  unfold st7789_draw_circle. unfold bind at 1.
  rewrite (while_meq _ _ _ _ (circle_plot_tells x0 y0 color) _ dev), while_tells.
  unfold circle_points, circle_states. rewrite pixels_send_flat_map.
  destruct (snd (iterate _ _ _ _)); cbn; now rewrite ?app_nil_r.
Qed.

(** ** Termination of the outline loop for every 16-bit radius *)

(** What holds of every state of the loop: [x] has not wrapped, [y] only
    decreases from [(int16_t)r], and [x] can only reach [y = 32767] in the
    first iteration, where [d >= 0] forces [y] down. *)
Definition circ_ok (r : Z) (st : circ) : Prop :=
  0 <= cx st /\ -32768 <= cy st <= s16 r /\ (1 <= cx st -> cy st <= 32766) /\
  (cy st = 32767 -> 0 <= cd st).

Definition circ_measure (st : circ) : nat := Z.to_nat (cy st - cx st + 1).

Lemma circle_init_ok r : is_u16 r = true -> circ_ok r (circle_init r).
Proof.
  intros Hr. range_facts. unfold circ_ok, circle_init. cbn [cx cy cd].
  pose proof (s16_range r). repeat split; try lia.
  intros Hy. assert (r = 32767).
  { unfold s16 in Hy. pose proof (Z.div_mod (r + 32768) 65536 ltac:(lia)).
    pose proof (Z.mod_pos_bound (r + 32768) 65536 ltac:(lia)). lia. }
  subst r. cbv. discriminate.
Qed.

Lemma circle_step_ok r st :
  circ_ok r st -> circle_cond st = true ->
  circ_ok r (circle_update st) /\ (circ_measure (circle_update st) < circ_measure st)%nat.
Proof.
  destruct st as [x y d]. unfold circ_ok, circ_measure, circle_cond, circle_update.
  cbn [cx cy cd]. intros (Hx & Hy & Hwrap & Htop) Hc. apply Z.leb_le in Hc.
  pose proof (s16_range r).
  assert (Hx1 : x + 1 <= 32767) by (destruct (Z.eq_dec x 0); lia).
  destruct (Z.ltb_spec d 0); cbn [cx cy cd]; rewrite (s16_small (x + 1)) by lia.
  - assert (y <> 32767) by (intros E; specialize (Htop E); lia).
    repeat split; lia.
  - rewrite (s16_small (y - 1)) by lia. repeat split; lia.
Qed.

Lemma circle_iterate_finishes r :
  is_u16 r = true ->
  exists fin, snd (iterate circle_fuel circle_cond circle_update (circle_init r)) = Some fin.
Proof.
  intros Hr.
  destruct (iterate_terminates circle_cond circle_update (circ_ok r) circ_measure
              (circle_step_ok r) circle_fuel (circle_init r) (circle_init_ok r Hr))
    as (fin & Hfin & _); [|eauto].
  unfold circ_measure, circle_init. rewrite circle_fuel_eq. cbn [cx cy].
  pose proof (s16_range r). lia.
Qed.

(** C8: the outline loop terminates for every 16-bit radius, within the
    fuel of 65536 iterations: [st7789_draw_circle] returns, leaves the
    handle unchanged, and sends exactly the pixels of [circle_points]. *)
Theorem st7789_draw_circle_terminates x0 y0 r color dev :
  is_u16 r = true ->
  st7789_draw_circle x0 y0 r color dev =
  (pixels_send color (circle_points x0 y0 r) dev, Some (tt, dev)).
Proof.
  intros Hr. rewrite st7789_draw_circle_trace.
  destruct (circle_iterate_finishes r Hr) as (fin & Hfin). now rewrite Hfin.
Qed.

(** Witness of C8: the largest radius whose loop runs, 32767. *)
Lemma st7789_draw_circle_terminates_witness :
  st7789_draw_circle 100 100 32767 ST7789_WHITE st7789_spi_zero =
  (pixels_send ST7789_WHITE (circle_points 100 100 32767) st7789_spi_zero,
   Some (tt, st7789_spi_zero)).
Proof. apply st7789_draw_circle_terminates. reflexivity. Defined.

(** ** No overflow and accuracy for radii up to 8000 *)

(** [d] is the midpoint decision value of the column [x + 1], computed
    exactly; and at each loop head the plotted point is within [y] of the
    circle. *)
Definition circ_exact (r : Z) (st : circ) : Prop :=
  let x := cx st in let y := cy st in
  0 <= x /\ -1 <= y <= r /\
  cd st = 2 * (x + 1) ^ 2 + y ^ 2 + (y - 1) ^ 2 - 2 * r ^ 2 /\
  (x <= y -> - y <= x ^ 2 + y ^ 2 - r ^ 2 <= y).

Lemma circle_exact_step r st :
  0 <= r <= 8000 -> circ_exact r st -> circle_cond st = true ->
  circ_exact r (circle_update st).
Proof.
  intros Hr. destruct st as [x y d]. unfold circ_exact, circle_cond, circle_update.
  cbn [cx cy cd]. intros (Hx & Hy & Hd & Hacc) Hc. apply Z.leb_le in Hc.
  specialize (Hacc Hc). set (E := x ^ 2 + y ^ 2 - r ^ 2) in Hacc.
  assert (HdE : d = 2 * E + 4 * x - 2 * y + 3) by (rewrite Hd; unfold E; ring).
  rewrite (s16_small (x + 1)) by lia.
  destruct (Z.ltb_spec d 0); cbn [cx cy cd].
  - rewrite s16_small by lia.
    assert (E1 : (x + 1) ^ 2 + y ^ 2 - r ^ 2 = E + 2 * x + 1) by (unfold E; ring).
    repeat split; lia.
  - rewrite (s16_small (y - 1)), s16_small by lia.
    assert (E1 : (x + 1) ^ 2 + (y - 1) ^ 2 - r ^ 2 = E + 2 * x - 2 * y + 2)
      by (unfold E; ring).
    repeat split; lia.
Qed.

Lemma circle_init_exact r : 0 <= r <= 8000 -> circ_exact r (circle_init r).
Proof.
  intros Hr. unfold circ_exact, circle_init. cbn [cx cy cd].
  rewrite !s16_small by lia. repeat split; try lia; intros _; nia.
Qed.

(** C16: for radii up to 8000 the [int16_t] arithmetic of the circle loop
    never wraps: in every iteration [0 <= x <= y <= r], [d] holds exactly
    the midpoint decision value [2(x+1)^2 + y^2 + (y-1)^2 - 2r^2], and the
    plotted point [(x, y)] is within [y] of the circle:
    [|x^2 + y^2 - r^2| <= y]. *)
Theorem circle_states_exact r :
  0 <= r <= 8000 ->
  Forall (fun st => 0 <= cx st <= cy st /\ cy st <= r /\
                    cd st = 2 * (cx st + 1) ^ 2 + cy st ^ 2 + (cy st - 1) ^ 2 - 2 * r ^ 2 /\
                    - cy st <= cx st ^ 2 + cy st ^ 2 - r ^ 2 <= cy st)
         (circle_states r).
Proof.
  intros Hr. unfold circle_states.
  eapply Forall_impl; [|apply (iterate_forall _ _ (circ_exact r));
                        [intros a Ha Hc; now apply circle_exact_step | apply circle_init_exact; lia]].
  intros [x y d] [(Hx & Hy & Hd & Hacc) Hc]. unfold circle_cond in Hc. cbn [cx cy cd] in *.
  apply Z.leb_le in Hc. auto with zarith.
Qed.

(** Witness of C16: the panel's largest circle, radius 240. *)
Lemma circle_states_exact_witness :
  Forall (fun st => 0 <= cx st <= cy st /\ cy st <= 240 /\
                    cd st = 2 * (cx st + 1) ^ 2 + cy st ^ 2 + (cy st - 1) ^ 2 - 2 * 240 ^ 2 /\
                    - cy st <= cx st ^ 2 + cy st ^ 2 - 240 ^ 2 <= cy st)
         (circle_states 240).
Proof. apply circle_states_exact. lia. Defined.

(** ** Shape of the outline *)

(** C25: a circle of radius 0 plots exactly its centre: the loop runs once,
    with [x = y = 0], and its eight calls all draw [(x0, y0)]. *)
Theorem circle_points_radius_0 x0 y0 :
  is_u16 x0 = true -> is_u16 y0 = true ->
  circle_points x0 y0 0 = repeat (x0, y0) 8.
Proof.
  intros Hx Hy. range_facts.
  assert (Hs : circle_states 0 = [mk_circ 0 0 3]) by (vm_compute; reflexivity).
  unfold circle_points. rewrite Hs. cbn -[u16].
  rewrite !Z.add_0_r, !Z.sub_0_r, !u16_small by lia. reflexivity.
Qed.

(** Witness of C25. *)
Lemma circle_points_radius_0_witness : circle_points 120 120 0 = repeat (120, 120) 8.
Proof. apply circle_points_radius_0; reflexivity. Defined.

(** The mirror images of a pixel about the vertical and horizontal axes
    and about the diagonal through the centre, in [uint16_t] coordinates. *)
Definition mirror_x (x0 : Z) (p : Z * Z) : Z * Z := (u16 (2 * x0 - fst p), snd p).
Definition mirror_y (y0 : Z) (p : Z * Z) : Z * Z := (fst p, u16 (2 * y0 - snd p)).
Definition mirror_diag (x0 y0 : Z) (p : Z * Z) : Z * Z :=
  (u16 (x0 + (snd p - y0)), u16 (y0 + (fst p - x0))).

(** Find a pixel among the eight of an octant, up to ring equalities of
    the coordinates. *)
Ltac find_in_octant :=
  repeat first [ left; f_equal; f_equal; ring | right ].

Lemma octant_mirrors x0 y0 st p :
  In p (octant_points x0 y0 st) ->
  In (mirror_x x0 p) (octant_points x0 y0 st) /\
  In (mirror_y y0 p) (octant_points x0 y0 st) /\
  In (mirror_diag x0 y0 p) (octant_points x0 y0 st).
Proof.
  unfold octant_points, mirror_x, mirror_y, mirror_diag.
  intros Hin. repeat destruct Hin as [<-|Hin]; try contradiction;
    cbn [fst snd]; autorewrite with st7789;
    repeat split; find_in_octant.
Qed.

(** C24: the outline is 8-fold symmetric: the set of pixels
    [st7789_draw_circle] plots is closed under the reflections about the
    vertical axis, the horizontal axis and the diagonal through the centre
    (which generate the eight symmetries), in [uint16_t] coordinates. *)
Theorem circle_points_symmetric x0 y0 r p :
  In p (circle_points x0 y0 r) ->
  In (mirror_x x0 p) (circle_points x0 y0 r) /\
  In (mirror_y y0 p) (circle_points x0 y0 r) /\
  In (mirror_diag x0 y0 p) (circle_points x0 y0 r).
Proof.
  unfold circle_points. rewrite !in_flat_map. intros (st & Hst & Hp).
  destruct (octant_mirrors x0 y0 st p Hp) as (H1 & H2 & H3).
  repeat split; exists st; auto.
Qed.

(** Witness of C24: a point of the radius-3 circle around (10, 10). *)
Lemma circle_points_symmetric_witness :
  In (10, 13) (circle_points 10 10 3) /\
  (In (mirror_x 10 (10, 13)) (circle_points 10 10 3) /\
   In (mirror_y 10 (10, 13)) (circle_points 10 10 3) /\
   In (mirror_diag 10 10 (10, 13)) (circle_points 10 10 3)).
Proof.
  split; [vm_compute; auto|]. apply circle_points_symmetric. vm_compute. auto.
Defined.

(** ** The filled disc *)

(** [lo, lo+1, ..., lo+n-1]. *)
Definition zrange (lo : Z) (n : nat) : list Z := map (fun k => lo + Z.of_nat k) (seq 0 n).

Lemma zrange_S lo n : zrange lo (S n) = lo :: zrange (lo + 1) n.
Proof.
  unfold zrange. cbn [seq map]. rewrite Z.add_0_r. f_equal.
  rewrite <- seq_shift, map_map. apply map_ext. intros k. lia.
Qed.

Lemma in_zrange lo n v : lo <= v < lo + Z.of_nat n -> In v (zrange lo n).
Proof.
  intros H. unfold zrange. apply in_map_iff. exists (Z.to_nat (v - lo)).
  split; [lia|]. apply in_seq. lia.
Qed.

(** A span loop that does not reach the top of [int16_t] runs its counter
    through [lo .. hi] and ends with [hi + 1]. *)
Lemma span_iterate k lo hi n :
  k = Z.to_nat (hi - lo + 1) -> -32768 <= lo -> lo <= hi + 1 -> hi <= 32766 -> (k < n)%nat ->
  iterate n (span_cond hi) span_step lo = (zrange lo k, Some (hi + 1)).
Proof.
  revert lo n. induction k as [|k IH]; intros lo n Hk Hlo Hle Hhi Hn;
    (destruct n as [|n]; [lia|]); cbn [iterate].
  - unfold span_cond. destruct (Z.leb_spec lo hi); [lia|].
    f_equal. f_equal. lia.
  - unfold span_cond at 1. destruct (Z.leb_spec lo hi); [|lia].
    replace (span_step lo) with (lo + 1) by (unfold span_step; symmetry; apply s16_small; lia).
    rewrite (IH (lo + 1)) by lia. now rewrite zrange_S.
Qed.

Lemma span_body_tells row1 row2 color i :
  span_body row1 row2 color i ≡ₘ
  (tells (pixels_send color [(u16 i, u16 row1); (u16 i, u16 row2)]) ;; ret (span_step i)).
Proof. intros s. reflexivity. Qed.

Lemma span_values_exact lo hi :
  -32768 <= lo <= hi + 1 -> hi <= 32766 ->
  span_values lo hi = zrange lo (Z.to_nat (hi - lo + 1)).
Proof.
  intros Hlo Hhi. unfold span_values. rewrite span_fuel_eq. rewrite s16_small by lia.
  now rewrite (span_iterate (Z.to_nat (hi - lo + 1))) by lia.
Qed.

(** A span that stays below the top of [int16_t] sends the pixels of
    [span_points] and returns [hi + 1]. *)
Lemma fill_span_tells lo hi row1 row2 color :
  -32768 <= lo <= hi + 1 -> hi <= 32766 ->
  fill_span lo hi row1 row2 color ≡ₘ
  (tells (pixels_send color (span_points lo hi row1 row2)) ;; ret (hi + 1)).
Proof.
  intros Hlo Hhi s. unfold fill_span.
  rewrite (while_meq _ _ _ _ (span_body_tells row1 row2 color) _ s), while_tells.
  rewrite s16_small by lia. rewrite span_fuel_eq.
  rewrite (span_iterate (Z.to_nat (hi - lo + 1))) by lia.
  unfold bind, tells, ret. cbn [fst snd option_map]. rewrite app_nil_r.
  unfold span_points. rewrite span_values_exact, pixels_send_flat_map by lia.
  reflexivity.
Qed.

(** The states of the outline loop of a 16-bit radius: [0 <= x <= y <= r]. *)
Lemma circle_states_bounds r :
  is_u16 r = true ->
  Forall (fun st => 0 <= cx st <= cy st /\ cy st <= s16 r) (circle_states r).
Proof.
  intros Hr. unfold circle_states.
  eapply Forall_impl; [|apply (iterate_forall _ _ (circ_ok r));
                        [intros a Ha Hc; now apply circle_step_ok | now apply circle_init_ok]].
  intros [x y d] [(Hx & Hy & _) Hc]. unfold circle_cond in Hc. cbn [cx cy] in *.
  apply Z.leb_le in Hc. lia.
Qed.

Lemma pixels_send_app color l1 l2 dev :
  pixels_send color (l1 ++ l2) dev = pixels_send color l1 dev ++ pixels_send color l2 dev.
Proof. unfold pixels_send. now rewrite flat_map_app, frames_app. Qed.

(** The body of the fill loop, when both spans stay below the top of
    [int16_t], sends the pixels of its two spans. *)
Lemma fill_body_tells x0 y0 color st :
  0 <= x0 -> 0 <= cx st <= cy st -> x0 + cy st <= 32766 ->
  fill_body x0 y0 color st ≡ₘ
  (tells (pixels_send color
            (span_points (x0 - cy st) (x0 + cy st) (y0 + cx st) (y0 - cx st) ++
             span_points (x0 - cx st) (x0 + cx st) (y0 + cy st) (y0 - cy st))) ;;
   ret (circle_update st)).
Proof.
  intros Hx0 Hst Htop. unfold fill_body.
  rewrite fill_span_tells by lia. setoid_rewrite fill_span_tells; [|lia..].
  intros s. cbn. now rewrite pixels_send_app, !app_nil_r.
Qed.

Lemma in_span_points lo hi row1 row2 i :
  -32768 <= lo <= i -> i <= hi <= 32766 ->
  In (u16 i, u16 row1) (span_points lo hi row1 row2) /\
  In (u16 i, u16 row2) (span_points lo hi row1 row2).
Proof.
  intros Hlo Hhi. unfold span_points. rewrite span_values_exact by lia.
  split; apply in_flat_map; exists i; (split; [apply in_zrange; lia | cbn; auto]).
Qed.

(** The trace of [st7789_fill_circle] when the disc stays below column 32767. *)
Lemma st7789_fill_circle_trace x0 y0 r color dev :
  0 <= x0 -> 0 <= r -> x0 + r <= 32766 ->
  st7789_fill_circle x0 y0 r color dev = (pixels_send color (fill_points x0 y0 r) dev, Some (tt, dev)).
Proof.
  intros Hx0 Hr Htop.
  assert (Hr16 : is_u16 r = true) by (apply is_u16_spec; lia).
  pose proof (circle_states_bounds r Hr16) as Hb. rewrite (s16_small r) in Hb by lia.
  unfold st7789_fill_circle. unfold bind at 1.
  rewrite (while_tells_on circle_cond circle_update
             (fun st => pixels_send color
                (span_points (x0 - cy st) (x0 + cy st) (y0 + cx st) (y0 - cx st) ++
                 span_points (x0 - cx st) (x0 + cx st) (y0 + cy st) (y0 - cy st)))).
  - destruct (circle_iterate_finishes r Hr16) as (fin & Hfin). rewrite Hfin.
    unfold option_map, ret. cbv beta iota zeta. rewrite app_nil_r. unfold fill_points, circle_states.
    now rewrite pixels_send_flat_map.
  - unfold circle_states in Hb. eapply Forall_impl; [|exact Hb].
    intros st Hst. cbv beta in Hst. apply fill_body_tells; lia.
Qed.

(** C17: when the disc stays below column 32767 ([x0 + r <= 32766]),
    [st7789_fill_circle] terminates, leaves the handle unchanged, sends
    exactly the pixels of [fill_points], and every pixel of the outline
    [st7789_draw_circle] would plot is among them. *)
Theorem st7789_fill_circle_covers_outline x0 y0 r color dev :
  is_u16 x0 = true -> 0 <= r -> x0 + r <= 32766 ->
  st7789_fill_circle x0 y0 r color dev = (pixels_send color (fill_points x0 y0 r) dev, Some (tt, dev)) /\
  incl (circle_points x0 y0 r) (fill_points x0 y0 r).
Proof.
  intros Hx0 Hr Htop. range_facts.
  assert (Hr16 : is_u16 r = true) by (apply is_u16_spec; lia).
  assert (Hs16 : s16 r = r) by (apply s16_small; lia).
  pose proof (circle_states_bounds r Hr16) as Hb. rewrite Hs16 in Hb.
  split; [now apply st7789_fill_circle_trace|].
  - intros p Hp. unfold circle_points, fill_points in *.
    apply in_flat_map in Hp as (st & Hst & Hp). apply in_flat_map. exists st.
    split; [exact Hst|]. rewrite Forall_forall in Hb. specialize (Hb st Hst).
    unfold octant_points in Hp.
    repeat destruct Hp as [<-|Hp]; try contradiction; apply in_or_app;
      first [ left; apply in_span_points; lia | right; apply in_span_points; lia ].
Qed.

(** Witness of C17: radius 10 around (100, 100). *)
Lemma st7789_fill_circle_covers_outline_witness :
  st7789_fill_circle 100 100 10 ST7789_WHITE st7789_spi_zero =
    (pixels_send ST7789_WHITE (fill_points 100 100 10) st7789_spi_zero,
     Some (tt, st7789_spi_zero)) /\
  incl (circle_points 100 100 10) (fill_points 100 100 10).
Proof. apply st7789_fill_circle_covers_outline; reflexivity || lia. Defined.

Lemma zrange_split lo a b :
  zrange lo (a + S b) = zrange lo a ++ (lo + Z.of_nat a) :: zrange (lo + Z.of_nat a + 1) b.
Proof.
  revert lo. induction a as [|a IH]; intros lo.
  - cbn [Nat.add]. rewrite zrange_S. cbn. now rewrite Z.add_0_r.
  - cbn [Nat.add]. rewrite zrange_S, IH, zrange_S. cbn [app].
    replace (lo + Z.of_nat (S a)) with (lo + 1 + Z.of_nat a) by lia. reflexivity.
Qed.

(** The first state of the circle loop of a radius in [0 .. 32767]. *)
Lemma circle_states_first r :
  0 <= r <= 32767 -> exists rest, circle_states r = mk_circ 0 r (s16 (3 - 2 * r)) :: rest.
Proof.
  intros Hr. unfold circle_states. rewrite circle_fuel_eq.
  replace (Z.to_nat 65536) with (S (Z.to_nat 65535)) by reflexivity.
  cbn [iterate]. unfold circle_cond, circle_init. cbn [cx cy].
  rewrite s16_small by lia. destruct (Z.leb_spec 0 r); [|lia].
  destruct (iterate _ _ _ _). eexists. reflexivity.
Qed.

(** [uint16_t] of a value in [-65536, 0) is that value plus 2^16. *)
Lemma u16_neg z : -65536 <= z < 0 -> u16 z = z + 65536.
Proof. intros Hz. unfold u16. symmetry. apply Z.mod_unique with (-1); lia. Qed.

(** C33: the outline is not clipped to the coordinate space: a circle
    reaching past the left edge ([x0 < r]) plots the point [r] columns left
    of the centre at column [65536 + x0 - r], and one reaching past the
    top edge ([y0 < r]) plots the point [r] rows above it at row
    [65536 + y0 - r]: the far end of the 16-bit range. *)
Theorem circle_points_wrap x0 y0 r :
  is_u16 x0 = true -> is_u16 y0 = true -> 0 <= r <= 32767 ->
  (x0 < r -> In (65536 + x0 - r, y0) (circle_points x0 y0 r)) /\
  (y0 < r -> In (x0, 65536 + y0 - r) (circle_points x0 y0 r)).
Proof.
  intros Hx Hy Hr. range_facts.
  destruct (circle_states_first r Hr) as (rest & Hs).
  unfold circle_points. rewrite Hs. cbn [flat_map]. split; intros Hlt; apply in_or_app; left.
  - do 5 right. left. cbn [cx cy]. rewrite Z.add_0_r, u16_neg, u16_small by lia. f_equal; lia.
  - do 2 right. left. cbn [cx cy]. rewrite Z.add_0_r, (u16_neg (y0 - r)), u16_small by lia. f_equal; lia.
Qed.

(** Witness of C33: a circle of radius 10 centred at (3, 4). *)
Lemma circle_points_wrap_witness :
  In (65529, 4) (circle_points 3 4 10) /\ In (3, 65530) (circle_points 3 4 10).
Proof.
  destruct (circle_points_wrap 3 4 10 eq_refl eq_refl ltac:(lia)) as [H1 H2].
  split; [apply H1 | apply H2]; lia.
Defined.

(** In the list of pixels of the fill, the centre comes twice in a row. *)
Lemma fill_points_centre_twice x0 y0 r :
  is_u16 x0 = true -> is_u16 y0 = true -> 0 <= r -> x0 + r <= 32766 ->
  exists l1 l2, fill_points x0 y0 r = l1 ++ (x0, y0) :: (x0, y0) :: l2.
Proof.
  intros Hx Hy Hr Htop. range_facts.
  destruct (circle_states_first r ltac:(lia)) as (rest & Hs).
  unfold fill_points. rewrite Hs. cbn [flat_map cx cy]. unfold span_points at 1.
  rewrite span_values_exact by lia.
  replace (Z.to_nat (x0 + r - (x0 - r) + 1)) with (Z.to_nat r + S (Z.to_nat r))%nat by lia.
  rewrite zrange_split, flat_map_app. cbn [flat_map app].
  replace (x0 - r + Z.of_nat (Z.to_nat r)) with x0 by lia.
  rewrite Z.add_0_r, Z.sub_0_r, !u16_small by lia.
  rewrite <- !app_assoc. cbn [app]. do 2 eexists. reflexivity.
Qed.

(** C18: the filled disc is not drawn one pixel per position: with
    [x = 0] in the first iteration the two rows [y0 + x] and [y0 - x] of
    the first span are the same row, so [st7789_fill_circle] sends the
    centre pixel [(x0, y0)] in two consecutive [st7789_draw_pixel]
    calls. *)
Theorem st7789_fill_circle_centre_twice x0 y0 r color dev :
  is_u16 x0 = true -> is_u16 y0 = true -> 0 <= r -> x0 + r <= 32766 ->
  exists tr1 tr2, fst (st7789_fill_circle x0 y0 r color dev) =
    tr1 ++ pixels_send color [(x0, y0); (x0, y0)] dev ++ tr2.
Proof.
  intros Hx Hy Hr Htop. pose proof (proj1 (is_u16_spec x0) Hx).
  rewrite st7789_fill_circle_trace by lia. cbn [fst].
  destruct (fill_points_centre_twice x0 y0 r Hx Hy Hr Htop) as (l1 & l2 & ->).
  exists (pixels_send color l1 dev), (pixels_send color l2 dev).
  rewrite pixels_send_app. f_equal.
Qed.

(** Witness of C18: radius 5 around (120, 120). *)
Lemma st7789_fill_circle_centre_twice_witness :
  exists tr1 tr2, fst (st7789_fill_circle 120 120 5 ST7789_WHITE st7789_spi_zero) =
    tr1 ++ pixels_send ST7789_WHITE [(120, 120); (120, 120)] st7789_spi_zero ++ tr2.
Proof. apply st7789_fill_circle_centre_twice; reflexivity || lia. Defined.

(** C9: a span whose end [x0 + r] is at least 32767 never ends: the
    [int16_t] counter cannot exceed 32767, and wraps to -32768 instead.
    For every fuel the span loop, and hence [st7789_fill_circle] with
    [x0 + r >= 32767], has no result: the C loop runs forever. *)
Theorem st7789_fill_circle_hangs x0 y0 r color dev :
  is_u16 x0 = true -> 0 <= r <= 32767 -> 32767 <= x0 + r ->
  (forall n, snd (while_ n (span_cond (x0 + r)) (span_body (y0 + 0) (y0 - 0) color)
                   (s16 (x0 - r)) dev) = None) /\
  snd (st7789_fill_circle x0 y0 r color dev) = None.
Proof.
  intros Hx Hr Htop. range_facts.
  assert (Hspan : forall n, snd (while_ n (span_cond (x0 + r)) (span_body (y0 + 0) (y0 - 0) color)
                                  (s16 (x0 - r)) dev) = None).
  { intros n. apply (while_stuck _ _ (fun i => -32768 <= i < 32768)).
    - intros i Hi. apply Z.leb_le. lia.
    - intros i s Hi. eexists _, _. split; [reflexivity|]. apply s16_range.
    - apply s16_range. }
  split; [exact Hspan|].
  unfold st7789_fill_circle. apply bind_stuck. rewrite circle_fuel_eq.
  replace (Z.to_nat 65536) with (S (Z.to_nat 65535)) by reflexivity.
  cbn [while_]. unfold circle_cond at 1, circle_init. cbn [cx cy].
  rewrite (s16_small r) by lia. destruct (Z.leb_spec 0 r); [|lia].
  apply bind_stuck. unfold fill_body. cbn [cx cy]. apply bind_stuck. apply Hspan.
Qed.

(** Witness of C9: a circle of radius 0 at column 32767 already hangs. *)
Lemma st7789_fill_circle_hangs_witness :
  (forall n, snd (while_ n (span_cond (32767 + 0)) (span_body (0 + 0) (0 - 0) ST7789_WHITE)
                   (s16 (32767 - 0)) st7789_spi_zero) = None) /\
  snd (st7789_fill_circle 32767 0 0 ST7789_WHITE st7789_spi_zero) = None.
Proof. apply st7789_fill_circle_hangs; reflexivity || lia. Defined.
