(* ===== verification/Init.v ===== *)
(** * Controller power-up (st7789.c 101-168)

    [st7789_init] fills in the SPI handle, initialises SPI (and returns -1
    if the platform refuses), configures the three control pins, pulses
    the reset line, and sends the configuration sequence with its settle
    delays; it ends by switching the backlight on.

    [timed_groups] reads a trace the way the controller and a stopwatch
    would: each command with its parameter bytes and the total sleep that
    follows it before the next command.  [pin_phases] reads the levels a
    pin is driven to, each with the sleep time it is held.  The theorems
    give the error path, the whole command/timing sequence of a successful
    initialisation, the reset waveform, and where the sequence differs
    from the spec (row extent 319, MADCTL value of the 180-degree
    rotation). *)

From Stdlib Require Import ZArith List Lia Setoid Morphisms String.
From S2P Require Import Prelude Monad Hal Encoder Window Raster.
Import ListNotations.
Open Scope Z_scope.
Open Scope monad_scope.

(** ** The initialisation routine *)

(** The handle as [st7789_init] configures it (st7789.c 107-111). *)
Definition st7789_spi_configured (dev : spi_dev_t) : spi_dev_t :=
  {| port := 0;
     config := {| mode := SPI_MODE_0; freq := 40000000; data_width := 8;
                  chip_select := ST7789_CS_PIN |} |}.

(** The diagnostic of a failed SPI initialisation, with its newline
    (st7789.c 116); the string literal holds the UTF-8 bytes of the source. *)
Definition spi_init_failed_msg : string :=
  "SPI初始化失败" ++ String (Ascii.ascii_of_nat 10) EmptyString.

Definition st7789_init `{Hal} : DM Z :=
  dev <- get ;;
  put (st7789_spi_configured dev) ;;
  dev' <- get ;;
  ret <- drv_spi_init dev' ;;
  if negb (ret =? 0) then (printf spi_init_failed_msg ;; Monad.ret (-1)) else
  drv_gpio_mode ST7789_DC_PIN OUTPUT_PUSH_PULL ;;
  drv_gpio_mode ST7789_RST_PIN OUTPUT_PUSH_PULL ;;
  drv_gpio_mode ST7789_BL_PIN OUTPUT_PUSH_PULL ;;
  st7789_hard_reset ;;
  st7789_send_cmd ST7789_SWRESET ;;
  st7789_delay_ms 150 ;;
  st7789_send_cmd ST7789_SLPOUT ;;
  st7789_delay_ms 500 ;;
  st7789_send_cmd ST7789_COLMOD ;;
  st7789_send_data 0x05 ;;
  st7789_delay_ms 10 ;;
  st7789_send_cmd ST7789_MADCTL ;;
  st7789_send_data 0x00 ;;
  st7789_delay_ms 10 ;;
  st7789_send_cmd ST7789_CASET ;;
  st7789_send_data 0x00 ;;
  st7789_send_data 0x00 ;;
  st7789_send_data 0x00 ;;
  st7789_send_data 0xEF ;;
  st7789_send_cmd ST7789_RASET ;;
  st7789_send_data 0x00 ;;
  st7789_send_data 0x00 ;;
  st7789_send_data 0x01 ;;
  st7789_send_data 0x3F ;;
  st7789_send_cmd ST7789_INVON ;;
  st7789_delay_ms 10 ;;
  st7789_send_cmd ST7789_NORON ;;
  st7789_delay_ms 10 ;;
  st7789_send_cmd ST7789_DISPON ;;
  st7789_delay_ms 100 ;;
  drv_gpio_write ST7789_BL_PIN 1 ;;
  Monad.ret 0.

(** ** Reading a trace *)

(** One event as the controller and a stopwatch see it: the DC level
    selects command or data bytes; sleeps accumulate on the latest
    command; writes of other pins, pin modes and SPI init are invisible. *)
Definition bus_step (acc : Z * list (Z * list Z * Z)) (e : event)
  : Z * list (Z * list Z * Z) :=
  let '(dc, gs) := acc in
  match e with
  | EvGpioWrite p l => if p =? ST7789_DC_PIN then (l, gs) else (dc, gs)
  | EvSpiSend _ bs =>
      if dc =? 0 then (dc, rev (map (fun c => (c, [], 0)) bs) ++ gs)
      else match gs with
           | (c, ps, t) :: r => (dc, (c, ps ++ bs, t) :: r)
           | [] => (dc, [])
           end
  | EvSleep ms =>
      match gs with
      | (c, ps, t) :: r => (dc, (c, ps, t + ms) :: r)
      | [] => (dc, [])
      end
  | _ => (dc, gs)
  end.

Definition timed_groups (tr : list event) : list (Z * list Z * Z) :=
  rev (snd (fold_left bus_step tr (1, []))).

(** The successive levels of a pin, each with the time slept while it is
    held (from the write to the next write of the same pin). *)
Definition pin_step (pin : Z) (acc : list (Z * Z)) (e : event) : list (Z * Z) :=
  match e with
  | EvGpioWrite p l => if p =? pin then (l, 0) :: acc else acc
  | EvSleep ms => match acc with (l, t) :: r => (l, t + ms) :: r | [] => [] end
  | _ => acc
  end.

Definition pin_phases (pin : Z) (tr : list event) : list (Z * Z) :=
  rev (fold_left (pin_step pin) tr []).

(** The controller's view of a successful initialisation: command,
    parameter bytes, settle time after it. *)
Definition init_sequence : list (Z * list Z * Z) :=
  [(ST7789_SWRESET, [], 150); (ST7789_SLPOUT, [], 500); (ST7789_COLMOD, [0x05], 10);
   (ST7789_MADCTL, [0x00], 10); (ST7789_CASET, [0x00; 0x00; 0x00; 0xEF], 0);
   (ST7789_RASET, [0x00; 0x00; 0x01; 0x3F], 0); (ST7789_INVON, [], 10);
   (ST7789_NORON, [], 10); (ST7789_DISPON, [], 100)].

(** ** Properties of the initialisation *)

(** Platforms whose SPI initialisation accepts, or refuses, every handle. *)
Definition hal_accepting : Hal := {| hal_spi_init := fun _ => 0 |}.
Definition hal_refusing : Hal := {| hal_spi_init := fun _ => -5 |}.

(** The reset pulse: high 10 ms, low 10 ms, high again for 120 ms. *)
Lemma st7789_hard_reset_waveform dev :
  pin_phases ST7789_RST_PIN (fst (st7789_hard_reset dev)) = [(1, 10); (0, 10); (1, 120)].
Proof. reflexivity. Qed.

Section WithHal.
Context `{Hal}.

(** C6: when the platform accepts the configured SPI handle, [st7789_init]
    returns 0 and leaves the handle configured (mode 0, 40 MHz, 8-bit,
    chip select on pin 4); every transfer uses that handle; the trace
    starts with SPI init, the three pin modes and the reset pulse, which
    ends 120 ms before the software reset command; the controller then
    receives exactly [init_sequence] (each command with its parameters
    and the sleep after it), and the backlight is switched on once, last. *)
Theorem st7789_init_success dev :
  hal_spi_init (st7789_spi_configured dev) = 0 ->
  exists tr,
    st7789_init dev = (tr, Some (0, st7789_spi_configured dev)) /\
    (exists post,
       tr = [EvSpiInit (st7789_spi_configured dev);
             EvGpioMode ST7789_DC_PIN OUTPUT_PUSH_PULL;
             EvGpioMode ST7789_RST_PIN OUTPUT_PUSH_PULL;
             EvGpioMode ST7789_BL_PIN OUTPUT_PUSH_PULL] ++
            fst (st7789_hard_reset (st7789_spi_configured dev)) ++
            frames (st7789_spi_configured dev) [FCmd ST7789_SWRESET] ++ post) /\
    timed_groups tr = init_sequence /\
    pin_phases ST7789_BL_PIN tr = [(1, 0)] /\
    last tr (EvSleep 0) = EvGpioWrite ST7789_BL_PIN 1 /\
    (forall d bs, In (EvSpiSend d bs) tr -> d = st7789_spi_configured dev).
Proof.
  intros Hok. unfold st7789_init. cbn. rewrite Hok. cbn.
  eexists. split; [reflexivity|]. split; [eexists; reflexivity|].
  split; [reflexivity|]. split; [reflexivity|]. split; [reflexivity|].
  intros d bs Hin. cbn in Hin. unfold st7789_spi_configured.
  repeat destruct Hin as [Hin|Hin]; try contradiction; now inversion Hin.
Qed.

(** The controller's view of a successful initialisation, shared by the
    theorems below. *)
Lemma st7789_init_groups dev :
  hal_spi_init (st7789_spi_configured dev) = 0 ->
  exists tr, st7789_init dev = (tr, Some (0, st7789_spi_configured dev)) /\
             timed_groups tr = init_sequence.
Proof.
  intros Hok. unfold st7789_init. cbn. rewrite Hok. cbn.
  eexists. split; reflexivity.
Qed.

(** C20: when the platform refuses the SPI handle, [st7789_init] returns
    -1 right after the SPI init call and its console diagnostic: no pin
    is configured, nothing is sent; the global handle keeps the configuration written before the
    call. *)
Theorem st7789_init_spi_failure dev :
  hal_spi_init (st7789_spi_configured dev) <> 0 ->
  st7789_init dev =
    ([EvSpiInit (st7789_spi_configured dev); EvConsole spi_init_failed_msg],
     Some (-1, st7789_spi_configured dev)).
Proof.
  intros Hfail. unfold st7789_init. cbn.
  destruct (Z.eqb_spec (hal_spi_init (st7789_spi_configured dev)) 0);
    [contradiction|reflexivity].
Qed.
End WithHal.

(** Witness of C6: a platform that accepts the handle. *)
Lemma st7789_init_success_witness :
  exists tr,
    @st7789_init hal_accepting st7789_spi_zero =
      (tr, Some (0, st7789_spi_configured st7789_spi_zero)) /\
    (exists post,
       tr = [EvSpiInit (st7789_spi_configured st7789_spi_zero);
             EvGpioMode ST7789_DC_PIN OUTPUT_PUSH_PULL;
             EvGpioMode ST7789_RST_PIN OUTPUT_PUSH_PULL;
             EvGpioMode ST7789_BL_PIN OUTPUT_PUSH_PULL] ++
            fst (st7789_hard_reset (st7789_spi_configured st7789_spi_zero)) ++
            frames (st7789_spi_configured st7789_spi_zero) [FCmd ST7789_SWRESET] ++ post) /\
    timed_groups tr = init_sequence /\
    pin_phases ST7789_BL_PIN tr = [(1, 0)] /\
    last tr (EvSleep 0) = EvGpioWrite ST7789_BL_PIN 1 /\
    (forall d bs, In (EvSpiSend d bs) tr -> d = st7789_spi_configured st7789_spi_zero).
Proof. apply (@st7789_init_success hal_accepting st7789_spi_zero). reflexivity. Defined.

(** Witness of C20: a platform that refuses the handle. *)
Lemma st7789_init_spi_failure_witness :
  @st7789_init hal_refusing st7789_spi_zero =
    ([EvSpiInit (st7789_spi_configured st7789_spi_zero); EvConsole spi_init_failed_msg],
     Some (-1, st7789_spi_configured st7789_spi_zero)).
Proof. apply (@st7789_init_spi_failure hal_refusing st7789_spi_zero). discriminate. Defined.

(** C19: two places where the initialisation differs from the spec's
    description.  The MADCTL byte [st7789_init] writes, 0x00, is the byte
    [st7789_set_rotation] sends for [ST7789_ROTATION_180], not the 0x40|0x80
    it sends for [ST7789_ROTATION_0] (the spec asks for the 0-degree
    pattern); and the row range it programs ends at 0x013F = 319, beyond
    the panel's last row [ST7789_HEIGHT - 1 = 239]. *)
Theorem st7789_init_orientation_and_rows `{Hal} dev :
  hal_spi_init (st7789_spi_configured dev) = 0 ->
  exists tr,
    st7789_init dev = (tr, Some (0, st7789_spi_configured dev)) /\
    In (ST7789_MADCTL, [0x00], 10) (timed_groups tr) /\
    st7789_set_rotation (rotation_value ST7789_ROTATION_180) dev =
      (frames dev [FCmd ST7789_MADCTL; FData [0x00]], Some (tt, dev)) /\
    st7789_set_rotation (rotation_value ST7789_ROTATION_0) dev =
      (frames dev [FCmd ST7789_MADCTL; FData [0xC0]], Some (tt, dev)) /\
    In (ST7789_RASET, be16 0 ++ be16 319, 0) (timed_groups tr) /\
    ST7789_HEIGHT - 1 < 319.
Proof.
  intros Hok. destruct (st7789_init_groups dev Hok) as (tr & Hrun & Hg).
  exists tr. rewrite Hg. repeat split; try reflexivity; cbn; auto 10.
Qed.

(** Witness of C19. *)
Lemma st7789_init_orientation_and_rows_witness :
  exists tr,
    @st7789_init hal_accepting st7789_spi_zero =
      (tr, Some (0, st7789_spi_configured st7789_spi_zero)) /\
    In (ST7789_MADCTL, [0x00], 10) (timed_groups tr) /\
    st7789_set_rotation (rotation_value ST7789_ROTATION_180) st7789_spi_zero =
      (frames st7789_spi_zero [FCmd ST7789_MADCTL; FData [0x00]], Some (tt, st7789_spi_zero)) /\
    st7789_set_rotation (rotation_value ST7789_ROTATION_0) st7789_spi_zero =
      (frames st7789_spi_zero [FCmd ST7789_MADCTL; FData [0xC0]], Some (tt, st7789_spi_zero)) /\
    In (ST7789_RASET, be16 0 ++ be16 319, 0) (timed_groups tr) /\
    ST7789_HEIGHT - 1 < 319.
Proof. apply (@st7789_init_orientation_and_rows hal_accepting). reflexivity. Defined.

(** ** An application session *)

(** The spec's end-to-end scenario: initialise, clear the screen in red,
    then draw one white pixel at the origin. *)
Definition session_red_then_pixel `{Hal} : DM unit :=
  _ <- st7789_init ;;
  st7789_clear ST7789_RED ;;
  st7789_draw_pixel 0 0 ST7789_WHITE.

(** C22: in that session, after the initialisation trace, the clear
    programs the full 240x240 window and sends 57600 red pixels, then the
    pixel call programs the single-point window (0,0,0,0) and the final
    transfer is exactly the two bytes [0xFF; 0xFF]; every transfer uses
    the configured handle. *)
Theorem session_red_then_pixel_trace `{Hal} dev :
  hal_spi_init (st7789_spi_configured dev) = 0 ->
  exists tr,
    timed_groups tr = init_sequence /\
    session_red_then_pixel dev =
      (tr ++ frames (st7789_spi_configured dev)
              (window_frames 0 0 239 239 ++ repeat (FData (be16 ST7789_RED)) (Z.to_nat 57600)) ++
       frames (st7789_spi_configured dev) (window_frames 0 0 0 0) ++
       [EvGpioWrite ST7789_DC_PIN 1; EvSpiSend (st7789_spi_configured dev) [0xFF; 0xFF]],
       Some (tt, st7789_spi_configured dev)).
Proof.
  intros Hok. destruct (st7789_init_groups dev Hok) as (tr & Hrun & Hg).
  exists tr. split; [exact Hg|].
  unfold session_red_then_pixel, st7789_clear. unfold bind at 1. rewrite Hrun.
  set (d := st7789_spi_configured dev).
  unfold bind at 1. rewrite (st7789_fill_rect_send 0 0 ST7789_WIDTH ST7789_HEIGHT ST7789_RED)
    by (unfold ST7789_WIDTH, ST7789_HEIGHT; lia).
  unfold send at 1, tells at 1. cbv beta iota zeta.
  rewrite (st7789_draw_pixel_send 0 0 ST7789_WHITE d).
  unfold send, tells. cbv beta iota zeta.
  rewrite !frames_app, <- !app_assoc. reflexivity.
Qed.

(** Witness of C22. *)
Lemma session_red_then_pixel_trace_witness :
  exists tr,
    timed_groups tr = init_sequence /\
    @session_red_then_pixel hal_accepting st7789_spi_zero =
      (tr ++ frames (st7789_spi_configured st7789_spi_zero)
              (window_frames 0 0 239 239 ++ repeat (FData (be16 ST7789_RED)) (Z.to_nat 57600)) ++
       frames (st7789_spi_configured st7789_spi_zero) (window_frames 0 0 0 0) ++
       [EvGpioWrite ST7789_DC_PIN 1;
        EvSpiSend (st7789_spi_configured st7789_spi_zero) [0xFF; 0xFF]],
       Some (tt, st7789_spi_configured st7789_spi_zero)).
Proof. apply (@session_red_then_pixel_trace hal_accepting). reflexivity. Defined.
