(* ===== verification/Controller.v ===== *)
(** * The ST7789 controller as the driver's counterpart

    The chip is not part of the repository: this file models it from the
    spec (its command set as [st7789.h] names it, the data sheet's
    reading of the DC line and of the address window) so that the
    driver's traces can be given a meaning.  The controller reads the
    calls of a trace ([Hal.event]): a write of the DC pin sets the level
    that classifies the following SPI bytes (low: command, high: data);
    a low RST pin resets it; every SPI byte is one step.  Pixels arrive
    as big-endian 16-bit words (RGB565, COLMOD 0x05) and are written at
    the write pointer, which walks the window row by row and wraps back
    to its start, as the data sheet describes for RAMWR.

    The frame memory is a [gmap] from (column, row) in the controller's
    address space to a 16-bit colour; the MADCTL flags are recorded, not
    applied to the addresses (they only change how memory maps to the
    glass).  This file also holds the generic facts on the frame memory
    the refinement theorems of [Refinement.v] are built from. *)

From Stdlib Require Import ZArith List Lia.
From stdpp Require Import base list gmap.
From S2P Require Import Prelude Hal.
Import ListNotations.
Open Scope Z_scope.

(** ** State *)

(** The address window and the write pointer of memory writes. *)
Record engine := mk_engine {
  xs : Z; xe : Z; ys : Z; ye : Z;
  col : Z; row : Z;
  pend : option Z  (** the first byte of a pixel whose second is awaited *)
}.

(** The mode registers the driver programs. *)
Record modes := mk_modes {
  madctl : Z; colmod : Z; inverted : bool; display_on : bool; asleep : bool
}.

Record lcd := mk_lcd {
  lcd_dc : Z;                 (** level of the DC line *)
  lcd_cmd : Z;                (** the command being executed *)
  lcd_args : list Z;          (** its parameter bytes so far *)
  lcd_eng : engine;
  lcd_md : modes;
  lcd_fb : gmap (Z * Z) Z     (** the frame memory *)
}.

(** The registers after a hardware or software reset; the frame memory
    keeps its content. *)
Definition reset_engine : engine := mk_engine 0 239 0 319 0 0 None.
Definition reset_modes : modes := mk_modes 0 0x66 false false true.

(** The controller at power-on, with an empty (unknown) frame memory. *)
Definition lcd_power_on : lcd := mk_lcd 1 ST7789_NOP [] reset_engine reset_modes ∅.

Definition lcd_reset (s : lcd) : lcd :=
  mk_lcd (lcd_dc s) ST7789_NOP [] reset_engine reset_modes (lcd_fb s).

(** ** One byte *)

Definition with_madctl (b : Z) (m : modes) : modes :=
  mk_modes b (colmod m) (inverted m) (display_on m) (asleep m).
Definition with_colmod (b : Z) (m : modes) : modes :=
  mk_modes (madctl m) b (inverted m) (display_on m) (asleep m).
Definition with_inverted (v : bool) (m : modes) : modes :=
  mk_modes (madctl m) (colmod m) v (display_on m) (asleep m).
Definition with_display (v : bool) (m : modes) : modes :=
  mk_modes (madctl m) (colmod m) (inverted m) v (asleep m).
Definition with_asleep (v : bool) (m : modes) : modes :=
  mk_modes (madctl m) (colmod m) (inverted m) (display_on m) v.

(** A command byte: it starts a new command; RAMWR moves the write
    pointer to the window's start. *)
Definition lcd_command (c : Z) (s : lcd) : lcd :=
  if c =? ST7789_SWRESET then lcd_reset s else
  let e := lcd_eng s in
  let e' := if c =? ST7789_RAMWR
            then mk_engine (xs e) (xe e) (ys e) (ye e) (xs e) (ys e) None
            else mk_engine (xs e) (xe e) (ys e) (ye e) (col e) (row e) None in
  let m := lcd_md s in
  let m' := if c =? ST7789_SLPIN then with_asleep true m
            else if c =? ST7789_SLPOUT then with_asleep false m
            else if c =? ST7789_INVON then with_inverted true m
            else if c =? ST7789_INVOFF then with_inverted false m
            else if c =? ST7789_DISPON then with_display true m
            else if c =? ST7789_DISPOFF then with_display false m
            else m in
  mk_lcd (lcd_dc s) c [] e' m' (lcd_fb s).

(** The write pointer after one pixel: along the row, then to the start
    of the next row, then back to the window's start. *)
Definition advance (e : engine) : engine :=
  if col e <? xe e then mk_engine (xs e) (xe e) (ys e) (ye e) (col e + 1) (row e) None
  else if row e <? ye e then mk_engine (xs e) (xe e) (ys e) (ye e) (xs e) (row e + 1) None
  else mk_engine (xs e) (xe e) (ys e) (ye e) (xs e) (ys e) None.

(** A data byte, read as a parameter of the current command. *)
Definition lcd_data (b : Z) (s : lcd) : lcd :=
  let '(mk_lcd d c a e m fb) := s in
  if c =? ST7789_CASET then
    match a ++ [b] with
    | [a0; a1; a2; a3] =>
        mk_lcd d c [a0; a1; a2; a3]
          (mk_engine (a0 * 256 + a1) (a2 * 256 + a3) (ys e) (ye e) (col e) (row e) (pend e)) m fb
    | a' => mk_lcd d c a' e m fb
    end
  else if c =? ST7789_RASET then
    match a ++ [b] with
    | [a0; a1; a2; a3] =>
        mk_lcd d c [a0; a1; a2; a3]
          (mk_engine (xs e) (xe e) (a0 * 256 + a1) (a2 * 256 + a3) (col e) (row e) (pend e)) m fb
    | a' => mk_lcd d c a' e m fb
    end
  else if c =? ST7789_MADCTL then
    match a with [] => mk_lcd d c [b] e (with_madctl b m) fb | _ => s end
  else if c =? ST7789_COLMOD then
    match a with [] => mk_lcd d c [b] e (with_colmod b m) fb | _ => s end
  else if c =? ST7789_RAMWR then
    match pend e with
    | None => mk_lcd d c a (mk_engine (xs e) (xe e) (ys e) (ye e) (col e) (row e) (Some b)) m fb
    | Some h => mk_lcd d c a (advance e) m (<[(col e, row e) := h * 256 + b]> fb)
    end
  else s.

Definition lcd_byte (s : lcd) (b : Z) : lcd :=
  if lcd_dc s =? 0 then lcd_command b s else lcd_data b s.

Definition set_dc (l : Z) (s : lcd) : lcd :=
  mk_lcd l (lcd_cmd s) (lcd_args s) (lcd_eng s) (lcd_md s) (lcd_fb s).

(** ** A trace *)

Definition lcd_event (s : lcd) (e : event) : lcd :=
  match e with
  | EvGpioWrite p l =>
      if p =? ST7789_DC_PIN then set_dc l s
      else if (p =? ST7789_RST_PIN) && (l =? 0) then lcd_reset s
      else s
  | EvSpiSend _ bs => fold_left lcd_byte bs s
  | _ => s
  end.

Definition lcd_run (s : lcd) (tr : list event) : lcd := fold_left lcd_event tr s.

(** ** The pixel-level account of memory writes *)

(** Writing one pixel at the pointer and advancing it. *)
Definition put_pixel (s : lcd) (v : Z) : lcd :=
  let e := lcd_eng s in
  mk_lcd (lcd_dc s) (lcd_cmd s) (lcd_args s) (advance e) (lcd_md s)
    (<[(col e, row e) := v]> (lcd_fb s)).

(** The position of the [k]-th pixel of a [w]-wide window at (x, y). *)
Definition raster_pos (x y w k : Z) : Z * Z := (x + k mod w, y + k / w).

(** The controller is ready to receive pixels of a [w] by [h] window at
    (x, y), the next one being the [k]-th. *)
Definition ramwr_ready (x y w h k : Z) (s : lcd) : Prop :=
  lcd_cmd s = ST7789_RAMWR /\ lcd_dc s = 1 /\
  lcd_eng s = mk_engine x (x + w - 1) y (y + h - 1)
                (fst (raster_pos x y w k)) (snd (raster_pos x y w k)) None.

(** Painting a list of positions with one colour, in order. *)
Definition paint_points (c : Z) (pts : list (Z * Z)) (fb : gmap (Z * Z) Z) : gmap (Z * Z) Z :=
  fold_left (fun m p => <[p := c]> m) pts fb.

(** Whether a position lies in the [w] by [h] rectangle at (x, y). *)
Definition in_rect (x y w h : Z) (p : Z * Z) : bool :=
  (x <=? fst p) && (fst p <? x + w) && (y <=? snd p) && (snd p <? y + h).

(** ** Lemmas *)

Lemma lcd_run_app s tr1 tr2 : lcd_run s (tr1 ++ tr2) = lcd_run (lcd_run s tr1) tr2.
Proof. apply fold_left_app. Qed.

(** The two bytes of [be16 v] recombine to [v] taken as a [uint16_t]. *)
Lemma be16_value v : hi8 v * 256 + lo8 v = u16 v.
Proof.
  unfold hi8, u8, u16. rewrite lo8_spec, Z.shiftr_div_pow2 by lia.
  change (2 ^ 8) with 256.
  rewrite (Z.mod_eq (v / 256) 256), (Z.mod_eq v 256), (Z.mod_eq v 65536) by lia.
  replace (v / 65536) with (v / 256 / 256) by (rewrite Z.div_div by lia; reflexivity).
  lia.
Qed.

Lemma lcd_data_ramwr b s :
  lcd_cmd s = ST7789_RAMWR ->
  lcd_data b s =
    match pend (lcd_eng s) with
    | None => mk_lcd (lcd_dc s) (lcd_cmd s) (lcd_args s)
                (let e := lcd_eng s in mk_engine (xs e) (xe e) (ys e) (ye e) (col e) (row e) (Some b))
                (lcd_md s) (lcd_fb s)
    | Some h => put_pixel s (h * 256 + b)
    end.
Proof. destruct s as [d c a e m fb]. cbn. intros ->. reflexivity. Qed.

Lemma lcd_byte_data s b : lcd_dc s = 1 -> lcd_byte s b = lcd_data b s.
Proof. intros Hd. unfold lcd_byte. now rewrite Hd. Qed.

(** The first byte of a pixel changes nothing the second one reads. *)
Lemma put_pixel_pending s b v :
  put_pixel (mk_lcd (lcd_dc s) (lcd_cmd s) (lcd_args s)
               (let e := lcd_eng s in mk_engine (xs e) (xe e) (ys e) (ye e) (col e) (row e) (Some b))
               (lcd_md s) (lcd_fb s)) v = put_pixel s v.
Proof. now destruct s as [d c a [] m fb]. Qed.

(** In a memory write, the bytes of big-endian pixels are pixel writes. *)
Lemma ramwr_bytes_pixels px s :
  lcd_cmd s = ST7789_RAMWR -> lcd_dc s = 1 -> pend (lcd_eng s) = None ->
  fold_left lcd_byte (flat_map be16 px) s = fold_left put_pixel (map u16 px) s.
Proof.
  revert s. induction px as [|v px IH]; intros s Hc Hd Hp; [reflexivity|].
  cbn [flat_map be16 app fold_left map].
  rewrite (lcd_byte_data s), (lcd_data_ramwr _ s Hc), Hp by exact Hd.
  rewrite lcd_byte_data, lcd_data_ramwr by assumption. cbn [pend lcd_eng].
  rewrite put_pixel_pending, be16_value.
  apply IH; [exact Hc | exact Hd |]. unfold put_pixel, advance. cbn.
  destruct (_ <? _); [reflexivity|]. destruct (_ <? _); reflexivity.
Qed.

(** *** The raster walk *)

Lemma raster_pos_index x y w i j :
  0 <= i < w -> raster_pos x y w (j * w + i) = (x + i, y + j).
Proof.
  intros Hi. unfold raster_pos. replace (j * w + i) with (i + j * w) by ring.
  rewrite Z.mod_add, Z.div_add, Z.mod_small, Z.div_small by lia.
  f_equal; lia.
Qed.

(** The position after the [k]-th is the next column, or the start of
    the next row at the end of a row. *)
Lemma raster_pos_succ x y w k :
  1 <= w -> 0 <= k ->
  raster_pos x y w (k + 1) =
    if k mod w <? w - 1 then (fst (raster_pos x y w k) + 1, snd (raster_pos x y w k))
    else (x, snd (raster_pos x y w k) + 1).
Proof.
  intros Hw Hk. unfold raster_pos. cbn [fst snd].
  pose proof (Z.div_mod k w ltac:(lia)). pose proof (Z.mod_pos_bound k w ltac:(lia)).
  set (q := k / w) in *. set (r := k mod w) in *.
  replace (k + 1) with ((r + 1) + q * w) by lia.
  rewrite Z.mod_add, Z.div_add by lia.
  destruct (Z.ltb_spec r (w - 1)).
  - rewrite Z.mod_small, Z.div_small by lia. f_equal; lia.
  - replace (r + 1) with (0 + 1 * w) by lia.
    rewrite Z.mod_add, Z.div_add, Z.mod_0_l, Z.div_0_l by lia. f_equal; lia.
Qed.

Lemma raster_pos_inj x y w a b :
  1 <= w -> raster_pos x y w a = raster_pos x y w b -> a = b.
Proof.
  intros Hw E. unfold raster_pos in E. injection E as E1 E2.
  assert (Em : a mod w = b mod w) by lia. assert (Ed : a / w = b / w) by lia.
  rewrite (Z.div_mod a w), (Z.div_mod b w), Em, Ed by lia. reflexivity.
Qed.

Lemma raster_pos_in_rect x y w h n :
  1 <= w -> 0 <= n < w * h -> in_rect x y w h (raster_pos x y w n) = true.
Proof.
  intros Hw Hn. unfold in_rect, raster_pos. cbn [fst snd].
  pose proof (Z.mod_pos_bound n w ltac:(lia)).
  assert (0 <= n / w < h).
  { split; [apply Z.div_pos; lia | apply Z.div_lt_upper_bound; lia]. }
  repeat rewrite Bool.andb_true_iff. rewrite !Z.leb_le, !Z.ltb_lt. lia.
Qed.

(** One pixel of a window moves the pointer to the next position. *)
Lemma put_pixel_ready x y w h k s v :
  1 <= w -> 1 <= h -> 0 <= k -> k + 1 < w * h ->
  ramwr_ready x y w h k s -> ramwr_ready x y w h (k + 1) (put_pixel s v).
Proof.
  intros Hw Hh Hk Hkn (Hc & Hd & He). split; [exact Hc|]. split; [exact Hd|].
  unfold put_pixel. cbn [lcd_eng]. rewrite He, (raster_pos_succ x y w k) by lia.
  unfold advance, raster_pos. cbn [col xe row ye xs ys fst snd].
  pose proof (Z.mod_pos_bound k w ltac:(lia)).
  assert (k mod w = w - 1 -> k / w < h - 1).
  { intros Hm. pose proof (Z.div_mod k w ltac:(lia)). nia. }
  destruct (Z.ltb_spec (k mod w) (w - 1)).
  - rewrite (proj2 (Z.ltb_lt (x + k mod w) (x + w - 1))) by lia. reflexivity.
  - rewrite (proj2 (Z.ltb_ge (x + k mod w) (x + w - 1))) by lia.
    rewrite (proj2 (Z.ltb_lt (y + k / w) (y + h - 1))) by lia. reflexivity.
Qed.

Lemma put_pixel_fb s v :
  lcd_fb (put_pixel s v) = <[(col (lcd_eng s), row (lcd_eng s)) := v]> (lcd_fb s).
Proof. reflexivity. Qed.

Lemma put_pixel_at x y w h k s v :
  ramwr_ready x y w h k s ->
  lcd_fb (put_pixel s v) = <[raster_pos x y w k := v]> (lcd_fb s).
Proof.
  intros (_ & _ & He). rewrite put_pixel_fb, He. cbn [col row].
  now rewrite <- surjective_pairing.
Qed.

(** Memory writes of a window from its [k]-th position: the [n]-th pixel
    sent lands at the [(k + n)]-th position, and nothing outside the
    positions written changes. *)
Lemma paint_window x y w h px :
  1 <= w -> 1 <= h ->
  forall k s, 0 <= k -> k + Z.of_nat (length px) <= w * h -> ramwr_ready x y w h k s ->
  (forall n v, px !! n = Some v ->
     lcd_fb (fold_left put_pixel px s) !! raster_pos x y w (k + Z.of_nat n) = Some v) /\
  (forall p, (forall n, (n < length px)%nat -> p <> raster_pos x y w (k + Z.of_nat n)) ->
     lcd_fb (fold_left put_pixel px s) !! p = lcd_fb s !! p).
Proof.
  intros Hw Hh. induction px as [|v px IH]; intros k s Hk Hlen Hr.
  { split; [intros n v' H; rewrite ?lookup_nil in H; discriminate | reflexivity]. }
  cbn [fold_left]. pose proof (put_pixel_at x y w h k s v Hr) as Hfb.
  cbn [length] in Hlen. destruct px as [|v' px'].
  - cbn [fold_left]. rewrite Hfb. split.
    + intros [|n] v0 H; cbn in H; [|rewrite ?lookup_nil in H; discriminate].
      injection H as <-. rewrite Z.add_0_r. apply lookup_insert_eq.
    + intros p Hp. apply lookup_insert_ne.
      specialize (Hp 0%nat ltac:(cbn; lia)). rewrite Z.add_0_r in Hp. congruence.
  - cbn [length] in Hlen.
    destruct (IH (k + 1) (put_pixel s v) ltac:(lia) ltac:(cbn [length]; lia)
                (put_pixel_ready x y w h k s v Hw Hh Hk ltac:(lia) Hr)) as [IH1 IH2].
    split.
    + intros [|n] v0 H; cbn in H.
      * injection H as <-. rewrite Z.add_0_r, IH2, Hfb by
          (intros n Hn E; apply raster_pos_inj in E; lia).
        apply lookup_insert_eq.
      * replace (k + Z.of_nat (S n)) with (k + 1 + Z.of_nat n) by lia. now apply IH1.
    + intros p Hp. rewrite IH2, Hfb.
      * apply lookup_insert_ne. specialize (Hp 0%nat ltac:(cbn; lia)).
        rewrite Z.add_0_r in Hp. congruence.
      * intros n Hn. replace (k + 1 + Z.of_nat n) with (k + Z.of_nat (S n)) by lia.
        apply Hp. cbn [length] in *. lia.
Qed.

(** A whole window written from its start: pixel [j*w + i] lands at
    [(x + i, y + j)], and positions outside the rectangle keep their
    colour. *)
Lemma paint_rect x y w h px s :
  1 <= w -> 1 <= h -> Z.of_nat (length px) = w * h -> ramwr_ready x y w h 0 s ->
  (forall i j v, 0 <= i < w -> 0 <= j < h -> px !! Z.to_nat (j * w + i) = Some v ->
     lcd_fb (fold_left put_pixel px s) !! (x + i, y + j) = Some v) /\
  (forall p, in_rect x y w h p = false ->
     lcd_fb (fold_left put_pixel px s) !! p = lcd_fb s !! p).
Proof.
  intros Hw Hh Hlen Hr.
  destruct (paint_window x y w h px Hw Hh 0 s ltac:(lia) ltac:(lia) Hr) as [H1 H2].
  split.
  - intros i j v Hi Hj Hv. rewrite <- (raster_pos_index x y w i j Hi).
    replace (j * w + i) with (0 + Z.of_nat (Z.to_nat (j * w + i))) at 1 by nia.
    now apply H1.
  - intros p Hp. apply H2. intros n Hn ->.
    rewrite raster_pos_in_rect in Hp by lia. discriminate.
Qed.

(** *** Painting single points *)

Lemma paint_points_in c pts fb p :
  In p pts -> paint_points c pts fb !! p = Some c.
Proof.
  revert fb. induction pts as [|q pts IH] using rev_ind; intros fb Hin; [destruct Hin|].
  unfold paint_points. rewrite fold_left_app. cbn [fold_left].
  apply in_app_or in Hin. destruct (decide (q = p)) as [->|Hne].
  - apply lookup_insert_eq.
  - rewrite lookup_insert_ne by exact Hne. apply IH.
    destruct Hin as [Hin|[E|[]]]; [exact Hin | congruence].
Qed.

Lemma paint_points_notin c pts fb p :
  ~ In p pts -> paint_points c pts fb !! p = fb !! p.
Proof.
  revert fb. induction pts as [|q pts IH]; intros fb Hin; [reflexivity|].
  unfold paint_points. cbn [fold_left]. fold (paint_points c pts (<[q := c]> fb)).
  rewrite IH by (intros H; apply Hin; now right).
  apply lookup_insert_ne. intros ->. apply Hin. now left.
Qed.
