(* ===== verification/Refinement.v ===== *)
(** * What the driver's traces do to the controller

    The theorems of this file run the controller of [Controller.v] on the
    traces the driver functions produce and state the result at the level
    the spec speaks of: the rectangle [st7789_fill_rect] paints, the
    pixels [st7789_draw_bitmap] stores where, the points the circle
    routines paint, the registers [st7789_init] and [st7789_set_rotation]
    leave.  They refine the frame-level theorems of the component files
    into the effect on the frame memory, through the generic lemmas below:
    a command frame is a command byte, data frames are a byte stream, and
    the byte stream of a memory write is a sequence of pixel writes. *)

From Stdlib Require Import ZArith List Lia.
From stdpp Require Import base list gmap.
From S2P Require Import Prelude Monad Hal Encoder Window Raster Circle Init Controller.
Import ListNotations.
Open Scope Z_scope.

(** The controller as the spec describes it after initialisation: awake,
    display on, colours inverted, RGB565, MADCTL 0x00, columns 0..0xEF and
    rows 0..0x13F, memory untouched. *)
Definition after_init (s : lcd) : lcd :=
  mk_lcd 0 ST7789_DISPON [] (mk_engine 0 0xEF 0 0x13F 0 0 None)
    (mk_modes 0x00 0x05 true true false) (lcd_fb s).

(** The driver and the controller composed: the controller in state [s]
    after it has received the trace of the routine [m] started on the SPI
    handle [dev]. *)
Definition run_on (s : lcd) (m : DM unit) (dev : spi_dev_t) : lcd := lcd_run s (fst (m dev)).

(** ** Frames on the controller *)

Lemma lcd_run_frames_app s dev fs1 fs2 :
  lcd_run s (frames dev (fs1 ++ fs2)) = lcd_run (lcd_run s (frames dev fs1)) (frames dev fs2).
Proof. now rewrite frames_app, lcd_run_app. Qed.

Lemma lcd_data_dc b s : lcd_dc (lcd_data b s) = lcd_dc s.
Proof.
  destruct s as [d c a e m fb]. unfold lcd_data.
  repeat match goal with
         | |- context [if ?b then _ else _] => destruct b
         | |- context [match ?l with _ => _ end] => destruct l
         end; reflexivity.
Qed.

Lemma fold_lcd_byte_dc bs s : lcd_dc s = 1 -> lcd_dc (fold_left lcd_byte bs s) = 1.
Proof.
  revert s. induction bs as [|b bs IH]; intros s Hd; [exact Hd|].
  cbn [fold_left]. apply IH. now rewrite lcd_byte_data, lcd_data_dc.
Qed.

Lemma set_dc_same s : lcd_dc s = 1 -> set_dc 1 s = s.
Proof. destruct s; cbn. now intros ->. Qed.

(** A run of data frames is its byte stream, read with DC high. *)
Lemma data_frames_run dev bs bss s :
  lcd_run s (frames dev (map FData (bs :: bss))) = fold_left lcd_byte (concat (bs :: bss)) (set_dc 1 s).
Proof.
  revert bs s. induction bss as [|bs' bss IH]; intros bs s.
  - cbn. now rewrite app_nil_r.
  - change (map FData (bs :: bs' :: bss)) with ([FData bs] ++ map FData (bs' :: bss)).
    rewrite lcd_run_frames_app, IH.
    change (lcd_run s (frames dev [FData bs])) with (fold_left lcd_byte bs (set_dc 1 s)).
    rewrite set_dc_same by (apply fold_lcd_byte_dc; reflexivity).
    change (concat (bs :: bs' :: bss)) with (bs ++ concat (bs' :: bss)).
    now rewrite fold_left_app.
Qed.

(** The window command sequence loads the address window and starts a
    memory write at its first position; nothing else changes. *)
Lemma window_frames_run s dev x0 y0 x1 y1 :
  lcd_run s (frames dev (window_frames x0 y0 x1 y1)) =
    mk_lcd 0 ST7789_RAMWR []
      (mk_engine (u16 x0) (u16 x1) (u16 y0) (u16 y1) (u16 x0) (u16 y0) None)
      (lcd_md s) (lcd_fb s).
Proof.
  destruct s as [d c a e m fb]. cbn -[hi8 lo8 u16]. now rewrite !be16_value.
Qed.

(** Data frames after a window, whose bytes are big-endian pixels
    however they are split into transfers: a memory write of the pixels. *)
Lemma window_then_data s dev x y w h bss px :
  0 <= x -> 0 <= y -> 1 <= w -> 1 <= h -> x + w <= 65536 -> y + h <= 65536 ->
  bss <> [] -> concat bss = flat_map be16 px ->
  lcd_run s (frames dev (window_frames x y (x + w - 1) (y + h - 1) ++ map FData bss)) =
    fold_left put_pixel (map u16 px)
      (mk_lcd 1 ST7789_RAMWR [] (mk_engine x (x + w - 1) y (y + h - 1) x y None) (lcd_md s) (lcd_fb s)).
Proof.
  intros Hx Hy Hw Hh Hxw Hyh Hbss Hcat. destruct bss as [|bs bss]; [contradiction|].
  rewrite lcd_run_frames_app, window_frames_run, data_frames_run, Hcat,
    ramwr_bytes_pixels by reflexivity.
  cbn [set_dc lcd_dc lcd_cmd lcd_args lcd_eng lcd_md lcd_fb]. conv_small. reflexivity.
Qed.

Lemma ramwr_ready_start x y w h md fb :
  1 <= w ->
  ramwr_ready x y w h 0 (mk_lcd 1 ST7789_RAMWR [] (mk_engine x (x + w - 1) y (y + h - 1) x y None) md fb).
Proof.
  intros Hw. split; [reflexivity|]. split; [reflexivity|]. cbn.
  rewrite Z.mod_0_l, Z.div_0_l by lia. now rewrite !Z.add_0_r.
Qed.

Lemma fold_put_pixel_md l s : lcd_md (fold_left put_pixel l s) = lcd_md s.
Proof. revert s. induction l as [|v l IH]; intros s; [reflexivity|]. cbn [fold_left]. now rewrite IH. Qed.

Lemma lookup_map_Z (f : Z -> Z) l n : map f l !! n = option_map f (l !! n).
Proof. revert n. induction l as [|a l IH]; intros [|n]; cbn; auto. Qed.

Lemma lookup_repeat_Z (a : Z) m n : (n < m)%nat -> repeat a m !! n = Some a.
Proof.
  revert n. induction m as [|m IH]; intros [|n] Hn; cbn; try lia; auto. apply IH. lia.
Qed.

(** A position of the rectangle is [(x + i, y + j)] for the [i] and [j]
    the window's raster order writes it with. *)
Lemma in_rect_index x y w h p :
  in_rect x y w h p = true ->
  p = (x + (fst p - x), y + (snd p - y)) /\ 0 <= fst p - x < w /\ 0 <= snd p - y < h.
Proof.
  unfold in_rect. repeat rewrite Bool.andb_true_iff. rewrite !Z.leb_le, !Z.ltb_lt.
  intros. destruct p as [a b]. cbn in *. split; [f_equal; lia | lia].
Qed.

(** A window followed by exactly one pixel for each of its positions:
    pixel [j*w + i] is stored at [(x + i, y + j)] as a [uint16_t], memory
    outside the rectangle and the mode registers are unchanged. *)
Lemma window_paint s dev x y w h bss px :
  0 <= x -> 0 <= y -> 1 <= w -> 1 <= h -> x + w <= 65536 -> y + h <= 65536 ->
  Z.of_nat (length px) = w * h -> bss <> [] -> concat bss = flat_map be16 px ->
  let s' := lcd_run s (frames dev (window_frames x y (x + w - 1) (y + h - 1) ++
                                   map FData bss)) in
  (forall i j v, 0 <= i < w -> 0 <= j < h -> px !! Z.to_nat (j * w + i) = Some v ->
     lcd_fb s' !! (x + i, y + j) = Some (u16 v)) /\
  (forall p, in_rect x y w h p = false -> lcd_fb s' !! p = lcd_fb s !! p) /\
  lcd_md s' = lcd_md s.
Proof.
  intros Hx Hy Hw Hh Hxw Hyh Hlen Hbss Hcat s'. subst s'.
  rewrite (window_then_data s dev x y w h bss px) by assumption.
  destruct (paint_rect x y w h (map u16 px) _ Hw Hh ltac:(rewrite length_map; lia)
              (ramwr_ready_start x y w h (lcd_md s) (lcd_fb s) Hw)) as [H1 H2].
  split; [|split].
  - intros i j v Hi Hj Hv. apply H1; [exact Hi | exact Hj |]. now rewrite lookup_map_Z, Hv.
  - exact H2.
  - now rewrite fold_put_pixel_md.
Qed.

(** ** Rectangles and lines *)

(** A window followed by [w*h] frames of one colour paints the rectangle. *)
Lemma solid_window_paint s dev x y w h color :
  is_u16 x = true -> is_u16 y = true -> is_u16 color = true ->
  1 <= w -> 1 <= h -> x + w <= 65536 -> y + h <= 65536 ->
  let s' := lcd_run s (frames dev (window_frames x y (x + w - 1) (y + h - 1) ++
                                   solid_frames (w * h) color)) in
  (forall p, lcd_fb s' !! p = if in_rect x y w h p then Some color else lcd_fb s !! p) /\
  lcd_md s' = lcd_md s.
Proof.
  intros Hx Hy Hc Hw Hh Hxw Hyh s'. range_facts. subst s'. unfold solid_frames.
  replace (repeat (FData (be16 color)) (Z.to_nat (w * h)))
    with (map FData (map be16 (repeat color (Z.to_nat (w * h)))))
    by (now rewrite map_map, map_repeat).
  destruct (window_paint s dev x y w h (map be16 (repeat color (Z.to_nat (w * h))))
              (repeat color (Z.to_nat (w * h)))) as (H1 & H2 & H3); try lia.
  { rewrite repeat_length. nia. }
  { destruct (Z.to_nat (w * h)) eqn:E; [lia | discriminate]. }
  { apply eq_sym, flat_map_concat_map. }
  split; [|exact H3].
  intros p. destruct (in_rect x y w h p) eqn:Hp; [|now apply H2].
  destruct (in_rect_index x y w h p Hp) as (Ep & Hi & Hj). rewrite Ep at 1.
  rewrite (H1 _ _ color Hi Hj); [f_equal; apply u16_small; lia|].
  apply lookup_repeat_Z. nia.
Qed.

(** C2: [st7789_fill_rect] paints its rectangle with the colour, and nothing
    else: every position of the rectangle holds the colour afterwards,
    every other position keeps its content, and the mode registers are
    untouched. *)
Theorem st7789_fill_rect_paints x y w h color dev s :
  is_u16 x = true -> is_u16 y = true -> is_u16 color = true ->
  1 <= w -> 1 <= h -> x + w <= 65536 -> y + h <= 65536 ->
  let s' := run_on s (st7789_fill_rect x y w h color) dev in
  (forall p, lcd_fb s' !! p = if in_rect x y w h p then Some color else lcd_fb s !! p) /\
  lcd_md s' = lcd_md s.
Proof.
  intros Hx Hy Hc Hw Hh Hxw Hyh s'. subst s'. unfold run_on.
  rewrite (st7789_fill_rect_send x y w h color ltac:(lia) ltac:(lia) dev).
  cbn [fst send tells]. range_facts. conv_small.
  apply solid_window_paint; range_facts; lia.
Qed.

(** ** Bitmaps *)

Lemma concat_map_serialize cs : concat (map serialize cs) = serialize (concat cs).
Proof.
  induction cs as [|c cs IH]; [reflexivity|]. cbn [map concat]. now rewrite IH, serialize_app.
Qed.

Lemma chunk1024_nonempty l : l <> [] -> chunk1024 l <> [].
Proof. intros Hl E. apply Hl. now rewrite <- (chunk1024_concat l), E. Qed.

(** C3: [st7789_draw_bitmap] stores pixel [j*w + i] of the bitmap at
    [(x + i, y + j)] for every position of its rectangle, leaves every
    other position and the mode registers as they were, whatever the
    stack buffer held. *)
Theorem st7789_draw_bitmap_paints stack x y w h bitmap dev s :
  length stack = 2048%nat ->
  is_u16 x = true -> is_u16 y = true -> is_u16 w = true -> is_u16 h = true ->
  1 <= w -> 1 <= h -> x + w <= 65536 -> y + h <= 65536 ->
  w * h <= Z.of_nat (length bitmap) ->
  let s' := run_on s (st7789_draw_bitmap stack x y w h bitmap) dev in
  (forall i j v, 0 <= i < w -> 0 <= j < h -> bitmap !! Z.to_nat (j * w + i) = Some v ->
     lcd_fb s' !! (x + i, y + j) = Some (u16 v)) /\
  (forall p, in_rect x y w h p = false -> lcd_fb s' !! p = lcd_fb s !! p) /\
  lcd_md s' = lcd_md s.
Proof.
  intros Hst Hx Hy Hw16 Hh16 Hw Hh Hxw Hyh Hbm s'. range_facts. subst s'. unfold run_on.
  rewrite (st7789_draw_bitmap_send stack x y w h bitmap Hst ltac:(lia) ltac:(lia) ltac:(lia)
             ltac:(lia) Hw Hh Hxw Hyh Hbm dev).
  cbn [fst send tells]. rewrite <- (map_map serialize FData).
  set (px := take (Z.to_nat (w * h)) bitmap).
  assert (Hlen : Z.of_nat (length px) = w * h) by (subst px; rewrite length_take; lia).
  destruct (window_paint s dev x y w h (map serialize (chunk1024 px)) px)
    as (H1 & H2 & H3); try lia.
  { intros E. apply map_eq_nil in E. revert E. apply chunk1024_nonempty.
    intros ->. cbn in Hlen. nia. }
  { now rewrite concat_map_serialize, chunk1024_concat. }
  split; [|split; assumption].
  intros i j v Hi Hj Hv. apply H1; [exact Hi | exact Hj |]. subst px.
  rewrite lookup_take_lt by nia. exact Hv.
Qed.

(** ** Single pixels and the circle routines *)

Lemma u16_idem z : u16 (u16 z) = u16 z.
Proof. unfold u16. apply Zmod_mod. Qed.

(** One pixel's frames store the colour, as a [uint16_t], at the point. *)
Lemma pixel_frames_run s dev color p :
  lcd_fb (lcd_run s (frames dev (pixel_frames color p))) =
    <[(u16 (fst p), u16 (snd p)) := u16 color]> (lcd_fb s) /\
  lcd_md (lcd_run s (frames dev (pixel_frames color p))) = lcd_md s.
Proof.
  unfold pixel_frames. rewrite lcd_run_frames_app, window_frames_run.
  cbn -[hi8 lo8 u16]. now rewrite be16_value.
Qed.

(** The points of a sequence of pixels are painted in order. *)
Lemma pixels_send_run color pts dev s :
  lcd_fb (lcd_run s (pixels_send color pts dev)) =
    paint_points (u16 color) (map (fun p => (u16 (fst p), u16 (snd p))) pts) (lcd_fb s) /\
  lcd_md (lcd_run s (pixels_send color pts dev)) = lcd_md s.
Proof.
  revert s. induction pts as [|p pts IH]; intros s; [split; reflexivity|].
  unfold pixels_send. cbn [flat_map]. rewrite lcd_run_frames_app.
  destruct (pixel_frames_run s dev color p) as [Hfb Hmd].
  destruct (IH (lcd_run s (frames dev (pixel_frames color p)))) as [IH1 IH2].
  unfold pixels_send in IH1, IH2. rewrite IH1, IH2, Hfb, Hmd. split; reflexivity.
Qed.

(** Points already in [uint16_t] range are painted where they are. *)
Lemma normalise_u16_points (pts : list (Z * Z)) :
  Forall (fun p => u16 (fst p) = fst p /\ u16 (snd p) = snd p) pts ->
  map (fun p => (u16 (fst p), u16 (snd p))) pts = pts.
Proof.
  induction 1 as [|[a b] pts [Ha Hb] _ IH]; [reflexivity|]. cbn in *. now rewrite Ha, Hb, IH.
Qed.

Lemma circle_points_u16 x0 y0 r :
  Forall (fun p => u16 (fst p) = fst p /\ u16 (snd p) = snd p) (circle_points x0 y0 r).
Proof.
  unfold circle_points. apply List.Forall_forall. intros p Hp.
  apply in_flat_map in Hp as (st & _ & Hp). unfold octant_points in Hp.
  repeat destruct Hp as [<-|Hp]; try contradiction; cbn [fst snd]; split; apply u16_idem.
Qed.

Lemma fill_points_u16 x0 y0 r :
  Forall (fun p => u16 (fst p) = fst p /\ u16 (snd p) = snd p) (fill_points x0 y0 r).
Proof.
  unfold fill_points, span_points. apply List.Forall_forall. intros p Hp.
  apply in_flat_map in Hp as (st & _ & Hp). apply in_app_or in Hp.
  destruct Hp as [Hp|Hp]; apply in_flat_map in Hp as (i & _ & Hp);
    repeat destruct Hp as [<-|Hp]; try contradiction; cbn [fst snd]; split; apply u16_idem.
Qed.

(** C15: [st7789_draw_pixel] stores the colour at the point and changes
    nothing else, for every argument: coordinates and colour are taken as
    [uint16_t]. *)
Theorem st7789_draw_pixel_paints x y color dev s :
  lcd_fb (run_on s (st7789_draw_pixel x y color) dev) =
    <[(u16 x, u16 y) := u16 color]> (lcd_fb s) /\
  lcd_md (run_on s (st7789_draw_pixel x y color) dev) = lcd_md s.
Proof.
  unfold run_on. rewrite (st7789_draw_pixel_send x y color dev).
  exact (pixel_frames_run s dev color (x, y)).
Qed.

(** The points of a pixel sequence hold the colour, the others are kept. *)
Lemma pixels_send_paints color pts dev s :
  Forall (fun p => u16 (fst p) = fst p /\ u16 (snd p) = snd p) pts ->
  (forall p, In p pts -> lcd_fb (lcd_run s (pixels_send color pts dev)) !! p = Some (u16 color)) /\
  (forall p, ~ In p pts -> lcd_fb (lcd_run s (pixels_send color pts dev)) !! p = lcd_fb s !! p) /\
  lcd_md (lcd_run s (pixels_send color pts dev)) = lcd_md s.
Proof.
  intros Hu. destruct (pixels_send_run color pts dev s) as [Hfb Hmd].
  rewrite normalise_u16_points in Hfb by exact Hu. rewrite Hfb.
  split; [|split; [|exact Hmd]]; intros p Hp.
  - now apply paint_points_in.
  - now apply paint_points_notin.
Qed.

(** C13: [st7789_draw_circle] paints exactly the points of [circle_points]
    with the colour. *)
Theorem st7789_draw_circle_paints x0 y0 r color dev s :
  let s' := run_on s (st7789_draw_circle x0 y0 r color) dev in
  (forall p, In p (circle_points x0 y0 r) -> lcd_fb s' !! p = Some (u16 color)) /\
  (forall p, ~ In p (circle_points x0 y0 r) -> lcd_fb s' !! p = lcd_fb s !! p) /\
  lcd_md s' = lcd_md s.
Proof.
  cbv zeta. unfold run_on. rewrite st7789_draw_circle_trace.
  apply pixels_send_paints, circle_points_u16.
Qed.

(** C14: When the disc stays below column 32767, [st7789_fill_circle] paints
    exactly the points of [fill_points], among them every point of the
    outline. *)
Theorem st7789_fill_circle_paints x0 y0 r color dev s :
  0 <= x0 -> 0 <= r -> x0 + r <= 32766 ->
  let s' := run_on s (st7789_fill_circle x0 y0 r color) dev in
  (forall p, In p (fill_points x0 y0 r) -> lcd_fb s' !! p = Some (u16 color)) /\
  (forall p, ~ In p (fill_points x0 y0 r) -> lcd_fb s' !! p = lcd_fb s !! p) /\
  lcd_md s' = lcd_md s.
Proof.
  intros Hx0 Hr Htop s'. subst s'. unfold run_on. rewrite st7789_fill_circle_trace by assumption.
  apply pixels_send_paints, fill_points_u16.
Qed.

(** ** Registers *)

(** C23: [st7789_set_rotation] of an enum value loads that rotation's MADCTL
    flags and changes neither the other mode registers nor the memory. *)
Theorem st7789_set_rotation_registers r dev s :
  let s' := run_on s (st7789_set_rotation (rotation_value r)) dev in
  madctl_flags (madctl (lcd_md s')) = rotation_flags r /\
  lcd_md s' = with_madctl (madctl (lcd_md s')) (lcd_md s) /\
  lcd_fb s' = lcd_fb s.
Proof. destruct s as [d c a e [] fb]; destruct r; repeat split. Qed.

Section WithHal.
Context `{Hal}.

Lemma st7789_init_run dev s :
  hal_spi_init (st7789_spi_configured dev) = 0 ->
  exists tr, st7789_init dev = (tr, Some (0, st7789_spi_configured dev)) /\
             lcd_run s tr = after_init s.
Proof.
  intros Hok. eexists. split.
  - unfold st7789_init. cbn. rewrite Hok. cbn. reflexivity.
  - destruct s. reflexivity.
Qed.

(** C7: After a successful [st7789_init] the controller is in the state the
    spec describes: awake, display on, inverted, RGB565, MADCTL 0x00,
    the window of columns 0..239 and rows 0..319; memory untouched. *)
Theorem st7789_init_registers dev s :
  hal_spi_init (st7789_spi_configured dev) = 0 ->
  lcd_run s (fst (st7789_init dev)) = after_init s /\
  snd (st7789_init dev) = Some (0, st7789_spi_configured dev).
Proof.
  intros Hok. destruct (st7789_init_run dev s Hok) as (tr & -> & Hrun). now split.
Qed.

(** C21: The session initialise, clear to red, draw a white pixel at (0, 0)
    leaves the 240x240 screen red except the white pixel at (0, 0), and
    the memory outside the screen as it was. *)
Theorem session_red_then_pixel_screen dev s :
  hal_spi_init (st7789_spi_configured dev) = 0 ->
  let s' := lcd_run s (fst (session_red_then_pixel dev)) in
  (forall p, lcd_fb s' !! p =
     if decide (p = (0, 0)) then Some ST7789_WHITE
     else if in_rect 0 0 ST7789_WIDTH ST7789_HEIGHT p then Some ST7789_RED
     else lcd_fb s !! p) /\
  lcd_md s' = lcd_md (after_init s).
Proof.
  intros Hok s'. subst s'.
  destruct (st7789_init_run dev s Hok) as (tr & Hinit & Hrun).
  set (d := st7789_spi_configured dev) in *.
  set (win := window_frames 0 0 (0 + ST7789_WIDTH - 1) (0 + ST7789_HEIGHT - 1) ++
              solid_frames (ST7789_WIDTH * ST7789_HEIGHT) ST7789_RED).
  assert (Htr : fst (session_red_then_pixel dev) =
                tr ++ frames d win ++ frames d (pixel_frames ST7789_WHITE (0, 0))).
  { unfold session_red_then_pixel, st7789_clear. unfold bind at 1. rewrite Hinit.
    unfold bind at 1.
    rewrite (st7789_fill_rect_send 0 0 ST7789_WIDTH ST7789_HEIGHT ST7789_RED ltac:(easy) ltac:(easy) d).
    unfold send at 1, tells at 1. cbv beta iota zeta.
    rewrite (st7789_draw_pixel_send 0 0 ST7789_WHITE d). reflexivity. }
  rewrite Htr, !lcd_run_app, Hrun.
  pose proof (solid_window_paint (after_init s) d 0 0 ST7789_WIDTH ST7789_HEIGHT ST7789_RED
                eq_refl eq_refl eq_refl) as Hpaint.
  specialize (Hpaint ltac:(unfold ST7789_WIDTH; lia) ltac:(unfold ST7789_HEIGHT; lia)
                ltac:(unfold ST7789_WIDTH; lia) ltac:(unfold ST7789_HEIGHT; lia)).
  cbv zeta in Hpaint. destruct Hpaint as [Hfb Hmd]. fold win in Hfb, Hmd.
  destruct (pixel_frames_run (lcd_run (after_init s) (frames d win)) d ST7789_WHITE (0, 0))
    as [Pfb Pmd].
  rewrite Pfb, Pmd, Hmd. split; [|reflexivity]. intros p.
  destruct (decide (p = (0, 0))) as [->|Hne].
  - apply lookup_insert_eq.
  - rewrite lookup_insert_ne by (intros E; apply Hne; rewrite <- E; reflexivity). apply Hfb.
Qed.

End WithHal.

(** ** Witnesses *)

(** Witness of C2 [st7789_fill_rect_paints]: a 3x2 red rectangle at (10, 20). *)
Lemma st7789_fill_rect_paints_witness :
  let s' := run_on lcd_power_on (st7789_fill_rect 10 20 3 2 ST7789_RED) st7789_spi_zero in
  (forall p, lcd_fb s' !! p = if in_rect 10 20 3 2 p then Some ST7789_RED else lcd_fb lcd_power_on !! p) /\
  lcd_md s' = lcd_md lcd_power_on.
Proof. apply st7789_fill_rect_paints; reflexivity || lia. Defined.

(** Witness of C3 [st7789_draw_bitmap_paints]: a 2x2 bitmap at (5, 7). *)
Lemma st7789_draw_bitmap_paints_witness :
  let s' := run_on lcd_power_on
              (st7789_draw_bitmap (repeat 0 2048) 5 7 2 2 [0xF800; 0x07E0; 0x001F; 0xFFFF])
              st7789_spi_zero in
  (forall i j v, 0 <= i < 2 -> 0 <= j < 2 ->
     [0xF800; 0x07E0; 0x001F; 0xFFFF] !! Z.to_nat (j * 2 + i) = Some v ->
     lcd_fb s' !! (5 + i, 7 + j) = Some (u16 v)) /\
  (forall p, in_rect 5 7 2 2 p = false -> lcd_fb s' !! p = lcd_fb lcd_power_on !! p) /\
  lcd_md s' = lcd_md lcd_power_on.
Proof. apply st7789_draw_bitmap_paints; reflexivity || lia. Defined.

(** Witness of C14 [st7789_fill_circle_paints]: a disc of radius 10 at (120, 120). *)
Lemma st7789_fill_circle_paints_witness :
  let s' := run_on lcd_power_on (st7789_fill_circle 120 120 10 ST7789_RED) st7789_spi_zero in
  (forall p, In p (fill_points 120 120 10) -> lcd_fb s' !! p = Some (u16 ST7789_RED)) /\
  (forall p, ~ In p (fill_points 120 120 10) -> lcd_fb s' !! p = lcd_fb lcd_power_on !! p) /\
  lcd_md s' = lcd_md lcd_power_on.
Proof. apply st7789_fill_circle_paints; lia. Defined.

(** Witness of C7 [st7789_init_registers]: a platform that accepts the handle. *)
Lemma st7789_init_registers_witness :
  lcd_run lcd_power_on (fst (@st7789_init hal_accepting st7789_spi_zero)) = after_init lcd_power_on /\
  snd (@st7789_init hal_accepting st7789_spi_zero) = Some (0, st7789_spi_configured st7789_spi_zero).
Proof. apply (@st7789_init_registers hal_accepting). reflexivity. Defined.

(** Witness of C21 [session_red_then_pixel_screen]. *)
Lemma session_red_then_pixel_screen_witness :
  let s' := lcd_run lcd_power_on (fst (@session_red_then_pixel hal_accepting st7789_spi_zero)) in
  (forall p, lcd_fb s' !! p =
     if decide (p = (0, 0)) then Some ST7789_WHITE
     else if in_rect 0 0 ST7789_WIDTH ST7789_HEIGHT p then Some ST7789_RED
     else lcd_fb lcd_power_on !! p) /\
  lcd_md s' = lcd_md (after_init lcd_power_on).
Proof. apply (@session_red_then_pixel_screen hal_accepting). reflexivity. Defined.
