(* ===== verification/Session.v ===== *)
(** * Sessions of API calls against an abstract screen

    The public interface of [st7789.h] (lines 82-113) as a datatype of
    calls, a client session as a list of calls run in order on the shared
    SPI handle, and the abstract screen the spec describes: a frame memory
    and the mode registers, with each call's effect given directly
    (a rectangle painted, a point stored, a bitmap laid out row by row,
    the points of the circle painted, a register set).  The refinement
    theorem states that running the driver's trace of a session of valid
    calls on the controller of [Controller.v] yields exactly the abstract
    screen of the session, and that the session returns with the handle
    unchanged. *)

From Stdlib Require Import ZArith List Lia.
From stdpp Require Import base list gmap.
From S2P Require Import Prelude Monad Hal Encoder Window Raster Circle Init Controller Refinement.
Import ListNotations.
Open Scope Z_scope.
Open Scope monad_scope.

(** ** The API *)

Inductive api_call :=
| Init
| Clear (color : Z)
| FillRect (x y w h color : Z)
| DrawPixel (x y color : Z)
| DrawHline (x y w color : Z)
| DrawVline (x y h color : Z)
| DrawCircle (x0 y0 r color : Z)
| FillCircle (x0 y0 r color : Z)
| DrawBitmap (x y w h : Z) (bitmap : list Z)
| SetRotation (rotation : Z)
| DisplayOn (on : bool)
| InvertDisplay (invert : bool).

(** Split a validity test into its conjuncts. *)
Ltac valid_facts :=
  repeat match goal with
    | H : _ && _ = true |- _ => apply andb_prop in H as [? ?]
    | H : (_ <=? _) = true |- _ => apply Z.leb_le in H
    end.

Section WithHal.
Context `{Hal}.

(** One call; [stack] is the content of the stack frame
    [st7789_draw_bitmap] finds its buffer in.  The result of [st7789_init]
    is not looked at: the session goes on either way, as a caller that
    ignores it would. *)
Definition api_run (stack : list Z) (c : api_call) : DM unit :=
  match c with
  | Init => _ <- st7789_init ;; ret tt
  | Clear color => st7789_clear color
  | FillRect x y w h color => st7789_fill_rect x y w h color
  | DrawPixel x y color => st7789_draw_pixel x y color
  | DrawHline x y w color => st7789_draw_hline x y w color
  | DrawVline x y h color => st7789_draw_vline x y h color
  | DrawCircle x0 y0 r color => st7789_draw_circle x0 y0 r color
  | FillCircle x0 y0 r color => st7789_fill_circle x0 y0 r color
  | DrawBitmap x y w h bitmap => st7789_draw_bitmap stack x y w h bitmap
  | SetRotation rotation => st7789_set_rotation rotation
  | DisplayOn on => st7789_display_on on
  | InvertDisplay invert => st7789_invert_display invert
  end.

Fixpoint api_session (stack : list Z) (cs : list api_call) : DM unit :=
  match cs with
  | [] => ret tt
  | c :: cs' => api_run stack c ;; api_session stack cs'
  end.

(** The calls the spec gives a meaning to: coordinates, sizes and colours
    in [uint16_t], rectangles of at least one pixel inside the 16-bit
    coordinate space, a bitmap that has the pixels it is asked for, a
    filled disc below column 32767. *)
Definition valid_call (c : api_call) : bool :=
  match c with
  | Init => true
  | Clear color => is_u16 color
  | FillRect x y w h color =>
      is_u16 x && is_u16 y && is_u16 color && (1 <=? w) && (1 <=? h) &&
      (x + w <=? 65536) && (y + h <=? 65536)
  | DrawPixel _ _ _ => true
  | DrawHline x y w color =>
      is_u16 x && is_u16 y && is_u16 color && (1 <=? w) && (x + w <=? 65536)
  | DrawVline x y h color =>
      is_u16 x && is_u16 y && is_u16 color && (1 <=? h) && (y + h <=? 65536)
  | DrawCircle _ _ r _ => is_u16 r
  | FillCircle x0 _ r _ => (0 <=? x0) && (0 <=? r) && (x0 + r <=? 32766)
  | DrawBitmap x y w h bitmap =>
      is_u16 x && is_u16 y && is_u16 w && is_u16 h && (1 <=? w) && (1 <=? h) &&
      (x + w <=? 65536) && (y + h <=? 65536) && (w * h <=? Z.of_nat (length bitmap))
  | SetRotation _ | DisplayOn _ | InvertDisplay _ => true
  end.

(** ** The abstract screen *)

Record screen := mk_screen { scr_fb : gmap (Z * Z) Z; scr_modes : modes }.

(** The positions of a [w] by [h] rectangle at (x, y), row by row. *)
Definition rect_points (x y w h : Z) : list (Z * Z) := map (raster_pos x y w) (seqZ 0 (w * h)).

(** A bitmap laid out row by row: pixel [k] at the [k]-th position. *)
Definition bitmap_paint (x y w h : Z) (bitmap : list Z) (fb : gmap (Z * Z) Z) : gmap (Z * Z) Z :=
  fold_left (fun m k => <[raster_pos x y w k := u16 (nth (Z.to_nat k) bitmap 0)]> m)
            (seqZ 0 (w * h)) fb.

(** The MADCTL byte of each orientation (st7789.c 310-321). *)
Definition madctl_of_rotation (r : st7789_rotation_t) : Z :=
  match r with
  | ST7789_ROTATION_0 => 0xC0
  | ST7789_ROTATION_90 => 0xA0
  | ST7789_ROTATION_180 => 0x00
  | ST7789_ROTATION_270 => 0x60
  end.

(** The mode registers the spec asks the initialisation to leave:
    MADCTL 0x00, RGB565, inverted, display on, awake. *)
Definition init_modes : modes := mk_modes 0x00 0x05 true true false.

Definition screen_step (sc : screen) (c : api_call) : screen :=
  let fb := scr_fb sc in let m := scr_modes sc in
  match c with
  | Init => if hal_spi_init (st7789_spi_configured st7789_spi_zero) =? 0
            then mk_screen fb init_modes else sc
  | Clear color => mk_screen (paint_points (u16 color) (rect_points 0 0 ST7789_WIDTH ST7789_HEIGHT) fb) m
  | FillRect x y w h color => mk_screen (paint_points (u16 color) (rect_points x y w h) fb) m
  | DrawPixel x y color => mk_screen (<[(u16 x, u16 y) := u16 color]> fb) m
  | DrawHline x y w color => mk_screen (paint_points (u16 color) (rect_points x y w 1) fb) m
  | DrawVline x y h color => mk_screen (paint_points (u16 color) (rect_points x y 1 h) fb) m
  | DrawCircle x0 y0 r color => mk_screen (paint_points (u16 color) (circle_points x0 y0 r) fb) m
  | FillCircle x0 y0 r color => mk_screen (paint_points (u16 color) (fill_points x0 y0 r) fb) m
  | DrawBitmap x y w h bitmap => mk_screen (bitmap_paint x y w h bitmap fb) m
  | SetRotation rotation =>
      match rotation_of_value rotation with
      | Some r => mk_screen fb (with_madctl (madctl_of_rotation r) m)
      | None => sc
      end
  | DisplayOn on => mk_screen fb (with_display on m)
  | InvertDisplay invert => mk_screen fb (with_inverted invert m)
  end.

(** The handle after a call: [st7789_init] configures it, success or not. *)
Definition handle_step (dev : spi_dev_t) (c : api_call) : spi_dev_t :=
  match c with Init => st7789_spi_configured dev | _ => dev end.

(** What the controller shows of itself to the abstract screen. *)
Definition screen_of (s : lcd) : screen := mk_screen (lcd_fb s) (lcd_md s).

(** ** Lemmas on the abstract screen *)

Lemma in_seqZ_0 k n : In k (seqZ 0 n) <-> 0 <= k < n.
Proof. rewrite <- list_elem_of_In, elem_of_seqZ. lia. Qed.

Lemma in_rect_points x y w h p :
  1 <= w -> In p (rect_points x y w h) <-> in_rect x y w h p = true.
Proof.
  intros Hw. unfold rect_points. rewrite in_map_iff. split.
  - intros (k & <- & Hk). apply in_seqZ_0 in Hk. now apply raster_pos_in_rect.
  - intros Hp. destruct (in_rect_index x y w h p Hp) as (Ep & Hi & Hj).
    exists ((snd p - y) * w + (fst p - x)). rewrite raster_pos_index by exact Hi.
    split; [now rewrite Ep at 3|]. apply in_seqZ_0. nia.
Qed.

Lemma paint_rect_lookup color x y w h fb p :
  1 <= w ->
  paint_points color (rect_points x y w h) fb !! p =
    if in_rect x y w h p then Some color else fb !! p.
Proof.
  intros Hw. destruct (in_rect x y w h p) eqn:Hp.
  - apply paint_points_in. now apply in_rect_points.
  - apply paint_points_notin. rewrite in_rect_points by exact Hw. congruence.
Qed.

(** Inserting at pairwise distinct keys: each key holds its own value. *)
Lemma fold_insert_inj (f : Z -> Z * Z) (g : Z -> Z) (l : list Z) (fb : gmap (Z * Z) Z) :
  List.NoDup l -> (forall a b, f a = f b -> a = b) ->
  (forall k, In k l -> fold_left (fun m k => <[f k := g k]> m) l fb !! f k = Some (g k)) /\
  (forall p, (forall k, In k l -> p <> f k) ->
     fold_left (fun m k => <[f k := g k]> m) l fb !! p = fb !! p).
Proof.
  intros Hnd Hinj. revert fb. induction Hnd as [|a l Ha Hnd IH]; intros fb.
  { split; [intros k []| reflexivity]. }
  cbn [fold_left]. destruct (IH (<[f a := g a]> fb)) as [IH1 IH2]. split.
  - intros k [<-|Hk]; [|now apply IH1].
    rewrite IH2; [apply lookup_insert_eq|]. intros k Hk E. apply Hinj in E. congruence.
  - intros p Hp. rewrite IH2 by (intros k Hk; apply Hp; now right).
    apply lookup_insert_ne. intros E. apply (Hp a); [now left | congruence].
Qed.

Lemma bitmap_paint_lookup x y w h bitmap fb :
  1 <= w ->
  (forall i j, 0 <= i < w -> 0 <= j < h ->
     bitmap_paint x y w h bitmap fb !! (x + i, y + j) = Some (u16 (nth (Z.to_nat (j * w + i)) bitmap 0))) /\
  (forall p, in_rect x y w h p = false -> bitmap_paint x y w h bitmap fb !! p = fb !! p).
Proof.
  intros Hw.
  destruct (fold_insert_inj (raster_pos x y w) (fun k => u16 (nth (Z.to_nat k) bitmap 0))
              (seqZ 0 (w * h)) fb) as [H1 H2].
  { apply NoDup_ListNoDup, NoDup_seqZ. }
  { intros a b. now apply raster_pos_inj. }
  split.
  - intros i j Hi Hj. rewrite <- (raster_pos_index x y w i j Hi). apply H1, in_seqZ_0. nia.
  - intros p Hp. apply H2. intros k Hk ->. apply in_seqZ_0 in Hk.
    rewrite raster_pos_in_rect in Hp by lia. discriminate.
Qed.

(** ** The calls on the controller *)

(** A window and a solid run of [w*h] pixels paint the rectangle. *)
Lemma solid_frames_screen s dev x y w h color :
  is_u16 x = true -> is_u16 y = true -> is_u16 color = true ->
  1 <= w -> 1 <= h -> x + w <= 65536 -> y + h <= 65536 ->
  screen_of (lcd_run s (frames dev (window_frames x y (x + w - 1) (y + h - 1) ++
                                    solid_frames (w * h) color))) =
    mk_screen (paint_points (u16 color) (rect_points x y w h) (lcd_fb s)) (lcd_md s).
Proof.
  intros Hx Hy Hc Hw Hh Hxw Hyh.
  destruct (solid_window_paint s dev x y w h color Hx Hy Hc Hw Hh Hxw Hyh) as [Hfb Hmd].
  unfold screen_of. rewrite Hmd. f_equal. apply map_eq. intros p.
  rewrite Hfb, paint_rect_lookup by exact Hw. range_facts. now conv_small.
Qed.

Lemma fill_rect_screen x y w h color dev s :
  is_u16 x = true -> is_u16 y = true -> is_u16 color = true ->
  1 <= w -> 1 <= h -> x + w <= 65536 -> y + h <= 65536 ->
  exists tr, st7789_fill_rect x y w h color dev = (tr, Some (tt, dev)) /\
    screen_of (lcd_run s tr) =
      mk_screen (paint_points (u16 color) (rect_points x y w h) (lcd_fb s)) (lcd_md s).
Proof.
  intros Hx Hy Hc Hw Hh Hxw Hyh.
  rewrite (st7789_fill_rect_send x y w h color ltac:(lia) ltac:(lia) dev).
  eexists. split; [reflexivity|].
  pose proof (proj1 (is_u16_spec x) Hx). pose proof (proj1 (is_u16_spec y) Hy).
  rewrite (u16_small (x + w - 1)), (u16_small (y + h - 1)) by lia.
  now apply solid_frames_screen.
Qed.

Lemma draw_hline_screen x y w color dev s :
  is_u16 x = true -> is_u16 y = true -> is_u16 color = true -> 1 <= w -> x + w <= 65536 ->
  exists tr, st7789_draw_hline x y w color dev = (tr, Some (tt, dev)) /\
    screen_of (lcd_run s tr) =
      mk_screen (paint_points (u16 color) (rect_points x y w 1) (lcd_fb s)) (lcd_md s).
Proof.
  intros Hx Hy Hc Hw Hxw. rewrite (st7789_draw_hline_send x y w color dev).
  eexists. split; [reflexivity|].
  pose proof (proj1 (is_u16_spec x) Hx). pose proof (proj1 (is_u16_spec y) Hy).
  rewrite (u16_small (x + w - 1)) by lia.
  replace (window_frames x y (x + w - 1) y) with (window_frames x y (x + w - 1) (y + 1 - 1))
    by (now replace (y + 1 - 1) with y by lia).
  replace (solid_frames w color) with (solid_frames (w * 1) color) by (now rewrite Z.mul_1_r).
  apply solid_frames_screen; auto; lia.
Qed.

Lemma draw_vline_screen x y h color dev s :
  is_u16 x = true -> is_u16 y = true -> is_u16 color = true -> 1 <= h -> y + h <= 65536 ->
  exists tr, st7789_draw_vline x y h color dev = (tr, Some (tt, dev)) /\
    screen_of (lcd_run s tr) =
      mk_screen (paint_points (u16 color) (rect_points x y 1 h) (lcd_fb s)) (lcd_md s).
Proof.
  intros Hx Hy Hc Hh Hyh. rewrite (st7789_draw_vline_send x y h color dev).
  eexists. split; [reflexivity|].
  pose proof (proj1 (is_u16_spec x) Hx). pose proof (proj1 (is_u16_spec y) Hy).
  rewrite (u16_small (y + h - 1)) by lia.
  replace (window_frames x y x (y + h - 1)) with (window_frames x y (x + 1 - 1) (y + h - 1))
    by (now replace (x + 1 - 1) with x by lia).
  replace (solid_frames h color) with (solid_frames (1 * h) color) by (now rewrite Z.mul_1_l).
  apply solid_frames_screen; auto; lia.
Qed.

Lemma draw_pixel_screen x y color dev s :
  exists tr, st7789_draw_pixel x y color dev = (tr, Some (tt, dev)) /\
    screen_of (lcd_run s tr) = mk_screen (<[(u16 x, u16 y) := u16 color]> (lcd_fb s)) (lcd_md s).
Proof.
  rewrite (st7789_draw_pixel_send x y color dev). eexists. split; [reflexivity|].
  destruct (pixel_frames_run s dev color (x, y)) as [Hfb Hmd].
  unfold screen_of. change (window_frames x y x y ++ [FData (be16 color)]) with (pixel_frames color (x, y)).
  now rewrite Hfb, Hmd.
Qed.

(** A sequence of pixels at [uint16_t] points paints exactly those points. *)
Lemma pixels_send_screen color pts dev s :
  Forall (fun p => u16 (fst p) = fst p /\ u16 (snd p) = snd p) pts ->
  screen_of (lcd_run s (pixels_send color pts dev)) =
    mk_screen (paint_points (u16 color) pts (lcd_fb s)) (lcd_md s).
Proof.
  intros Hu. destruct (pixels_send_run color pts dev s) as [Hfb Hmd].
  unfold screen_of. rewrite Hfb, Hmd, normalise_u16_points by exact Hu. reflexivity.
Qed.

Lemma draw_circle_screen x0 y0 r color dev s :
  is_u16 r = true ->
  exists tr, st7789_draw_circle x0 y0 r color dev = (tr, Some (tt, dev)) /\
    screen_of (lcd_run s tr) =
      mk_screen (paint_points (u16 color) (circle_points x0 y0 r) (lcd_fb s)) (lcd_md s).
Proof.
  intros Hr. rewrite st7789_draw_circle_trace.
  destruct (circle_iterate_finishes r Hr) as (fin & ->).
  eexists. split; [reflexivity|]. apply pixels_send_screen, circle_points_u16.
Qed.

Lemma fill_circle_screen x0 y0 r color dev s :
  0 <= x0 -> 0 <= r -> x0 + r <= 32766 ->
  exists tr, st7789_fill_circle x0 y0 r color dev = (tr, Some (tt, dev)) /\
    screen_of (lcd_run s tr) =
      mk_screen (paint_points (u16 color) (fill_points x0 y0 r) (lcd_fb s)) (lcd_md s).
Proof.
  intros Hx0 Hr Htop. rewrite st7789_fill_circle_trace by assumption.
  eexists. split; [reflexivity|]. apply pixels_send_screen, fill_points_u16.
Qed.

Lemma draw_bitmap_screen stack x y w h bitmap dev s :
  length stack = 2048%nat ->
  is_u16 x = true -> is_u16 y = true -> is_u16 w = true -> is_u16 h = true ->
  1 <= w -> 1 <= h -> x + w <= 65536 -> y + h <= 65536 ->
  w * h <= Z.of_nat (length bitmap) ->
  exists tr, st7789_draw_bitmap stack x y w h bitmap dev = (tr, Some (tt, dev)) /\
    screen_of (lcd_run s tr) = mk_screen (bitmap_paint x y w h bitmap (lcd_fb s)) (lcd_md s).
Proof.
  intros Hst Hx Hy Hw16 Hh16 Hw Hh Hxw Hyh Hbm. range_facts.
  rewrite (st7789_draw_bitmap_send stack x y w h bitmap Hst ltac:(lia) ltac:(lia) ltac:(lia)
             ltac:(lia) Hw Hh Hxw Hyh Hbm dev).
  eexists. split; [reflexivity|]. rewrite <- (map_map serialize FData).
  set (px := take (Z.to_nat (w * h)) bitmap).
  assert (Hlen : Z.of_nat (length px) = w * h) by (subst px; rewrite length_take; lia).
  destruct (window_paint s dev x y w h (map serialize (chunk1024 px)) px)
    as (H1 & H2 & H3); try lia.
  { intros E. apply map_eq_nil in E. revert E. apply chunk1024_nonempty.
    intros ->. cbn in Hlen. nia. }
  { now rewrite concat_map_serialize, chunk1024_concat. }
  destruct (bitmap_paint_lookup x y w h bitmap (lcd_fb s) Hw) as [B1 B2].
  unfold screen_of. rewrite H3. f_equal. apply map_eq. intros p.
  destruct (in_rect x y w h p) eqn:Hp; [|now rewrite H2, B2].
  destruct (in_rect_index x y w h p Hp) as (Ep & Hi & Hj). rewrite Ep.
  rewrite B1 by assumption.
  destruct (lookup_lt_is_Some_2 bitmap (Z.to_nat ((snd p - y) * w + (fst p - x))))
    as [v Hv]; [nia|].
  rewrite (H1 _ _ v Hi Hj), (nth_lookup_Some _ _ _ _ Hv); [reflexivity|].
  subst px. rewrite lookup_take_lt by nia. exact Hv.
Qed.

Lemma bind_returns {A B} (m : DM A) (k : A -> DM B) dev tr a dev' :
  m dev = (tr, Some (a, dev')) -> bind m k dev = (tr ++ fst (k a dev'), snd (k a dev')).
Proof. intros E. unfold bind. rewrite E. now destruct (k a dev'). Qed.

(** A rotation value inside the enum loads its MADCTL byte; one outside
    it sends MADCTL without a parameter, which leaves the registers as they
    were (the next command of any call ends the incomplete one). *)
Lemma set_rotation_screen v dev s :
  exists tr, st7789_set_rotation v dev = (tr, Some (tt, dev)) /\
    screen_of (lcd_run s tr) =
      match rotation_of_value v with
      | Some r => mk_screen (lcd_fb s) (with_madctl (madctl_of_rotation r) (lcd_md s))
      | None => screen_of s
      end.
Proof.
  destruct (rotation_of_value v) as [r|] eqn:Hv.
  - apply rotation_value_of_value in Hv. subst v.
    destruct r; eexists; (split; [reflexivity|]); now destruct s as [? ? ? ? [] ?].
  - apply rotation_of_value_None in Hv as (H0 & H1 & H2 & H3).
    unfold st7789_set_rotation.
    rewrite (proj2 (Z.eqb_neq v 0) H0), (proj2 (Z.eqb_neq v 1) H1),
      (proj2 (Z.eqb_neq v 2) H2), (proj2 (Z.eqb_neq v 3) H3).
    eexists. split; [reflexivity|]. now destruct s as [? ? ? ? [] ?].
Qed.

(** [st7789_init] configures the handle whatever the platform answers; on
    success the controller ends with the registers of [init_modes], on
    failure nothing reaches it. *)
Lemma init_screen stack dev s :
  exists tr, api_run stack Init dev = (tr, Some (tt, st7789_spi_configured dev)) /\
    screen_of (lcd_run s tr) = screen_step (screen_of s) Init.
Proof.
  cbn [api_run screen_step scr_fb scr_modes screen_of].
  change (st7789_spi_configured st7789_spi_zero) with (st7789_spi_configured dev).
  destruct (Z.eqb_spec (hal_spi_init (st7789_spi_configured dev)) 0) as [Hok|Hfail].
  - destruct (st7789_init_run dev s Hok) as (tr & Hrun & Hlcd).
    rewrite (bind_returns _ _ _ _ _ _ Hrun). eexists. split; [reflexivity|].
    cbn [fst]. now rewrite app_nil_r, Hlcd.
  - unfold bind at 1, st7789_init. cbn. rewrite (proj2 (Z.eqb_neq _ 0) Hfail). cbn.
    eexists. split; reflexivity.
Qed.

Lemma display_on_screen on dev s :
  exists tr, st7789_display_on on dev = (tr, Some (tt, dev)) /\
    screen_of (lcd_run s tr) = mk_screen (lcd_fb s) (with_display on (lcd_md s)).
Proof. destruct on; eexists; (split; [reflexivity|]); now destruct s as [? ? ? ? [] ?]. Qed.

Lemma invert_display_screen invert dev s :
  exists tr, st7789_invert_display invert dev = (tr, Some (tt, dev)) /\
    screen_of (lcd_run s tr) = mk_screen (lcd_fb s) (with_inverted invert (lcd_md s)).
Proof. destruct invert; eexists; (split; [reflexivity|]); now destruct s as [? ? ? ? [] ?]. Qed.

(** Every valid call returns with the handle [handle_step] gives and
    takes the controller's visible state to the abstract screen's next
    state. *)
Lemma api_run_spec stack c dev s :
  length stack = 2048%nat -> valid_call c = true ->
  exists tr, api_run stack c dev = (tr, Some (tt, handle_step dev c)) /\
    screen_of (lcd_run s tr) = screen_step (screen_of s) c.
Proof.
  intros Hst Hv. destruct c; cbn [valid_call] in Hv; valid_facts.
  1: apply init_screen.
  all: cbn [api_run screen_step handle_step scr_fb scr_modes screen_of].
  - apply fill_rect_screen; auto; unfold ST7789_WIDTH, ST7789_HEIGHT; lia.
  - now apply fill_rect_screen.
  - apply draw_pixel_screen.
  - now apply draw_hline_screen.
  - now apply draw_vline_screen.
  - now apply draw_circle_screen.
  - now apply fill_circle_screen.
  - now apply draw_bitmap_screen.
  - destruct (set_rotation_screen rotation dev s) as (tr & Hrun & Hscr).
    exists tr. split; [exact Hrun|]. rewrite Hscr. now destruct (rotation_of_value rotation).
  - apply display_on_screen.
  - apply invert_display_screen.
Qed.

(** ** Sessions *)

(** C1: A session of valid calls returns, with the handle configured if
    it called [st7789_init] and unchanged otherwise, and the controller
    running its trace ends in the abstract screen the calls describe, from
    whatever state it started in. *)
Theorem api_session_refines stack cs dev s :
  length stack = 2048%nat -> forallb valid_call cs = true ->
  exists tr, api_session stack cs dev = (tr, Some (tt, fold_left handle_step cs dev)) /\
    screen_of (lcd_run s tr) = fold_left screen_step cs (screen_of s).
Proof.
  intros Hst. revert dev s. induction cs as [|c cs IH]; intros dev s Hv.
  - exists []. split; reflexivity.
  - cbn [forallb] in Hv. apply andb_prop in Hv as [Hc Hcs].
    destruct (api_run_spec stack c dev s Hst Hc) as (tr1 & Hrun & Hscr).
    destruct (IH (handle_step dev c) (lcd_run s tr1) Hcs) as (tr2 & Hrun2 & Hscr2).
    exists (tr1 ++ tr2). cbn [api_session]. rewrite (bind_returns _ _ _ _ _ _ Hrun), Hrun2.
    split; [reflexivity|]. cbn [fold_left]. now rewrite lcd_run_app, Hscr2, Hscr.
Qed.

End WithHal.

(** ** Witnesses *)

(** A session using every kind of call, with a rotation value outside the enum. *)
Definition demo_session : list api_call :=
  [Init; Clear ST7789_BLACK; FillRect 10 10 20 20 ST7789_RED; DrawPixel 0 0 ST7789_WHITE;
   DrawHline 0 5 10 ST7789_WHITE; DrawVline 5 0 10 ST7789_WHITE;
   DrawCircle 120 120 10 ST7789_RED; FillCircle 60 60 5 ST7789_WHITE;
   DrawBitmap 200 200 2 2 [1; 2; 3; 4]; SetRotation 1; SetRotation 7;
   DisplayOn true; InvertDisplay false].

(** Witness of C1 [api_session_refines] on [demo_session]. *)
Lemma api_session_refines_witness :
  exists tr, @api_session hal_accepting (repeat 0 2048) demo_session st7789_spi_zero =
               (tr, Some (tt, fold_left handle_step demo_session st7789_spi_zero)) /\
    screen_of (lcd_run lcd_power_on tr) =
      fold_left (@screen_step hal_accepting) demo_session (screen_of lcd_power_on).
Proof. apply (@api_session_refines hal_accepting); reflexivity. Defined.
