(* ===== verification/Spans.v ===== *)
(** * The spans of a filled circle drawn as lines

    Section 4.4 of the spec allows [st7789_fill_circle] to draw its spans
    with a horizontal-line primitive instead of pixel by pixel, "provided
    the resulting pixel set is identical".  This file writes that variant
    down ([fill_circle_lines]: the loop of st7789.c 251-276 with each
    inner [for] replaced by two calls of [st7789_draw_hline], arguments
    converted to [uint16_t] as C converts them) and compares it with the
    code on the controller model.  The two leave the same screen when
    every span stays inside the 16-bit coordinate range
    ([fill_circle_lines_equiv]).  At the left edge they differ: the pixel
    loop wraps each pixel to the far end of the range, while a line gets
    a window whose end lies before its start, so the controller writes
    all its pixels at one position ([fill_circle_lines_edge]). *)

From Stdlib Require Import ZArith List Lia.
From stdpp Require Import base list gmap.
From S2P Require Import Prelude Monad Hal Encoder Window Raster Circle Controller Refinement Session.
Import ListNotations.
Open Scope Z_scope.

(** ** The line variant *)

Definition fill_lines_body (x0 y0 color : Z) (st : circ) : DM circ :=
  let x := cx st in let y := cy st in
  st7789_draw_hline (u16 (x0 - y)) (u16 (y0 + x)) (u16 (2 * y + 1)) color ;;
  st7789_draw_hline (u16 (x0 - y)) (u16 (y0 - x)) (u16 (2 * y + 1)) color ;;
  st7789_draw_hline (u16 (x0 - x)) (u16 (y0 + y)) (u16 (2 * x + 1)) color ;;
  st7789_draw_hline (u16 (x0 - x)) (u16 (y0 - y)) (u16 (2 * x + 1)) color ;;
  ret (circle_update st).

Definition fill_circle_lines (x0 y0 r color : Z) : DM unit :=
  _ <- while_ circle_fuel circle_cond (fill_lines_body x0 y0 color) (circle_init r) ;;
  ret tt.

(** The frames of one [st7789_draw_hline] and of one loop state. *)
Definition hline_frames (x y w color : Z) : list frame :=
  window_frames x y (u16 (x + w - 1)) y ++ solid_frames w color.

Definition line_frames (x0 y0 color : Z) (st : circ) : list frame :=
  let x := cx st in let y := cy st in
  hline_frames (u16 (x0 - y)) (u16 (y0 + x)) (u16 (2 * y + 1)) color ++
  hline_frames (u16 (x0 - y)) (u16 (y0 - x)) (u16 (2 * y + 1)) color ++
  hline_frames (u16 (x0 - x)) (u16 (y0 + y)) (u16 (2 * x + 1)) color ++
  hline_frames (u16 (x0 - x)) (u16 (y0 - y)) (u16 (2 * x + 1)) color.

(** The positions the four lines of a loop state cover, in range. *)
Definition line_points (x0 y0 : Z) (st : circ) : list (Z * Z) :=
  let x := cx st in let y := cy st in
  rect_points (x0 - y) (y0 + x) (2 * y + 1) 1 ++ rect_points (x0 - y) (y0 - x) (2 * y + 1) 1 ++
  rect_points (x0 - x) (y0 + y) (2 * x + 1) 1 ++ rect_points (x0 - x) (y0 - y) (2 * x + 1) 1.

(** A list of frames paints a list of positions with one colour, whatever
    the controller's state, and keeps the mode registers. *)
Definition paints_frames (fs : list frame) (c : Z) (pts : list (Z * Z)) : Prop :=
  forall dev s, screen_of (lcd_run s (frames dev fs)) =
                mk_screen (paint_points c pts (lcd_fb s)) (lcd_md s).

(** ** Lemmas *)

Lemma paints_frames_app fs1 fs2 c p1 p2 :
  paints_frames fs1 c p1 -> paints_frames fs2 c p2 -> paints_frames (fs1 ++ fs2) c (p1 ++ p2).
Proof.
  intros H1 H2 dev s. rewrite frames_app, lcd_run_app, H2.
  pose proof (H1 dev s) as E. unfold screen_of in E. injection E as -> ->.
  unfold paint_points. now rewrite fold_left_app.
Qed.

Lemma paints_frames_flat_map {A} (g : A -> list frame) (q : A -> list (Z * Z)) c (l : list A) :
  Forall (fun a => paints_frames (g a) c (q a)) l -> paints_frames (flat_map g l) c (flat_map q l).
Proof.
  induction 1 as [|a l Ha _ IH]; [intros dev s; reflexivity|].
  cbn [flat_map]. now apply paints_frames_app.
Qed.

(** Painting with one colour depends only on the set of positions. *)
Lemma paint_points_ext c (l1 l2 : list (Z * Z)) fb :
  (forall p, In p l1 <-> In p l2) -> paint_points c l1 fb = paint_points c l2 fb.
Proof.
  intros E. apply map_eq. intros p. destruct (decide (p ∈ l1)) as [Hp|Hp];
    rewrite list_elem_of_In, E in Hp.
  - rewrite !paint_points_in; [reflexivity | exact Hp | now apply E].
  - rewrite !paint_points_notin; [reflexivity | exact Hp | now rewrite E].
Qed.

Lemma hline_frames_paints x y w color :
  is_u16 x = true -> is_u16 y = true -> is_u16 color = true -> 1 <= w -> x + w <= 65536 ->
  paints_frames (hline_frames x y w color) (u16 color) (rect_points x y w 1).
Proof.
  intros Hx Hy Hc Hw Hxw dev s.
  destruct (draw_hline_screen x y w color dev s Hx Hy Hc Hw Hxw) as (tr & E & Hs).
  rewrite (st7789_draw_hline_send x y w color dev) in E. injection E as <-. exact Hs.
Qed.

Lemma fill_lines_body_tells x0 y0 color st :
  fill_lines_body x0 y0 color st ≡ₘ
  (tells (fun dev => frames dev (line_frames x0 y0 color st)) ;; ret (circle_update st)).
Proof.
  unfold fill_lines_body. setoid_rewrite st7789_draw_hline_send. rewrite !send_app_k.
  unfold line_frames, hline_frames. rewrite <- !app_assoc. reflexivity.
Qed.

(** The line variant terminates for every 16-bit radius. *)
Lemma fill_circle_lines_trace x0 y0 r color dev :
  is_u16 r = true ->
  fill_circle_lines x0 y0 r color dev =
    (frames dev (flat_map (line_frames x0 y0 color) (circle_states r)), Some (tt, dev)).
Proof.
  intros Hr. unfold fill_circle_lines. unfold bind at 1.
  rewrite (while_tells_on circle_cond circle_update
             (fun st dev => frames dev (line_frames x0 y0 color st))).
  - destruct (circle_iterate_finishes r Hr) as (fin & Hfin). rewrite Hfin.
    unfold option_map, ret. cbv beta iota zeta. rewrite app_nil_r.
    unfold circle_states. now rewrite frames_flat_map.
  - apply List.Forall_forall. intros st _. apply fill_lines_body_tells.
Qed.

Lemma zrange_in lo n v : In v (zrange lo n) -> lo <= v < lo + Z.of_nat n.
Proof. unfold zrange. rewrite in_map_iff. intros (k & <- & Hk). apply in_seq in Hk. lia. Qed.

(** The positions of a span inside the coordinate range. *)
Lemma in_span_points_range lo hi row1 row2 p :
  0 <= lo <= hi + 1 -> hi <= 32766 -> 0 <= row1 < 65536 -> 0 <= row2 < 65536 ->
  In p (span_points lo hi row1 row2) <-> lo <= fst p <= hi /\ (snd p = row1 \/ snd p = row2).
Proof.
  intros Hlo Hhi H1 H2.
  unfold span_points. rewrite span_values_exact, in_flat_map by lia. split.
  - intros (i & Hi & Hp). apply zrange_in in Hi.
    cbn in Hp. rewrite !(u16_small i), u16_small, (u16_small row2) in Hp by lia.
    destruct Hp as [<-|[<-|[]]]; cbn; lia.
  - destruct p as [a b]. cbn. intros [Ha Hb]. exists a. split; [apply in_zrange; lia|].
    rewrite (u16_small a), (u16_small row1), (u16_small row2) by lia.
    destruct Hb as [->| ->]; auto.
Qed.

Lemma in_line_rect x y w p :
  1 <= w -> In p (rect_points x y w 1) <-> x <= fst p < x + w /\ snd p = y.
Proof.
  intros Hw. rewrite in_rect_points by exact Hw. unfold in_rect.
  rewrite !Bool.andb_true_iff, !Z.leb_le, !Z.ltb_lt. lia.
Qed.

(** In range, the two spans of a loop state and its four lines cover the
    same positions. *)
Lemma state_points_same x0 y0 st p :
  0 <= cx st <= cy st -> cy st <= x0 -> cy st <= y0 -> x0 + cy st <= 32766 -> y0 + cy st <= 65535 ->
  In p (span_points (x0 - cy st) (x0 + cy st) (y0 + cx st) (y0 - cx st) ++
        span_points (x0 - cx st) (x0 + cx st) (y0 + cy st) (y0 - cy st)) <->
  In p (line_points x0 y0 st).
Proof.
  intros. unfold line_points. rewrite !in_app_iff, !in_span_points_range, !in_line_rect by lia.
  lia.
Qed.

(** In range, the four lines of a loop state paint its [line_points]. *)
Lemma line_frames_paints x0 y0 color st :
  is_u16 color = true -> 0 <= cx st <= cy st -> cy st <= x0 -> cy st <= y0 ->
  x0 + cy st <= 65535 -> y0 + cy st <= 65535 ->
  paints_frames (line_frames x0 y0 color st) (u16 color) (line_points x0 y0 st).
Proof.
  intros Hc Hxy Hx Hy Hx1 Hy1. unfold line_frames, line_points.
  set (x := cx st) in *. set (y := cy st) in *.
  rewrite (u16_small (x0 - y)), (u16_small (x0 - x)), (u16_small (y0 + x)), (u16_small (y0 - x)),
    (u16_small (y0 + y)), (u16_small (y0 - y)), (u16_small (2 * y + 1)), (u16_small (2 * x + 1))
    by lia.
  repeat apply paints_frames_app; apply hline_frames_paints;
    first [exact Hc | rewrite is_u16_spec; lia | lia].
Qed.

(** C34: the line variant the spec permits is a faithful optimisation
    when the disc lies inside the 16-bit coordinate range with its centre
    at least [r] from the left and top edges: it returns as the code does
    and leaves the controller with the same frame memory and mode
    registers, from any controller state. *)
Theorem fill_circle_lines_equiv x0 y0 r color dev s :
  0 <= r <= x0 -> r <= y0 -> x0 + r <= 32766 -> y0 + r <= 65535 -> is_u16 color = true ->
  snd (fill_circle_lines x0 y0 r color dev) = snd (st7789_fill_circle x0 y0 r color dev) /\
  screen_of (lcd_run s (fst (fill_circle_lines x0 y0 r color dev))) =
  screen_of (lcd_run s (fst (st7789_fill_circle x0 y0 r color dev))).
Proof.
  intros Hr Hy Hx1 Hy1 Hc. assert (Hr16 : is_u16 r = true) by (apply is_u16_spec; lia).
  pose proof (circle_states_bounds r Hr16) as Hb. rewrite s16_small in Hb by lia.
  split.
  { rewrite fill_circle_lines_trace, st7789_fill_circle_trace by (assumption || lia). reflexivity. }
  destruct (fill_circle_screen x0 y0 r color dev s ltac:(lia) ltac:(lia) Hx1) as (tr & Etr & Hs).
  rewrite Etr. cbn [fst]. rewrite Hs.
  rewrite fill_circle_lines_trace by exact Hr16. cbn [fst].
  rewrite (paints_frames_flat_map _ (line_points x0 y0)).
  - f_equal. apply paint_points_ext. intros p. unfold fill_points. rewrite !in_flat_map.
    split; intros (st & Hst & Hp); exists st; split; try exact Hst;
      pose proof (proj1 (List.Forall_forall _ _) Hb st Hst) as Hbs; cbv beta in Hbs.
    + rewrite state_points_same by lia. exact Hp.
    + rewrite <- state_points_same by lia. exact Hp.
  - eapply Forall_impl; [exact Hb|]. intros st Hst. cbv beta in Hst.
    apply line_frames_paints; auto; lia.
Qed.

(** At the left edge the line variant is not equivalent.  For the
    disc of radius 2 at (1, 10), the code's pixel loop paints (0, 10)
    (its span from column -1 wraps only the first pixel, to 65535), while
    the first line's window runs from column 65535 to column 3, so the
    controller writes all five of its pixels at (65535, 10) and (0, 10)
    is never painted. *)
Example fill_circle_lines_edge :
  lcd_fb (lcd_run lcd_power_on (fst (st7789_fill_circle 1 10 2 ST7789_WHITE st7789_spi_zero)))
    !! (0, 10) = Some ST7789_WHITE /\
  lcd_fb (lcd_run lcd_power_on (fst (fill_circle_lines 1 10 2 ST7789_WHITE st7789_spi_zero)))
    !! (0, 10) = None.
Proof. split; vm_compute; reflexivity. Qed.

(** Witness of C34: a disc of radius 5 centred at (60, 60). *)
Lemma fill_circle_lines_equiv_witness :
  snd (fill_circle_lines 60 60 5 ST7789_WHITE st7789_spi_zero) =
    snd (st7789_fill_circle 60 60 5 ST7789_WHITE st7789_spi_zero) /\
  screen_of (lcd_run lcd_power_on (fst (fill_circle_lines 60 60 5 ST7789_WHITE st7789_spi_zero))) =
  screen_of (lcd_run lcd_power_on (fst (st7789_fill_circle 60 60 5 ST7789_WHITE st7789_spi_zero))).
Proof. apply fill_circle_lines_equiv; [lia | lia | lia | lia | reflexivity]. Defined.
