(* ===== verification/Wire.v ===== *)
(** * Which handle the SPI transfers of a session use

    The driver keeps one global handle, [st7789_spi], which [st7789_init]
    overwrites before it asks the platform to initialise SPI, and keeps
    overwritten whether the platform accepts it or not.  This file tracks
    the handle each transfer of a session goes out on.  A trace is on a
    handle when all its transfers use that handle and carry [uint8_t]
    bytes ([wire_ok]; [frame_ok] is the byte condition on one frame, kept
    so that the model's frames are known to be those of [uint8_t]
    buffers).  The theorem: in a session that begins with [st7789_init],
    every transfer uses the configured handle. *)

From Stdlib Require Import ZArith List Lia Bool.
From stdpp Require Import base list.
From S2P Require Import Prelude Monad Hal Encoder Window Raster Circle Init Controller Refinement Session.
Import ListNotations.
Open Scope Z_scope.

(** ** Well-typed frames and traces *)

Definition frame_ok (f : frame) : bool :=
  match f with FCmd c => is_u8 c | FData bs => forallb is_u8 bs end.

Definition wire_ok (d : spi_dev_t) (tr : list event) : Prop :=
  forall d' bs, In (EvSpiSend d' bs) tr -> d' = d /\ forallb is_u8 bs = true.

(** ** Lemmas *)

Lemma wire_ok_app d tr1 tr2 : wire_ok d tr1 -> wire_ok d tr2 -> wire_ok d (tr1 ++ tr2).
Proof. intros H1 H2 d' bs Hin. apply in_app_or in Hin as [Hin|Hin]; auto. Qed.

Lemma frames_wire_ok dev fs : forallb frame_ok fs = true -> wire_ok dev (frames dev fs).
Proof.
  induction fs as [|f fs IH]; intros Hfs d' bs Hin; [destruct Hin|].
  cbn [forallb] in Hfs. apply andb_prop in Hfs as [Hf Hfs].
  unfold frames in Hin. cbn [flat_map] in Hin. apply in_app_or in Hin as [Hin|Hin].
  - destruct f; cbn in Hin; repeat destruct Hin as [Hin|Hin]; try discriminate; try contradiction;
      injection Hin as <- <-; split; cbn in *; rewrite ?Hf; auto.
  - now apply IH.
Qed.

Lemma is_u8_hi8 v : is_u8 (hi8 v) = true.
Proof. apply is_u8_spec, hi8_range. Qed.

Lemma is_u8_lo8 v : is_u8 (lo8 v) = true.
Proof. apply is_u8_spec, lo8_range. Qed.

Lemma be16_ok v : forallb is_u8 (be16 v) = true.
Proof. cbn. now rewrite is_u8_hi8, is_u8_lo8. Qed.

Lemma serialize_ok px : forallb is_u8 (serialize px) = true.
Proof.
  induction px as [|v px IH]; [reflexivity|].
  unfold serialize. cbn [flat_map]. rewrite forallb_app. fold (serialize px).
  now rewrite be16_ok, IH.
Qed.

Lemma window_frames_ok x0 y0 x1 y1 : forallb frame_ok (window_frames x0 y0 x1 y1) = true.
Proof. cbn -[hi8 lo8]. now rewrite !is_u8_hi8, !is_u8_lo8. Qed.

Lemma solid_frames_ok n color : forallb frame_ok (solid_frames n color) = true.
Proof.
  unfold solid_frames. induction (Z.to_nat n) as [|k IH]; [reflexivity|].
  cbn [repeat forallb frame_ok]. now rewrite IH, andb_true_r, be16_ok.
Qed.

Lemma pixel_frames_ok color p : forallb frame_ok (pixel_frames color p) = true.
Proof.
  unfold pixel_frames. rewrite forallb_app, window_frames_ok. cbn [forallb frame_ok].
  now rewrite be16_ok.
Qed.

Lemma flat_map_frames_ok {A} (g : A -> list frame) l :
  (forall a, forallb frame_ok (g a) = true) -> forallb frame_ok (flat_map g l) = true.
Proof.
  intros Hg. induction l as [|a l IH]; [reflexivity|].
  cbn [flat_map]. now rewrite forallb_app, Hg, IH.
Qed.

Lemma pixels_send_ok color pts dev : wire_ok dev (pixels_send color pts dev).
Proof. apply frames_wire_ok, flat_map_frames_ok, pixel_frames_ok. Qed.

(** A routine equal to the [send] of well-typed frames is well typed. *)
Lemma send_wire_ok (m : DM unit) fs dev :
  m ≡ₘ send fs -> forallb frame_ok fs = true -> wire_ok dev (fst (m dev)).
Proof. intros E Hfs. rewrite (E dev). now apply frames_wire_ok. Qed.

(** Every transfer of a concrete list of events, read off one by one. *)
Ltac wire_by_cases :=
  let d' := fresh "d'" in let bs := fresh "bs" in let Hin := fresh "Hin" in
  intros d' bs Hin; cbn in Hin;
  repeat destruct Hin as [Hin|Hin]; try discriminate; try contradiction;
  injection Hin as <- <-; split; reflexivity.

Lemma bitmap_frames_ok cs : forallb frame_ok (map (fun c => FData (serialize c)) cs) = true.
Proof.
  induction cs as [|c cs IH]; [reflexivity|]. cbn [map forallb frame_ok]. now rewrite serialize_ok, IH.
Qed.

Section WithHal.
Context `{Hal}.

(** Every valid call transfers [uint8_t] bytes only, on the handle it
    returns with. *)
Lemma api_run_wire stack c dev :
  length stack = 2048%nat -> valid_call c = true ->
  wire_ok (handle_step dev c) (fst (api_run stack c dev)).
Proof.
  intros Hst Hv. destruct c; cbn [valid_call] in Hv; valid_facts; range_facts;
    cbn [api_run handle_step].
  - unfold bind at 1, st7789_init. cbn.
    destruct (hal_spi_init _ =? 0); cbn; wire_by_cases.
  - eapply send_wire_ok.
    + apply st7789_fill_rect_send; unfold ST7789_WIDTH, ST7789_HEIGHT; lia.
    + now rewrite forallb_app, window_frames_ok, solid_frames_ok.
  - eapply send_wire_ok; [apply st7789_fill_rect_send; lia|].
    now rewrite forallb_app, window_frames_ok, solid_frames_ok.
  - eapply send_wire_ok; [apply st7789_draw_pixel_send|]. apply (pixel_frames_ok color (x, y)).
  - eapply send_wire_ok; [apply st7789_draw_hline_send|].
    now rewrite forallb_app, window_frames_ok, solid_frames_ok.
  - eapply send_wire_ok; [apply st7789_draw_vline_send|].
    now rewrite forallb_app, window_frames_ok, solid_frames_ok.
  - rewrite st7789_draw_circle_trace. apply pixels_send_ok.
  - rewrite st7789_fill_circle_trace by lia. apply pixels_send_ok.
  - eapply send_wire_ok; [apply st7789_draw_bitmap_send; lia|].
    now rewrite forallb_app, window_frames_ok, bitmap_frames_ok.
  - unfold st7789_set_rotation, bind. cbn.
    repeat match goal with |- context [if ?b then _ else _] => destruct b end;
      cbn; wire_by_cases.
  - destruct on; cbn; wire_by_cases.
  - destruct invert; cbn; wire_by_cases.
Qed.

(** The transfers of a valid session: [uint8_t] bytes, on the handle the
    session started with or on the handle [st7789_init] configured. *)
Lemma api_session_wire stack cs dev :
  length stack = 2048%nat -> forallb valid_call cs = true ->
  forall d bs, In (EvSpiSend d bs) (fst (api_session stack cs dev)) ->
    forallb is_u8 bs = true /\ (d = dev \/ d = st7789_spi_configured dev).
Proof.
  intros Hst. revert dev. induction cs as [|c cs IH]; intros dev Hv d bs Hin; [destruct Hin|].
  cbn [forallb] in Hv. apply andb_prop in Hv as [Hc Hcs].
  destruct (api_run_spec stack c dev lcd_power_on Hst Hc) as (tr1 & Hrun & _).
  cbn [api_session] in Hin. rewrite (bind_returns _ _ _ _ _ _ Hrun) in Hin.
  cbn [fst] in Hin. apply in_app_or in Hin as [Hin|Hin].
  - pose proof (api_run_wire stack c dev Hst Hc) as Hw. rewrite Hrun in Hw.
    destruct (Hw d bs Hin) as [-> Hb]. split; [exact Hb|]. destruct c; cbn; auto.
  - destruct (IH (handle_step dev c) Hcs d bs Hin) as [Hb Hd]. split; [exact Hb|].
    destruct c; cbn [handle_step] in Hd; destruct Hd; auto.
Qed.

(** C32: in a session that starts with [st7789_init], every SPI transfer
    uses the handle the initialisation configured (mode 0, 40 MHz, 8-bit,
    chip select on pin 4), whatever the platform answered, and carries
    [uint8_t] bytes. *)
Theorem init_session_configured_handle stack cs dev :
  length stack = 2048%nat -> forallb valid_call cs = true ->
  wire_ok (st7789_spi_configured dev) (fst (api_session stack (Init :: cs) dev)).
Proof.
  intros Hst Hv d bs Hin.
  destruct (api_run_spec stack Init dev lcd_power_on Hst eq_refl) as (tr1 & Hrun & _).
  cbn [api_session] in Hin. rewrite (bind_returns _ _ _ _ _ _ Hrun) in Hin.
  cbn [fst handle_step] in Hin. apply in_app_or in Hin as [Hin|Hin].
  - pose proof (api_run_wire stack Init dev Hst eq_refl) as Hw. rewrite Hrun in Hw.
    exact (Hw d bs Hin).
  - destruct (api_session_wire stack cs _ Hst Hv d bs Hin) as [Hb [-> | ->]]; split; auto.
Qed.

End WithHal.

(** ** Witnesses *)

(** Witness of C32: the demo session after its leading [Init]. *)
Lemma init_session_configured_handle_witness :
  Forall (fun e => match e with
                   | EvSpiSend d bs => d = st7789_spi_configured st7789_spi_zero /\ forallb is_u8 bs = true
                   | _ => True end)
         (fst (@api_session hal_refusing (repeat 0 2048) demo_session st7789_spi_zero)).
Proof.
  apply List.Forall_forall. intros [| | |d bs| |] Hin; try exact I.
  apply (@init_session_configured_handle hal_refusing (repeat 0 2048) (tl demo_session)
           st7789_spi_zero eq_refl eq_refl d bs Hin).
Defined.
