(* ===== verification/Reachable.v ===== *)
(** * The controller states a driver can reach

    The controller of [Controller.v] is a state machine over bus events.
    Its states reachable from power-on by events whose SPI bytes are
    [uint8_t] values ([reachable]) all satisfy [lcd_inv]: the window and
    write-pointer registers and every frame-memory address and colour are
    16-bit values, a pending half pixel is a byte, and while a memory
    write is in progress the pointer lies inside the window (between its
    start and the larger of its start and end).  The invariant is
    established at power-on and preserved by every event, by induction on
    [reachable].  These are facts about the controller model, which the
    refinement theorems of [Refinement.v] run on; they hold whatever bytes
    the driver sends. *)

From Stdlib Require Import ZArith List Lia Bool.
From stdpp Require Import base list gmap.
From S2P Require Import Prelude Hal Controller.
Import ListNotations.
Open Scope Z_scope.

(** ** Reachable states *)

(** An event whose SPI bytes, if any, are [uint8_t] values. *)
Definition event_ok (e : event) : bool :=
  match e with EvSpiSend _ bs => forallb is_u8 bs | _ => true end.

Inductive reachable : lcd -> Prop :=
| reachable_power_on : reachable lcd_power_on
| reachable_step s e : reachable s -> event_ok e = true -> reachable (lcd_event s e).

(** ** The invariant *)

Definition in_u16 (v : Z) : Prop := 0 <= v < 65536.

Definition engine_ok (c : Z) (e : engine) : Prop :=
  in_u16 (xs e) /\ in_u16 (xe e) /\ in_u16 (ys e) /\ in_u16 (ye e) /\
  in_u16 (col e) /\ in_u16 (row e) /\
  (forall h, pend e = Some h -> 0 <= h < 256) /\
  (c = ST7789_RAMWR ->
     xs e <= col e <= Z.max (xs e) (xe e) /\ ys e <= row e <= Z.max (ys e) (ye e)).

Definition lcd_inv (s : lcd) : Prop :=
  engine_ok (lcd_cmd s) (lcd_eng s) /\
  Forall (fun a => 0 <= a < 256) (lcd_args s) /\
  map_Forall (fun p v => in_u16 (fst p) /\ in_u16 (snd p) /\ in_u16 v) (lcd_fb s).

(** ** Preservation *)

Ltac inv_arith := unfold engine_ok, in_u16 in *; cbn [xs xe ys ye col row pend] in *.

Lemma lcd_power_on_inv : lcd_inv lcd_power_on.
Proof.
  split; [|split; [constructor | apply map_Forall_empty]].
  inv_arith. repeat split; try lia; discriminate.
Qed.

(** One pixel moves the pointer within the window. *)
Lemma advance_ok c e : engine_ok c e -> engine_ok c (advance e).
Proof.
  intros (Hxs & Hxe & Hys & Hye & Hc & Hr & _ & Hw). unfold advance.
  destruct (Z.ltb_spec (col e) (xe e)); [|destruct (Z.ltb_spec (row e) (ye e))];
    inv_arith; repeat split; try lia; try discriminate;
    intros Hcmd; specialize (Hw Hcmd); lia.
Qed.

Lemma lcd_command_inv s c : lcd_inv s -> lcd_inv (lcd_command c s).
Proof.
  intros ((Hxs & Hxe & Hys & Hye & Hc & Hr & _ & Hw) & Ha & Hfb). unfold lcd_command.
  destruct (c =? ST7789_SWRESET).
  { split; [|split; [constructor | exact Hfb]]. inv_arith. repeat split; try lia; discriminate. }
  split; [|split; [constructor | exact Hfb]]. cbn [lcd_cmd lcd_eng].
  destruct (Z.eqb_spec c ST7789_RAMWR); inv_arith; repeat split; try lia; try discriminate;
    intros; contradiction.
Qed.

(** The window bounds of CASET and RASET are two bytes each. *)
Lemma bytes16 a0 a1 : 0 <= a0 < 256 -> 0 <= a1 < 256 -> in_u16 (a0 * 256 + a1).
Proof. unfold in_u16. lia. Qed.

Lemma lcd_inv_mk d c a e m fb :
  engine_ok c e -> Forall (fun a => 0 <= a < 256) a ->
  map_Forall (fun p v => in_u16 (fst p) /\ in_u16 (snd p) /\ in_u16 v) fb ->
  lcd_inv (mk_lcd d c a e m fb).
Proof. intros He Ha Hfb. exact (conj He (conj Ha Hfb)). Qed.

Lemma lcd_data_inv s b : lcd_inv s -> 0 <= b < 256 -> lcd_inv (lcd_data b s).
Proof.
  destruct s as [d c a e m fb]. intros (He & Ha & Hfb) Hb. cbn [lcd_cmd lcd_eng lcd_args lcd_fb] in *.
  pose proof He as (Hxs & Hxe & Hys & Hye & Hc & Hr & Hp & Hw).
  assert (Hab : Forall (fun a => 0 <= a < 256) (a ++ [b])) by (apply Forall_app; auto).
  unfold lcd_data.
  destruct (Z.eqb_spec c ST7789_CASET) as [->|Hn1]; [|destruct (Z.eqb_spec c ST7789_RASET) as [->|Hn2]].
  1, 2: revert Hab; destruct (a ++ [b]) as [|a0 [|a1 [|a2 [|a3 [|a4 l]]]]]; intros Hab;
    apply lcd_inv_mk; try exact Hab; try exact Hfb; try exact He;
    inversion_clear Hab as [|? ? H0 Hab1]; inversion_clear Hab1 as [|? ? H1 Hab2];
    inversion_clear Hab2 as [|? ? H2 Hab3]; inversion_clear Hab3 as [|? ? H3 _];
    inv_arith; repeat split; try lia; try discriminate;
    match goal with H : pend _ = Some ?h |- _ => specialize (Hp h H); lia end.
  destruct (c =? ST7789_MADCTL); [destruct a; apply lcd_inv_mk; auto|].
  destruct (c =? ST7789_COLMOD); [destruct a; apply lcd_inv_mk; auto|].
  destruct (Z.eqb_spec c ST7789_RAMWR) as [->|Hn3]; [|exact (conj He (conj Ha Hfb))].
  destruct (pend e) as [h|] eqn:Epend; apply lcd_inv_mk; try exact Ha; try exact Hfb.
  - now apply advance_ok.
  - apply map_Forall_insert_2; [|exact Hfb]. cbn. specialize (Hp h eq_refl).
    unfold in_u16 in *. repeat split; lia.
  - inv_arith. repeat split; try lia; try exact Hw;
      match goal with H : Some _ = Some _ |- _ => injection H as <-; lia end.
Qed.

Lemma lcd_byte_inv s b : lcd_inv s -> 0 <= b < 256 -> lcd_inv (lcd_byte s b).
Proof.
  intros Hs Hb. unfold lcd_byte.
  destruct (_ =? 0); [now apply lcd_command_inv | now apply lcd_data_inv].
Qed.

Lemma lcd_event_inv s e : lcd_inv s -> event_ok e = true -> lcd_inv (lcd_event s e).
Proof.
  intros Hs He. destruct e as [p m|p l|d|d bs|ms|t]; cbn [lcd_event]; try exact Hs.
  - destruct (p =? ST7789_DC_PIN); [exact Hs|]. destruct (_ && _); [|exact Hs].
    destruct Hs as (_ & _ & Hfb). apply lcd_inv_mk; [|constructor | exact Hfb].
    inv_arith. repeat split; try lia; discriminate.
  - cbn [event_ok] in He. revert s Hs. induction bs as [|b bs IH]; intros s Hs; [exact Hs|].
    cbn [forallb] in He. apply andb_prop in He as [Hb He]. cbn [fold_left].
    apply IH; [exact He|]. apply lcd_byte_inv; [exact Hs | now apply is_u8_spec].
Qed.

(** Every reachable state satisfies the invariant (induction on [reachable]). *)
Lemma reachable_inv s : reachable s -> lcd_inv s.
Proof. induction 1; [exact lcd_power_on_inv | now apply lcd_event_inv]. Qed.

Lemma lcd_run_reachable s tr :
  reachable s -> Forall (fun e => event_ok e = true) tr -> reachable (lcd_run s tr).
Proof.
  intros Hs Htr. revert s Hs. induction Htr as [|e tr He _ IH]; intros s Hs; [exact Hs|].
  unfold lcd_run. cbn [fold_left]. apply IH. now constructor.
Qed.
