(* ===== verification/Diagnostics.v ===== *)
(** * Console output (st7789.c 116)

    The driver prints one diagnostic, [printf("SPI初始化失败\n")], when
    [drv_spi_init] refuses the handle in [st7789_init]; no other function
    writes to the console.  A trace's console output is the list of texts
    of its [EvConsole] events ([console_output]).  The theorem of this file
    gives the console output of every session of valid calls: one copy of
    the message for each [st7789_init] the platform refuses, nothing else.
    Since [st7789_init] overwrites every field of the handle, whether the
    platform refuses it does not depend on the handle the call starts
    with. *)

From Stdlib Require Import String ZArith List Lia.
From S2P Require Import Prelude Monad Hal Encoder Window Raster Circle Init Controller Refinement Session.
Import ListNotations.
Open Scope Z_scope.

Definition console_output (tr : list event) : list string :=
  flat_map (fun e => match e with EvConsole t => [t] | _ => [] end) tr.

(** The console output a call is specified to produce. *)
Definition call_console `{Hal} (c : api_call) : list string :=
  match c with
  | Init => if hal_spi_init (st7789_spi_configured st7789_spi_zero) =? 0 then []
            else [spi_init_failed_msg]
  | _ => []
  end.

(** ** Lemmas *)

Lemma console_output_app tr1 tr2 :
  console_output (tr1 ++ tr2) = console_output tr1 ++ console_output tr2.
Proof. apply flat_map_app. Qed.

Lemma frames_console dev fs : console_output (frames dev fs) = [].
Proof.
  induction fs as [|f fs IH]; [reflexivity|].
  unfold frames. cbn [flat_map]. rewrite console_output_app. fold (frames dev fs).
  rewrite IH. now destruct f.
Qed.

(** A routine equal to the [send] of some frames prints nothing. *)
Lemma send_console (m : DM unit) fs dev : m ≡ₘ send fs -> console_output (fst (m dev)) = [].
Proof. intros E. rewrite (E dev). apply frames_console. Qed.

Section WithHal.
Context `{Hal}.

Lemma api_run_console stack c dev :
  length stack = 2048%nat -> valid_call c = true ->
  console_output (fst (api_run stack c dev)) = call_console c.
Proof.
  intros Hst Hv. destruct c; cbn [valid_call] in Hv; valid_facts; range_facts;
    cbn [api_run call_console].
  - unfold bind at 1, st7789_init. cbn. now destruct (hal_spi_init _ =? 0).
  - eapply send_console, st7789_fill_rect_send; unfold ST7789_WIDTH, ST7789_HEIGHT; lia.
  - eapply send_console, st7789_fill_rect_send; lia.
  - eapply send_console, st7789_draw_pixel_send.
  - eapply send_console, st7789_draw_hline_send.
  - eapply send_console, st7789_draw_vline_send.
  - rewrite st7789_draw_circle_trace. apply frames_console.
  - rewrite st7789_fill_circle_trace by lia. apply frames_console.
  - eapply send_console, st7789_draw_bitmap_send; lia.
  - unfold st7789_set_rotation, bind. cbn.
    now repeat match goal with |- context [if ?b then _ else _] => destruct b end.
  - now destruct on.
  - now destruct invert.
Qed.

(** C35: the console output of a session of valid calls is one copy of
    the message "SPI初始化失败\n" for each [st7789_init] the platform
    refuses, in order, and nothing else: no drawing or mode call prints. *)
Theorem api_session_console stack cs dev :
  length stack = 2048%nat -> forallb valid_call cs = true ->
  console_output (fst (api_session stack cs dev)) = flat_map call_console cs.
Proof.
  intros Hst. revert dev. induction cs as [|c cs IH]; intros dev Hv; [reflexivity|].
  cbn [forallb] in Hv. apply andb_prop in Hv as [Hc Hcs].
  destruct (api_run_spec stack c dev lcd_power_on Hst Hc) as (tr1 & Hrun & _).
  cbn [api_session flat_map]. rewrite (bind_returns _ _ _ _ _ _ Hrun). cbn [fst].
  rewrite console_output_app, IH by exact Hcs. f_equal.
  pose proof (api_run_console stack c dev Hst Hc) as E. now rewrite Hrun in E.
Qed.
End WithHal.

(** Witness of C35: on a platform that refuses the handle, the demo
    session (one [st7789_init]) prints the message once. *)
Lemma api_session_console_witness :
  console_output (fst (@api_session hal_refusing (repeat 0 2048) demo_session st7789_spi_zero)) =
    [spi_init_failed_msg].
Proof.
  rewrite (@api_session_console hal_refusing (repeat 0 2048) demo_session st7789_spi_zero eq_refl eq_refl).
  reflexivity.
Defined.
